(** * Omnichannel chat widget: lifecycle guards and CSAT scoring

    A shallow embedding of the conversation lifecycle guards
    (raceConditionPrevention.spec.ts, ConfirmationPaneStateful.tsx) and of
    the CSAT scoring service (SentimentAnalysisService.ts), with the
    properties the specification states about them. *)

From Stdlib Require Import Bool List ZArith Lia.
From Stdlib Require Import Ascii String.
From Stdlib Require Import Floats.
From Stdlib Require Import DecimalString DecimalNat.
Import ListNotations.

Set Implicit Arguments.

(* ================================================================== *)
(** * JavaScript values used by the sources *)
(* ================================================================== *)

Module JS.

(** [undefined] is [None].  [o ?. f] is the optional chain [o?.f] for a
    field that is always present on a defined object, [o ?.? f] the chain
    for a field that may itself be undefined. *)
Definition chain {A B : Type} (o : option A) (f : A -> B) : option B :=
  match o with
  | Some a => Some (f a)
  | None => None
  end.

Definition chain_opt {A B : Type} (o : option A) (f : A -> option B) : option B :=
  match o with
  | Some a => f a
  | None => None
  end.

(** ToBoolean on a boolean that may be undefined. *)
Definition truthy (o : option bool) : bool :=
  match o with
  | Some b => b
  | None => false
  end.

(** ToBoolean on a string that may be undefined: the empty string is falsy. *)
Definition truthy_string (o : option string) : bool :=
  match o with
  | Some EmptyString => false
  | Some (String _ _) => true
  | None => false
  end.

(** [a === b] where the left side may be undefined and the right side is a
    defined constant. *)
Definition strict_eq {A : Type} (eqb : A -> A -> bool) (o : option A) (c : A) : bool :=
  match o with
  | Some a => eqb a c
  | None => false
  end.

(** ** Strings

    A string is a sequence of code units; the model keeps the code units
    below 256, one [ascii] each, so [String.length] is the [length]
    property. *)

Definition newline : string := String (ascii_of_nat 10) EmptyString.

(** String.prototype.includes: [sub] occurs somewhere in [s]. *)
Fixpoint includes (s sub : string) : bool :=
  prefix sub s
  || match s with
     | EmptyString => false
     | String _ rest => includes rest sub
     end.

(** Optional call [o?.includes(sub)], then ToBoolean. *)
Definition includes_opt (o : option string) (sub : string) : bool :=
  match o with
  | Some s => includes s sub
  | None => false
  end.

(** White space and line terminators among the code units below 256:
    TAB, LF, VT, FF, CR, SP and NBSP. *)
Definition isWhiteSpace (c : ascii) : bool :=
  let n := nat_of_ascii c in
  ((9 <=? n) && (n <=? 13) || (n =? 32) || (n =? 160))%nat.

Fixpoint trimStart (s : string) : string :=
  match s with
  | EmptyString => EmptyString
  | String c rest => if isWhiteSpace c then trimStart rest else s
  end.

Definition reverse (s : string) : string :=
  string_of_list_ascii (rev (list_ascii_of_string s)).

Definition trim (s : string) : string :=
  reverse (trimStart (reverse (trimStart s))).

(** [/^[1-5]$/.test(s)]: without the multiline flag the anchors are the two
    ends of the input, so the input is one code unit between '1' and '5'. *)
Definition test_digit_1_5 (s : string) : bool :=
  match s with
  | String c EmptyString =>
      let n := nat_of_ascii c in ((49 <=? n) && (n <=? 53))%nat
  | _ => false
  end.

(** ** parseInt

    [parseInt(s)] with no radix: leading white space is skipped, a sign is
    read, a [0x]/[0X] prefix selects radix 16, and the longest run of
    digits of the radix is the value; no digit at all gives NaN.  The
    result is NaN ([None]) or an integer.  (Past 2^53 the Number is the
    rounded integer, which compares with 1 and 5 as the integer does; -0
    compares as 0.) *)
Definition digitValue (c : ascii) : option Z :=
  let n := nat_of_ascii c in
  if ((48 <=? n) && (n <=? 57))%nat then Some (Z.of_nat (n - 48))
  else if ((97 <=? n) && (n <=? 122))%nat then Some (Z.of_nat (n - 97 + 10))
  else if ((65 <=? n) && (n <=? 90))%nat then Some (Z.of_nat (n - 65 + 10))
  else None.

Fixpoint parseDigits (R : Z) (s : string) (acc : option Z) : option Z :=
  match s with
  | EmptyString => acc
  | String c rest =>
      match digitValue c with
      | Some d =>
          if (d <? R)%Z
          then parseDigits R rest
                 (Some (match acc with Some a => a * R + d | None => d end)%Z)
          else acc
      | None => acc
      end
  end.

Definition parseInt (input : string) : option Z :=
  let trimmed := trimStart input in
  let '(sign, unsigned) :=
    match trimmed with
    | String "-"%char rest => ((-1)%Z, rest)
    | String "+"%char rest => (1%Z, rest)
    | _ => (1%Z, trimmed)
    end in
  let '(R, digits) :=
    match unsigned with
    | String "0"%char (String "x"%char rest)
    | String "0"%char (String "X"%char rest) => (16%Z, rest)
    | _ => (10%Z, unsigned)
    end in
  match parseDigits R digits None with
  | Some mathInt => Some (sign * mathInt)%Z
  | None => None
  end.

(** [isNaN], [<] and [>] on the result of [parseInt]; a comparison with NaN
    is false. *)
Definition isNaN (x : option Z) : bool :=
  match x with None => true | Some _ => false end.

Definition lt (x : option Z) (c : Z) : bool :=
  match x with None => false | Some n => (n <? c)%Z end.

Definition gt (x : option Z) (c : Z) : bool :=
  match x with None => false | Some n => (c <? n)%Z end.

(** ** Numbers

    A Number is an IEEE 754 binary64 value, which is what [float] is. *)

(** The Number nearest to an integer. *)
Definition Number (z : Z) : float :=
  SF2Prim (binary_normalize prec emax z 0 false).

Definition isPositiveZero (x : float) : bool := is_zero x && negb (get_sign x).
Definition isNegativeZero (x : float) : bool := is_zero x && get_sign x.

(** Math.max: NaN if any argument is NaN; otherwise start from -Infinity
    and keep the larger, with +0 larger than -0. *)
Definition Math_max (args : list float) : float :=
  if existsb is_nan args then nan
  else fold_left
         (fun highest number =>
            if isPositiveZero number && isNegativeZero highest then number
            else if (highest <? number)%float then number
            else highest)
         args neg_infinity.

(** Math.min, symmetrically from +Infinity, with -0 smaller than +0. *)
Definition Math_min (args : list float) : float :=
  if existsb is_nan args then nan
  else fold_left
         (fun lowest number =>
            if isNegativeZero number && isPositiveZero lowest then number
            else if (number <? lowest)%float then number
            else lowest)
         args infinity.

(** Math.round: the nearest integral Number, a tie going towards
    +Infinity; NaN, the infinities, the zeros and integral Numbers are
    returned as they are, and a result of zero keeps the sign of the
    argument. *)
Definition Math_round (x : float) : float :=
  match Prim2SF x with
  | S754_finite s m e =>
      if (0 <=? e)%Z then x
      else
        let k := (- e)%Z in
        let twice := ((if s then Z.neg m else Z.pos m) * 2)%Z in
        let r := ((twice + 2 ^ k) / 2 ^ (k + 1))%Z in
        if (r =? 0)%Z then (if s then neg_zero else zero) else Number r
  | _ => x
  end.

End JS.

Declare Scope js_scope.
Delimit Scope js_scope with js.
Notation "o ?. f" := (JS.chain o f) (at level 25, left associativity) : js_scope.
Notation "o ?.? f" := (JS.chain_opt o f) (at level 25, left associativity) : js_scope.

(* ================================================================== *)
(** * Shared application state *)
(* ================================================================== *)

(** Modelled from the spec: the enum declared in
    contexts/common/ConversationState is imported by the sources but its
    declaration is not among them.  The members the sources name are listed;
    [Other] stands for the members the specification leaves unspecified. *)
Module ConversationState.
Inductive t : Type :=
  | Loading | Active | InActive | Closed | Postchat | PostchatLoading | Error
  | Other (tag : nat).

Definition eqb (a b : t) : bool :=
  match a, b with
  | Loading, Loading | Active, Active | InActive, InActive
  | Closed, Closed | Postchat, Postchat
  | PostchatLoading, PostchatLoading | Error, Error => true
  | Other m, Other n => Nat.eqb m n
  | _, _ => false
  end.
End ConversationState.

(** Modelled from the spec: [ConversationEndEntity] of common/Constants,
    whose declaration is not among the sources. *)
Module ConversationEndEntity.
Inductive t : Type :=
  | NotSet | Customer | Agent
  | System (tag : nat).

Definition eqb (a b : t) : bool :=
  match a, b with
  | NotSet, NotSet | Customer, Customer | Agent, Agent => true
  | System m, System n => Nat.eqb m n
  | _, _ => false
  end.
End ConversationEndEntity.

(** Modelled from the spec: [ConfirmationState] of common/Constants. *)
Module ConfirmationState.
Inductive t : Type := NotSet | Ok | Cancel.

Definition eqb (a b : t) : bool :=
  match a, b with
  | NotSet, NotSet | Ok, Ok | Cancel, Cancel => true
  | _, _ => false
  end.
End ConfirmationState.

(** The three slices of the widget context that the guards read. *)
Record IAppStates : Type := {
  conversationState : ConversationState.t;
  conversationEndedBy : ConversationEndEntity.t;
  startChatFailed : bool;
  isMinimized : bool;
  previousElementIdOnFocusBeforeModalOpen : option string
}.

Record IDomainStates : Type := {
  confirmationState : ConfirmationState.t
}.

Record IUiStates : Type := {
  showConfirmationPane : bool
}.

Record ILiveChatWidgetContext : Type := {
  appStates : option IAppStates;
  domainStates : option IDomainStates;
  uiStates : option IUiStates
}.

(* ================================================================== *)
(** * Conversation lifecycle guards *)
(* ================================================================== *)

Module Guard.
Import JS.
Local Open Scope js_scope.
Local Open Scope bool_scope.

(** raceConditionPrevention.spec.ts, lines 17-21:
    [inMemState?.appStates?.conversationEndedBy !== ConversationEndEntity.NotSet ||
     inMemState?.appStates?.conversationState === ConversationState.PostchatLoading ||
     inMemState?.appStates?.conversationState === ConversationState.Postchat ||
     (!isPersistent && inMemState?.appStates?.conversationState === ConversationState.InActive)] *)
Definition shouldPreventStartChat
    (inMemState : option ILiveChatWidgetContext) (isPersistent : bool) : bool :=
  negb (strict_eq ConversationEndEntity.eqb
          (inMemState ?.? appStates ?. conversationEndedBy)
          ConversationEndEntity.NotSet)
  || strict_eq ConversationState.eqb
       (inMemState ?.? appStates ?. conversationState)
       ConversationState.PostchatLoading
  || strict_eq ConversationState.eqb
       (inMemState ?.? appStates ?. conversationState)
       ConversationState.Postchat
  || (negb isPersistent
      && strict_eq ConversationState.eqb
           (inMemState ?.? appStates ?. conversationState)
           ConversationState.InActive).

(** raceConditionPrevention.spec.ts, lines 128-129:
    [inMemoryState?.appStates?.conversationState === ConversationState.Loading
     && !inMemoryState?.appStates?.startChatFailed] *)
Definition shouldPreventEndChat (inMemoryState : option ILiveChatWidgetContext) : bool :=
  strict_eq ConversationState.eqb
    (inMemoryState ?.? appStates ?. conversationState)
    ConversationState.Loading
  && negb (truthy (inMemoryState ?.? appStates ?. startChatFailed)).

(** What the auto-dismiss effect of the confirmation pane does to its
    surroundings: release of the focus trap, and actions sent to the store. *)
Inductive LiveChatWidgetActionType : Type :=
| SET_CONFIRMATION_STATE
| SET_SHOW_CONFIRMATION
| SET_PREVIOUS_FOCUSED_ELEMENT_ID.

Inductive Payload : Type :=
| PBool (b : bool)
| PConfirmation (c : ConfirmationState.t)
| PNull.

Record ILiveChatWidgetAction : Type := {
  type : LiveChatWidgetActionType;
  payload : Payload
}.

Inductive Effect : Type :=
| setTabIndices (restore : bool)
| dispatch (action : ILiveChatWidgetAction).

(** ConfirmationPaneStateful.tsx, lines 104-109: the [endChatCompleted]
    condition. *)
Definition endChatCompleted (state : option ILiveChatWidgetContext) : bool :=
  let conv := state ?.? appStates ?. conversationState in
  strict_eq ConversationState.eqb conv ConversationState.Closed
  || strict_eq ConversationState.eqb conv ConversationState.PostchatLoading
  || strict_eq ConversationState.eqb conv ConversationState.Postchat
  || strict_eq ConversationState.eqb conv ConversationState.Error
  || (strict_eq ConversationState.eqb conv ConversationState.Loading
      && truthy (state ?.? appStates ?. startChatFailed)).

(** ConfirmationPaneStateful.tsx, lines 95-119: the body of the
    auto-dismiss effect, as the list of effects one run performs. *)
Definition autoDismissEffect (state : option ILiveChatWidgetContext) : list Effect :=
  if negb (truthy (state ?.? uiStates ?. showConfirmationPane)) then []
  else if negb (strict_eq ConfirmationState.eqb
                  (state ?.? domainStates ?. confirmationState)
                  ConfirmationState.Ok) then []
  else if negb (endChatCompleted state) then []
  else [ setTabIndices true;
         dispatch {| type := SET_SHOW_CONFIRMATION; payload := PBool false |} ].

(** The dependency list of the effect (line 119): the effect runs again
    after a render only when one of these three values has changed. *)
Definition autoDismissDeps (state : option ILiveChatWidgetContext)
  : option ConversationState.t * option bool * option ConfirmationState.t :=
  (state ?.? appStates ?. conversationState,
   state ?.? uiStates ?. showConfirmationPane,
   state ?.? domainStates ?. confirmationState).

(** A widget context in which all three slices are present. *)
Definition context (app : IAppStates) (confirmation : ConfirmationState.t)
    (show : bool) : option ILiveChatWidgetContext :=
  Some {| appStates := Some app;
          domainStates := Some {| confirmationState := confirmation |};
          uiStates := Some {| showConfirmationPane := show |} |}.

(** The conversation has reached a settled phase. *)
Definition settled (app : IAppStates) : Prop :=
  conversationState app = ConversationState.Closed
  \/ conversationState app = ConversationState.PostchatLoading
  \/ conversationState app = ConversationState.Postchat
  \/ conversationState app = ConversationState.Error
  \/ (conversationState app = ConversationState.Loading
      /\ startChatFailed app = true).

Definition dismissal : Effect :=
  dispatch {| type := SET_SHOW_CONFIRMATION; payload := PBool false |}.

(** The in-memory state of the test suite: an [appStates] slice alone, the
    window not minimized and no element remembered for the focus. *)
Definition inMemState (conv : ConversationState.t)
    (endedBy : ConversationEndEntity.t) (failed : bool)
  : option ILiveChatWidgetContext :=
  Some {| appStates :=
            Some {| conversationState := conv;
                    conversationEndedBy := endedBy;
                    startChatFailed := failed;
                    isMinimized := false;
                    previousElementIdOnFocusBeforeModalOpen := None |};
          domainStates := None;
          uiStates := None |}.

End Guard.

(* ================================================================== *)
(** * CSAT scoring service (SentimentAnalysisService.ts) *)
(* ================================================================== *)

Module SentimentAnalysisService.
Import JS.
Local Open Scope js_scope.
Local Open Scope bool_scope.
Local Open Scope string_scope.
#[local] Set Warnings "-inexact-float".

(** ** Data *)

Inductive Sender : Type := customer | agent | bot.

Definition Sender_toString (s : Sender) : string :=
  match s with
  | customer => "customer"
  | agent => "agent"
  | bot => "bot"
  end.

Module ChatMessage.
Record t : Type := {
  content : string;
  sender : Sender;
  timestamp : string
}.
End ChatMessage.

Module SDKMessage.
Record Identity : Type := {
  displayName : option string;
  id : option string
}.
Record From : Type := {
  user : option Identity;
  application : option Identity
}.
Record t : Type := {
  content : option string;
  text : option string;
  messageType : option string;
  sender : option string;
  timestamp : option string;
  createdDateTime : option string;
  from : option From;
  tags : option string;
  isControlMessage : option bool
}.
End SDKMessage.

(** [reasoning], a sentence for the telemetry built with
    Number.prototype.toFixed, is left out of the record. *)
Record CSATResult : Type := {
  csatScore : float;
  confidence : float;
  sentiment : string;
  satisfactionLevel : string;
  surveyResponseIncluded : option bool
}.

Module CopilotSurveyResponse.
Record t : Type := {
  response : string;
  timestamp : string;
  conversationId : option string;
  userId : option string;
  botId : option string;
  confidence : option float
}.
End CopilotSurveyResponse.

Module DirectLineActivity.
Record ChannelData : Type := {
  clientActivityID : option string;
  cci_trace_id : option string
}.
Record From : Type := {
  id : option string
}.
Record t : Type := {
  type : option string;
  text : option string;
  textFormat : option string;
  channelData : option ChannelData;
  cci_bot_id : option string;
  from : option From;
  localTimestamp : option string
}.
End DirectLineActivity.

(** The document result of the text-analytics client
    ([SentimentAnalysisSuccessResult] of @azure/ai-language-text): the
    fields the parser reads. *)
Module SentimentAnalysisSuccessResult.
Record ConfidenceScores : Type := {
  positive : float;
  negative : float;
  neutral : float
}.
Record t : Type := {
  sentiment : option string;
  confidenceScores : option ConfidenceScores
}.
End SentimentAnalysisSuccessResult.

(** [a || b] on strings: the first if it is truthy, else the second. *)
Definition or_else (a : option string) (b : string) : string :=
  match a with
  | Some (String c rest) => String c rest
  | _ => b
  end.

(** ** mapSentimentToSatisfaction (lines 95-113) *)
Definition mapSentimentToSatisfaction (sentiment : string) (csatScore : float) : string :=
  if (csatScore =? 5)%float then "Very Satisfied"
  else if (csatScore =? 4)%float then "Satisfied"
  else if (csatScore =? 3)%float then "Neutral"
  else if (csatScore =? 2)%float then "Dissatisfied"
  else if (csatScore =? 1)%float then "Very Dissatisfied"
  else if (sentiment =? "positive")%string then "Satisfied"
  else if (sentiment =? "negative")%string then "Dissatisfied"
  else "Neutral".

(** ** determineSender (lines 247-257) *)
Definition determineSender (message : SDKMessage.t) : Sender :=
  if includes_opt (SDKMessage.tags message) "FromCustomer"
     || strict_eq String.eqb
          (SDKMessage.from message ?.? SDKMessage.application ?.? SDKMessage.displayName)
          "Customer"
  then customer
  else if includes_opt (SDKMessage.tags message) "public" then agent
  else bot.

(** ** getChatTranscript (lines 225-235): the filter and the map applied to
    the decoded message array; [now] is [new Date().toISOString()]. *)
Definition keepMessage (message : SDKMessage.t) : bool :=
  if truthy (SDKMessage.isControlMessage message) then false
  else if negb (truthy_string (SDKMessage.content message))
          || (String.length (trim (or_else (SDKMessage.content message) "")) =? 0)%nat
  then false
  else true.

Definition toChatMessage (now : string) (message : SDKMessage.t) : ChatMessage.t :=
  {| ChatMessage.content := or_else (SDKMessage.content message) "";
     ChatMessage.sender := determineSender message;
     ChatMessage.timestamp :=
       or_else (SDKMessage.createdDateTime message)
         (or_else (SDKMessage.timestamp message) now) |}.

Definition filteredMessages (now : string) (messages : list SDKMessage.t)
  : list ChatMessage.t :=
  map (toChatMessage now) (filter keepMessage messages).

(** ** Conversation text (callSentimentAnalysis, lines 302-316) *)
Definition MAX_TEXT_LENGTH : nat := 5000.

(** [`[${message.sender}]: ${message.content}\n`] *)
Definition messageText (message : ChatMessage.t) : string :=
  "[" ++ Sender_toString (ChatMessage.sender message) ++ "]: "
      ++ ChatMessage.content message ++ newline.

(** The [for] loop, entered with [i + 1 = n]: one round per value of [i] from
    [n - 1] down to 0, left early by [break]. *)
Fixpoint conversationTextLoop (chatTranscript : list ChatMessage.t)
    (n : nat) (conversationText : string) : string :=
  match n with
  | O => conversationText
  | S i =>
      match nth_error chatTranscript i with
      | Some message =>
          let messageText := messageText message in
          if (i =? List.length chatTranscript - 1)%nat
             || (String.length conversationText + String.length messageText
                 <=? MAX_TEXT_LENGTH)%nat
          then conversationTextLoop chatTranscript i (messageText ++ conversationText)
          else conversationText
      | None => conversationText
      end
  end.

Definition buildConversationText (chatTranscript : list ChatMessage.t) : string :=
  conversationTextLoop chatTranscript (List.length chatTranscript) "".

(** ** parseAzureSDKResponse (lines 339-382)

    A missing [confidenceScores] makes the property read throw; the [catch]
    turns that into [null]. *)
Definition parseAzureSDKResponse (result : option SentimentAnalysisSuccessResult.t)
  : option CSATResult :=
  if negb (truthy_string (result ?.? SentimentAnalysisSuccessResult.sentiment)) then None
  else
    match result with
    | None => None
    | Some result =>
        let sentiment :=
          let label := or_else (SentimentAnalysisSuccessResult.sentiment result) "" in
          if (label =? "mixed")%string then "neutral" else label in
        match SentimentAnalysisSuccessResult.confidenceScores result with
        | None => None
        | Some scores =>
            let positive := SentimentAnalysisSuccessResult.positive scores in
            let negative := SentimentAnalysisSuccessResult.negative scores in
            let neutral := SentimentAnalysisSuccessResult.neutral scores in
            let confidence := Math_max [positive; negative; neutral] in
            let csatScore :=
              if (sentiment =? "positive")%string then
                if (0.8 <? positive)%float then 5%float
                else if (0.6 <? positive)%float then 4%float
                else 4%float
              else if (sentiment =? "negative")%string then
                if (0.8 <? negative)%float then 1%float
                else if (0.6 <? negative)%float then 2%float
                else 2%float
              else 3%float in
            Some {| csatScore := csatScore;
                    confidence := confidence;
                    sentiment := sentiment;
                    satisfactionLevel := mapSentimentToSatisfaction sentiment csatScore;
                    surveyResponseIncluded := None |}
        end
    end.

(** ** isCopilotSurveyResponse (lines 389-398) *)
Definition isCopilotSurveyResponse (activity : option DirectLineActivity.t) : bool :=
  strict_eq String.eqb (activity ?.? DirectLineActivity.type) "message"
  && truthy_string (activity ?.? DirectLineActivity.channelData
                             ?.? DirectLineActivity.clientActivityID)
  && truthy_string (activity ?.? DirectLineActivity.cci_bot_id)
  && truthy_string (activity ?.? DirectLineActivity.text)
  && test_digit_1_5 (or_else (activity ?.? DirectLineActivity.text) "")
  && strict_eq String.eqb (activity ?.? DirectLineActivity.textFormat) "plain".

(** ** extractSurveyResponse (lines 405-418) *)
Definition extractSurveyResponse (now : string) (activity : option DirectLineActivity.t)
  : option CopilotSurveyResponse.t :=
  if negb (isCopilotSurveyResponse activity) then None
  else
    Some {| CopilotSurveyResponse.response :=
              or_else (activity ?.? DirectLineActivity.text) "";
            CopilotSurveyResponse.timestamp :=
              or_else (activity ?.? DirectLineActivity.localTimestamp) now;
            CopilotSurveyResponse.conversationId :=
              activity ?.? DirectLineActivity.channelData
                       ?.? DirectLineActivity.cci_trace_id;
            CopilotSurveyResponse.userId :=
              activity ?.? DirectLineActivity.from ?.? DirectLineActivity.id;
            CopilotSurveyResponse.botId := activity ?.? DirectLineActivity.cci_bot_id;
            CopilotSurveyResponse.confidence := Some 95%float |}.

(** ** mapScoreToSentiment (lines 563-567) *)
Definition mapScoreToSentiment (score : float) : string :=
  if (4 <=? score)%float then "positive"
  else if (score <=? 2)%float then "negative"
  else "neutral".

(** [isNaN(surveyScore) || surveyScore < 1 || surveyScore > 5] *)
Definition invalidSurveyScore (surveyScore : option Z) : bool :=
  isNaN surveyScore || lt surveyScore 1 || gt surveyScore 5.

(** The Number a survey score is, NaN included. *)
Definition surveyNumber (surveyScore : option Z) : float :=
  match surveyScore with
  | Some n => Number n
  | None => nan
  end.

(** ** combineSentimentAndSurvey (lines 497-525) *)
Definition combineSentimentAndSurvey (sentimentResult : CSATResult)
    (surveyResponse : CopilotSurveyResponse.t) : CSATResult :=
  let surveyScore := parseInt (CopilotSurveyResponse.response surveyResponse) in
  if invalidSurveyScore surveyScore then sentimentResult
  else
    let combinedScore :=
      Math_round (surveyNumber surveyScore * 0.7
                  + csatScore sentimentResult * 0.3)%float in
    let finalScore := Math_max [1%float; Math_min [5%float; combinedScore]] in
    {| csatScore := finalScore;
       confidence := Math_max [confidence sentimentResult; 0.95%float];
       sentiment := mapScoreToSentiment finalScore;
       satisfactionLevel := mapSentimentToSatisfaction "" finalScore;
       surveyResponseIncluded := Some true |}.

(** ** createCSATFromSurvey (lines 532-556) *)
Definition createCSATFromSurvey (surveyResponse : CopilotSurveyResponse.t) : CSATResult :=
  let surveyScore := parseInt (CopilotSurveyResponse.response surveyResponse) in
  if invalidSurveyScore surveyScore then
    {| csatScore := 3%float;
       confidence := 0.5%float;
       sentiment := "neutral";
       satisfactionLevel := "Neutral";
       surveyResponseIncluded := Some true |}
  else
    {| csatScore := surveyNumber surveyScore;
       confidence := 0.95%float;
       sentiment := mapScoreToSentiment (surveyNumber surveyScore);
       satisfactionLevel := mapSentimentToSatisfaction "" (surveyNumber surveyScore);
       surveyResponseIncluded := Some true |}.

(** ** Configuration (lines 11-17 and 83-90) *)

(** An optional property of an object: the object has no such key, or it
    has the key with a value, and that value may be [undefined]
    ([{ enabled: undefined }] has the key). *)
Inductive Property (A : Type) : Type :=
| absent
| present (value : option A).
Arguments absent {A}.
Arguments present {A} value.

(** [object.key]: [undefined] for an absent key. *)
Definition read {A : Type} (property : Property A) : option A :=
  match property with
  | absent => None
  | present value => value
  end.

Record SentimentAnalysisConfig : Type := {
  endpoint : Property string;
  apiKey : Property string;
  timeout : Property Z;
  enabled : Property bool;
  useDefaultCredential : Property bool
}.

Definition DEFAULT_CONFIG : SentimentAnalysisConfig :=
  {| endpoint :=
       present (Some "https://chat-sentiment-analytics.cognitiveservices.azure.com");
     apiKey := present (Some "<API_KEY>");
     timeout := present (Some 10000%Z);
     enabled := present (Some true);
     useDefaultCredential := present (Some false) |}.

(** One property of [{ ...DEFAULT_CONFIG, ...config }]: a key that [config]
    has is copied with its value, [undefined] included; the default stays
    only for a key [config] does not have. *)
Definition spread {A : Type} (given default : Property A) : Property A :=
  match given with
  | present _ => given
  | absent => default
  end.

(** [{ ...this.DEFAULT_CONFIG, ...config }]; spreading [undefined] copies
    nothing. *)
Definition effectiveConfig (config : option SentimentAnalysisConfig)
  : SentimentAnalysisConfig :=
  match config with
  | None => DEFAULT_CONFIG
  | Some c =>
      {| endpoint := spread (endpoint c) (endpoint DEFAULT_CONFIG);
         apiKey := spread (apiKey c) (apiKey DEFAULT_CONFIG);
         timeout := spread (timeout c) (timeout DEFAULT_CONFIG);
         enabled := spread (enabled c) (enabled DEFAULT_CONFIG);
         useDefaultCredential :=
           spread (useDefaultCredential c) (useDefaultCredential DEFAULT_CONFIG) |}
  end.

(** ** Collaborators *)

(** One entry of the array the client resolves to: an error entry or a
    success entry. *)
Inductive TextAnalysisResult : Type :=
| ErrorResult
| SuccessResult (result : SentimentAnalysisSuccessResult.t).

(** [client.analyze("SentimentAnalysis", [{ text, id: "1" }])] as a function
    of the text; [None] is a rejected call. *)
Definition TextAnalysisClient : Type := string -> option (list TextAnalysisResult).

Inductive LogLevel : Type := INFO | WARN | ERROR.
Inductive TelemetryEvent : Type := CSATAnalysisCompleted | CSATAnalysisFailed.

(** The telemetry a run emits, oldest first. *)
Definition Telemetry : Type := list (LogLevel * TelemetryEvent).

(** ** createSentimentClient (lines 262-285); [newClient] is the
    constructor call, [None] when it throws. *)
Definition createSentimentClient (newClient : string -> option TextAnalysisClient)
    (config : SentimentAnalysisConfig) : option TextAnalysisClient :=
  match read (endpoint config) with
  | Some (String c rest) => newClient (String c rest)
  | _ => None
  end.

(** ** callSentimentAnalysis (lines 290-334) *)
Definition callSentimentAnalysis (newClient : string -> option TextAnalysisClient)
    (chatTranscript : list ChatMessage.t) (config : SentimentAnalysisConfig)
  : option CSATResult :=
  match createSentimentClient newClient config with
  | None => None
  | Some client =>
      let conversationText := buildConversationText chatTranscript in
      match client conversationText with
      | None => None
      | Some results =>
          match nth_error results 0 with
          | None => None
          | Some ErrorResult => None
          | Some (SuccessResult result) => parseAzureSDKResponse (Some result)
          end
      end
  end.

(** ** analyzeSentiments (lines 121-184); [messages] is the decoded message
    array of the transcript the chat SDK returned. *)
Definition analyzeSentiments (newClient : string -> option TextAnalysisClient)
    (now : string) (messages : list SDKMessage.t)
    (config : option SentimentAnalysisConfig) : Telemetry * option CSATResult :=
  let effectiveConfig := effectiveConfig config in
  if negb (truthy (read (enabled effectiveConfig)))
     || negb (truthy_string (read (endpoint effectiveConfig)))
     || negb (truthy_string (read (apiKey effectiveConfig)))
  then ([], None)
  else
    let chatTranscript := filteredMessages now messages in
    if (List.length chatTranscript =? 0)%nat then ([], None)
    else
      match callSentimentAnalysis newClient chatTranscript effectiveConfig with
      | None => ([(WARN, CSATAnalysisFailed)], None)
      | Some result => ([(INFO, CSATAnalysisCompleted)], Some result)
      end.

(** ** analyzeSentimentWithSurvey (lines 427-489)

    [withSurvey] is the part after the awaited AI analysis. *)
Definition withSurvey (sentimentResult : option CSATResult)
    (copilotSurveyResponse : option CopilotSurveyResponse.t)
  : Telemetry * option CSATResult :=
  match copilotSurveyResponse, sentimentResult with
  | Some survey, Some result =>
      ([(INFO, CSATAnalysisCompleted)], Some (combineSentimentAndSurvey result survey))
  | Some survey, None =>
      ([(INFO, CSATAnalysisCompleted)], Some (createCSATFromSurvey survey))
  | None, _ => ([], sentimentResult)
  end.

Definition analyzeSentimentWithSurvey (newClient : string -> option TextAnalysisClient)
    (now : string) (messages : list SDKMessage.t)
    (copilotSurveyResponse : option CopilotSurveyResponse.t)
    (config : option SentimentAnalysisConfig) : Telemetry * option CSATResult :=
  let '(log, sentimentResult) := analyzeSentiments newClient now messages config in
  let '(log', result) := withSurvey sentimentResult copilotSurveyResponse in
  (log ++ log', result)%list.

(** ** The scoring as the specification words it

    These follow the specification, not the source; they are what the
    scoring of the source is compared with. *)
Module Specified.

(** The survey blend as the specification words it, in exact arithmetic:
    [round(survey * 0.7 + ai * 0.3)], a tie going up, clamped to 1..5. *)
Definition blend (survey ai : Z) : Z :=
  Z.max 1 (Z.min 5 ((7 * survey + 3 * ai + 5) / 10)).

(** The sentiment of a score: positive from 4 up, negative up to 2. *)
Definition sentimentOfScore (score : Z) : string :=
  if (4 <=? score)%Z then "positive"
  else if (score <=? 2)%Z then "negative"
  else "neutral".

(** The satisfaction label of a score on the scale 1..5. *)
Definition satisfactionLevel (score : Z) : string :=
  match score with
  | 5%Z => "Very Satisfied"
  | 4%Z => "Satisfied"
  | 3%Z => "Neutral"
  | 2%Z => "Dissatisfied"
  | 1%Z => "Very Dissatisfied"
  | _ => ""
  end.

End Specified.

(** A result is on the CSAT scale: its score is an integer from 1 to 5 and
    its satisfaction level is the label of that score. *)
Definition onScale (result : CSATResult) : Prop :=
  exists score : Z,
    (1 <= score <= 5)%Z
    /\ csatScore result = Number score
    /\ satisfactionLevel result = Specified.satisfactionLevel score.

(** A transcript message without tags whose application is named "agent". *)
Definition untaggedAgentMessage : SDKMessage.t :=
  {| SDKMessage.content := Some "How can I help you?";
     SDKMessage.text := None;
     SDKMessage.messageType := None;
     SDKMessage.sender := None;
     SDKMessage.timestamp := None;
     SDKMessage.createdDateTime := None;
     SDKMessage.from :=
       Some {| SDKMessage.user := None;
               SDKMessage.application :=
                 Some {| SDKMessage.displayName := Some "agent";
                         SDKMessage.id := None |} |};
     SDKMessage.tags := None;
     SDKMessage.isControlMessage := None |}.

(** The neutral fallback of [createCSATFromSurvey]. *)
Definition neutralFallback : CSATResult :=
  {| csatScore := 3%float;
     confidence := 0.5%float;
     sentiment := "neutral";
     satisfactionLevel := "Neutral";
     surveyResponseIncluded := Some true |}.

(** A survey response with the given text. *)
Definition surveyOf (response : string) : CopilotSurveyResponse.t :=
  {| CopilotSurveyResponse.response := response;
     CopilotSurveyResponse.timestamp := "2025-01-01T00:00:00.000Z";
     CopilotSurveyResponse.conversationId := None;
     CopilotSurveyResponse.userId := None;
     CopilotSurveyResponse.botId := None;
     CopilotSurveyResponse.confidence := Some 95%float |}.

(** A configuration that disables the AI analysis: [{ enabled: false }]. *)
Definition disabledConfig : SentimentAnalysisConfig :=
  {| endpoint := absent;
     apiKey := absent;
     timeout := absent;
     enabled := present (Some false);
     useDefaultCredential := absent |}.

(** The lines of a run of messages, oldest first. *)
Definition transcriptText (messages : list ChatMessage.t) : string :=
  fold_right (fun message rest => messageText message ++ rest) "" messages.

(** A message of the given sender whose content is [n] times the letter x. *)
Definition messageOfLength (who : Sender) (n : nat) : ChatMessage.t :=
  {| ChatMessage.content := string_of_list_ascii (repeat "x"%char n);
     ChatMessage.sender := who;
     ChatMessage.timestamp := "2025-01-01T00:00:00.000Z" |}.

(** A provider response with the given label and scores. *)
Definition providerResult (label : string)
    (scores : SentimentAnalysisSuccessResult.ConfidenceScores)
  : option SentimentAnalysisSuccessResult.t :=
  Some {| SentimentAnalysisSuccessResult.sentiment := Some label;
          SentimentAnalysisSuccessResult.confidenceScores := Some scores |}.

(** An activity with every required field and the given text. *)
Definition surveyActivity (text : string) : DirectLineActivity.t :=
  {| DirectLineActivity.type := Some "message";
     DirectLineActivity.text := Some text;
     DirectLineActivity.textFormat := Some "plain";
     DirectLineActivity.channelData :=
       Some {| DirectLineActivity.clientActivityID := Some "activity-1";
               DirectLineActivity.cci_trace_id := None |};
     DirectLineActivity.cci_bot_id := Some "bot-1";
     DirectLineActivity.from := None;
     DirectLineActivity.localTimestamp := None |}.

(** The confidence scores of a document. *)
Definition scores (positive negative neutral : float)
  : SentimentAnalysisSuccessResult.ConfidenceScores :=
  {| SentimentAnalysisSuccessResult.positive := positive;
     SentimentAnalysisSuccessResult.negative := negative;
     SentimentAnalysisSuccessResult.neutral := neutral |}.

(** An AI result with score 4 and confidence 0.6. *)
Definition satisfiedResult : CSATResult :=
  {| csatScore := 4%float;
     confidence := 0.6%float;
     sentiment := "positive";
     satisfactionLevel := "Satisfied";
     surveyResponseIncluded := None |}.

(** [untaggedAgentMessage] with an explicit sender field. *)
Definition untaggedCustomerFieldMessage : SDKMessage.t :=
  {| SDKMessage.content := Some "Where is my order?";
     SDKMessage.text := None;
     SDKMessage.messageType := Some "UserMessage";
     SDKMessage.sender := Some "customer";
     SDKMessage.timestamp := None;
     SDKMessage.createdDateTime := None;
     SDKMessage.from :=
       Some {| SDKMessage.user :=
                 Some {| SDKMessage.displayName := Some "Ada";
                         SDKMessage.id := None |};
               SDKMessage.application :=
                 Some {| SDKMessage.displayName := Some "agent";
                         SDKMessage.id := None |} |};
     SDKMessage.tags := None;
     SDKMessage.isControlMessage := None |}.

End SentimentAnalysisService.

(* ================================================================== *)
(** * More of the JavaScript string functions *)
(* ================================================================== *)

Module JSString.
Import JS.
Local Open Scope string_scope.

(** Every code unit of the string is white space. *)
Definition allWhiteSpace (s : string) : bool :=
  forallb isWhiteSpace (list_ascii_of_string s).

(** The string without its first [n] code units. *)
Fixpoint drop (n : nat) (s : string) : string :=
  match n, s with
  | O, _ => s
  | S n', String _ rest => drop n' rest
  | S _, EmptyString => EmptyString
  end.

(** [s.substring(start)]: a start below 0 counts as 0, one past the end
    as the length. *)
Definition substringFrom (s : string) (start : Z) : string :=
  drop (Z.to_nat start) s.

(** [s.indexOf(c)] for a one-unit string [c]: the first position of the
    unit, or -1. *)
Fixpoint positionOf (c : ascii) (s : string) : option nat :=
  match s with
  | EmptyString => None
  | String d rest =>
      if Ascii.eqb d c then Some 0
      else option_map S (positionOf c rest)
  end.

Definition indexOf (s : string) (c : ascii) : Z :=
  match positionOf c s with
  | Some i => Z.of_nat i
  | None => (-1)%Z
  end.

(** [s.endsWith(suffix)]. *)
Definition endsWith (s suffix : string) : bool :=
  (String.length suffix <=? String.length s)%nat
  && (drop (String.length s - String.length suffix) s =? suffix).

(** [s.replace(pattern, replacement)] for a string pattern: the first
    occurrence is replaced (the replacement holds no dollar sign). *)
Fixpoint replace (s pattern replacement : string) : string :=
  if prefix pattern s then replacement ++ drop (String.length pattern) s
  else match s with
       | EmptyString => EmptyString
       | String c rest => String c (replace rest pattern replacement)
       end.

(** [s.split(sep)] for a one-unit separator: the pieces between the
    separators, at least one. *)
Fixpoint split (sep : ascii) (s : string) : list string :=
  match s with
  | EmptyString => [EmptyString]
  | String c rest =>
      if Ascii.eqb c sep then EmptyString :: split sep rest
      else match split sep rest with
           | piece :: pieces => String c piece :: pieces
           | [] => [String c EmptyString]
           end
  end.

(** [pieces.pop()]: the last element, [undefined] for no element. *)
Definition pop (pieces : list string) : option string :=
  last (map Some pieces) None.

(** [pieces.join(sep)]. *)
Definition join (sep : string) (pieces : list string) : string :=
  String.concat sep pieces.

(** [toLowerCase] on the code units below 256: A-Z and the capital letters
    of Latin-1 (all of 192-222 but the multiplication sign) move up by 32. *)
Definition toLowerCaseUnit (c : ascii) : ascii :=
  let n := nat_of_ascii c in
  if ((65 <=? n) && (n <=? 90)
      || (192 <=? n) && (n <=? 222) && negb (n =? 215))%nat
  then ascii_of_nat (n + 32)
  else c.

Fixpoint toLowerCase (s : string) : string :=
  match s with
  | EmptyString => EmptyString
  | String c rest => String (toLowerCaseUnit c) (toLowerCase rest)
  end.

(** The decimal digits of a count or an index, as a template prints it. *)
Definition decimal (n : nat) : string :=
  DecimalString.NilEmpty.string_of_uint (Nat.to_uint n).

End JSString.

(* ================================================================== *)
(** * The buttons of the confirmation pane (ConfirmationPaneStateful.tsx) *)
(* ================================================================== *)

Module ConfirmationPane.
Import JS Guard.
Local Open Scope js_scope.
Local Open Scope string_scope.

Inductive TelemetryEvent : Type :=
| ConfirmationConfirmButtonClicked
| ConversationEndedByCustomer
| ConfirmationCancelButtonClicked.

(** What a click does, in the order it does it: a telemetry event, an
    effect on the store or the focus trap, or a move of the focus. *)
Inductive Step : Type :=
| logActionEvent (event : TelemetryEvent)
| effect (e : Effect)
| setFocusOnElement (selector : string)
| setFocusOnSendBox.

(** A handler ends normally or by a TypeError on a missing slice. *)
Inductive Completion : Type := Completed | Thrown.

Definition send (t : LiveChatWidgetActionType) (p : Payload) : Step :=
  effect (dispatch {| type := t; payload := p |}).

(** [isConfirmInProgress] (line 32). *)
Definition isConfirmInProgress (state : option ILiveChatWidgetContext) : bool :=
  strict_eq ConfirmationState.eqb
    (state ?.? domainStates ?. confirmationState) ConfirmationState.Ok.

(** [onConfirm] (lines 38-52). *)
Definition onConfirm (state : option ILiveChatWidgetContext)
  : list Step * Completion :=
  if isConfirmInProgress state then ([], Completed)
  else
    ([ logActionEvent ConfirmationConfirmButtonClicked;
       send SET_CONFIRMATION_STATE (PConfirmation ConfirmationState.Ok);
       logActionEvent ConversationEndedByCustomer ],
     Completed).

(** [onCancel] (lines 53-71).  [state.appStates] is read without an optional
    chain: without that slice the read throws, after the two dispatches. *)
Definition onCancel (state : ILiveChatWidgetContext) : list Step * Completion :=
  if isConfirmInProgress (Some state) then ([], Completed)
  else
    let start :=
      [ logActionEvent ConfirmationCancelButtonClicked;
        send SET_SHOW_CONFIRMATION (PBool false);
        send SET_CONFIRMATION_STATE (PConfirmation ConfirmationState.Cancel) ] in
    match appStates state with
    | None => (start, Thrown)
    | Some app =>
        let previousFocusedElementId := previousElementIdOnFocusBeforeModalOpen app in
        let focus :=
          if truthy_string previousFocusedElementId
          then [ setFocusOnElement
                   ("#" ++ SentimentAnalysisService.or_else previousFocusedElementId "");
                 send SET_PREVIOUS_FOCUSED_ELEMENT_ID PNull ]
          else [ setFocusOnSendBox ] in
        ((start ++ focus ++ [effect (setTabIndices true)])%list, Completed)
    end.

(** The effects on the store and the focus trap among the steps. *)
Definition effectsOf (steps : list Step) : list Effect :=
  flat_map (fun step => match step with effect e => [e] | _ => [] end) steps.

End ConfirmationPane.

(* ================================================================== *)
(** * Attachments of the chat input *)
(* ================================================================== *)

(** A blob; a File is a blob with a name. *)
Module Blob.
Record t : Type := {
  name : option string;
  type : string;
  size : float
}.
End Blob.

(** A file picked or dropped by the user. *)
Module File.
Record t : Type := {
  name : string;
  type : string;
  size : float
}.

Definition asBlob (f : t) : Blob.t :=
  {| Blob.name := Some (name f); Blob.type := type f; Blob.size := size f |}.
End File.

(** An attachment of the send box ([EnrichedAttachment]; the thumbnail,
    which no code here reads, is left out). *)
Module Attachment.
Record t : Type := {
  blob : option Blob.t;
  name : option string;
  contentType : option string
}.
End Attachment.

(** ** ChatInputAttachments (the attachment list of the chat input) *)
Module ChatInputAttachments.
Import JS JSString.
Local Open Scope js_scope.
Local Open Scope string_scope.

Inductive IconKind : Type :=
| DocumentPdf20Filled
| Document20Filled
| Image20Filled
| Video20Filled
| Archive20Filled
| DocumentData20Filled.

Record Icon : Type := {
  kind : IconKind;
  color : string
}.

(** One [case] group of the [switch]. *)
Definition oneOf (ext : string) (cases : list string) : bool :=
  existsb (String.eqb ext) cases.

(** [getFileIcon]: the icon for the text after the last dot of the name in
    lower case. *)
Definition getFileIcon (fileName : string) : Icon :=
  let ext :=
    SentimentAnalysisService.or_else (pop (split "." (toLowerCase fileName))) "" in
  if oneOf ext ["pdf"] then
    {| kind := DocumentPdf20Filled; color := "#D32F2F" |}
  else if oneOf ext ["doc"; "docx"; "txt"; "rtf"] then
    {| kind := Document20Filled; color := "#2E7D32" |}
  else if oneOf ext ["jpg"; "jpeg"; "png"; "gif"; "bmp"; "svg"] then
    {| kind := Image20Filled; color := "#1976D2" |}
  else if oneOf ext ["mp4"; "avi"; "mov"; "wmv"; "flv"] then
    {| kind := Video20Filled; color := "#7B1FA2" |}
  else if oneOf ext ["zip"; "rar"; "7z"; "tar"] then
    {| kind := Archive20Filled; color := "#F57C00" |}
  else if oneOf ext ["xls"; "xlsx"; "csv"] then
    {| kind := DocumentData20Filled; color := "#388E3C" |}
  else
    {| kind := Document20Filled; color := "#616161" |}.

(** [file?.name ?? `file-${i + 1}`]: the name of the blob, a made-up name
    when the blob has none. *)
Definition attachmentName (i : nat) (attachment : Attachment.t) : string :=
  match Attachment.blob attachment ?.? Blob.name with
  | Some name => name
  | None => "file-" ++ decimal (i + 1)
  end.

(** [`${i}-${name}`]: the id of the attachment at index [i]. *)
Definition attachmentId (i : nat) (attachment : Attachment.t) : string :=
  decimal i ++ "-" ++ attachmentName i attachment.

(** [attachments.findIndex(...)], looking from index [i] on. *)
Fixpoint findIndexFrom (i : nat) (attachments : list Attachment.t) (id : string)
  : option nat :=
  match attachments with
  | [] => None
  | attachment :: rest =>
      if (attachmentId i attachment =? id)%string then Some i
      else findIndexFrom (S i) rest id
  end.

(** [handleDismiss]: the index [onRemove] is called with, if it is called. *)
Definition handleDismiss (attachments : list Attachment.t) (id : string)
  : option nat :=
  findIndexFrom 0 attachments id.

End ChatInputAttachments.

(** ** AIFluentSendboxStateful (the send box with attachments) *)
Module AIFluentSendbox.
Import JS JSString.
Local Open Scope js_scope.
Local Open Scope bool_scope.
Local Open Scope string_scope.

(** The two pieces of state the handlers write. *)
Record State : Type := {
  wcAttachments : option (list Attachment.t);
  liveRegionMsg : string
}.

Definition MAX_FILES : Z := 10.
Definition MAX_FILE_SIZE_MB : float := 25%float.

(** [wcAttachments || []] *)
Definition current (state : State) : list Attachment.t :=
  match wcAttachments state with
  | Some attachments => attachments
  | None => []
  end.

(** [(props.accept || "").split(",").map(t => t.trim()).filter(Boolean)] *)
Definition acceptTypes (accept : option string) : list string :=
  filter (fun t => negb (t =? ""))
    (map trim (split "," (SentimentAnalysisService.or_else accept ""))).

(** [files.slice(0, end)]: an end below 0 counts from the end of the array. *)
Definition slice0 {A : Type} (files : list A) (finish : Z) : list A :=
  if (finish <? 0)%Z
  then firstn (Z.to_nat (Z.max (Z.of_nat (List.length files) + finish) 0)) files
  else firstn (Z.to_nat finish) files.

Definition sizeOk (f : File.t) : bool :=
  (File.size f / (1024 * 1024) <=? MAX_FILE_SIZE_MB)%float.

Definition typeOk (accept : option string) (f : File.t) : bool :=
  (List.length (acceptTypes accept) =? 0)%nat
  || existsb (fun a => includes (File.type f) a
                       || endsWith (File.name f) (replace a "*" ""))
       (acceptTypes accept).

Definition accepts (accept : option string) (f : File.t) : bool :=
  sizeOk f && typeOk accept f.

Definition attach (f : File.t) : Attachment.t :=
  {| Attachment.blob := Some (File.asBlob f);
     Attachment.name := Some (File.name f);
     Attachment.contentType := Some (File.type f) |}.

(** [`${n} file${n > 1 ? "s" : ""} ${what}`] *)
Definition filesMessage (n : nat) (what : string) : string :=
  decimal n ++ " file" ++ (if (1 <? n)%nat then "s" else "") ++ " " ++ what.

(** [validateAndAddFiles] (lines 412-438). *)
Definition validateAndAddFiles (accept : option string) (state : State)
    (files : list File.t) : State :=
  if (List.length files =? 0)%nat then state
  else
    let remainingSlots := (MAX_FILES - Z.of_nat (List.length (current state)))%Z in
    let slice := slice0 files remainingSlots in
    let accepted := map attach (filter (accepts accept) slice) in
    let rejectedCount :=
      List.length (filter (fun f => negb (accepts accept f)) slice) in
    let added :=
      if (List.length accepted =? 0)%nat then state
      else {| wcAttachments := Some (current state ++ accepted)%list;
              liveRegionMsg := filesMessage (List.length accepted) "added" |} in
    if (rejectedCount =? 0)%nat then added
    else {| wcAttachments := wcAttachments added;
            liveRegionMsg := filesMessage rejectedCount "rejected" |}.

(** [array.filter((_, i) => i !== index)], counting from [i]. *)
Fixpoint withoutIndexFrom {A : Type} (i index : nat) (l : list A) : list A :=
  match l with
  | [] => []
  | x :: rest =>
      if (i =? index)%nat then withoutIndexFrom (S i) index rest
      else x :: withoutIndexFrom (S i) index rest
  end.

(** [removeAttachmentAt] (lines 447-451). *)
Definition removeAttachmentAt (state : State) (index : nat) : State :=
  {| wcAttachments := Some (withoutIndexFrom 0 index (current state));
     liveRegionMsg := "Attachment removed" |}.

(** [a || b] on strings that may be undefined. *)
Definition orString (a b : option string) : option string :=
  if truthy_string a then a else b.

(** The attachment as [onSubmitText] sends it. *)
Definition enrich (a : Attachment.t) : Attachment.t :=
  {| Attachment.blob := Attachment.blob a;
     Attachment.name :=
       orString (Attachment.name a) (Attachment.blob a ?.? Blob.name);
     Attachment.contentType :=
       Some (SentimentAnalysisService.or_else
               (orString (Attachment.contentType a)
                  (Attachment.blob a ?. Blob.type))
               "application/octet-stream") |}.

(** The call of [sendMessage]: the text, if any, and the attachments. *)
Record Sent : Type := {
  text : option string;
  attachments : list Attachment.t
}.

(** [onSubmitText] (lines 453-471): the message sent, if one is, and the
    state afterwards. *)
Definition onSubmitText (state : State) (value : option string)
  : option Sent * State :=
  let text := value ?. trim in
  let attachments := map enrich (current state) in
  if negb (truthy_string text) && (List.length attachments =? 0)%nat
  then (None, state)
  else
    (Some {| text := if truthy_string text then text else None;
             attachments := attachments |},
     {| wcAttachments := Some []; liveRegionMsg := "Message sent" |}).

(** [shouldShowSendbox] (lines 510-512). *)
Definition shouldShowSendbox (app : IAppStates) : bool :=
  negb (isMinimized app)
  && ConversationState.eqb (conversationState app) ConversationState.Active.

End AIFluentSendbox.

(* ================================================================== *)
(** * The REST variant of the scoring service (SentimentAnalyticsService) *)
(* ================================================================== *)

Module SentimentAnalyticsService.
Import JS JSString.
Import SentimentAnalysisService.
Local Open Scope js_scope.
Local Open Scope bool_scope.
Local Open Scope string_scope.
#[local] Set Warnings "-inexact-float".

(** A call returns a value or throws. *)
Inductive Outcome (A : Type) : Type :=
| Returned (value : A)
| Thrown.
Arguments Returned {A} value.
Arguments Thrown {A}.

(** ** mapSentimentToSatisfaction (lines 632-650 of the variant) *)
Definition mapSentimentToSatisfaction (sentiment : string) (csatScore : float) : string :=
  if (csatScore =? 5)%float then "Very Satisfied"
  else if (csatScore =? 4)%float then "Satisfied"
  else if (csatScore =? 3)%float then "Neutral"
  else if (csatScore =? 2)%float then "Dissatisfied"
  else if (csatScore =? 1)%float then "Very Dissatisfied"
  else if (sentiment =? "positive")%string then "Satisfied"
  else if (sentiment =? "negative")%string then "Dissatisfied"
  else "Neutral".

(** ** determineSender (lines 785-815) *)
Definition determineSender (message : SDKMessage.t) : Sender :=
  if includes_opt (SDKMessage.tags message) "FromCustomer"
     || includes_opt (SDKMessage.tags message) "ChannelId-lcw"
  then customer
  else if strict_eq String.eqb
            (SDKMessage.from message ?.? SDKMessage.application
                                     ?.? SDKMessage.displayName)
            "Customer"
  then customer
  else
    let userName :=
      SDKMessage.from message ?.? SDKMessage.user ?.? SDKMessage.displayName in
    let displayName := toLowerCase (or_else userName "") in
    if truthy_string userName
       && (includes displayName "bot" || includes displayName "virtual"
           || includes displayName "power virtual agents")
    then bot
    else if truthy_string userName
            && (includes displayName "agent"
                || strict_eq String.eqb userName "__agent__")
    then agent
    else if strict_eq String.eqb (SDKMessage.messageType message) "customer"
            || strict_eq String.eqb (SDKMessage.sender message) "customer"
    then customer
    else if strict_eq String.eqb (SDKMessage.messageType message) "agent"
            || strict_eq String.eqb (SDKMessage.sender message) "agent"
    then agent
    else bot.

(** ** getChatTranscript (lines 762-773): the filter and the map *)
Definition keepMessage (message : SDKMessage.t) : bool :=
  if truthy (SDKMessage.isControlMessage message) then false
  else if negb (truthy_string (SDKMessage.content message))
          || (String.length (trim (or_else (SDKMessage.content message) "")) =? 0)%nat
  then false
  else if includes_opt (SDKMessage.tags message) "system"
          || includes_opt (SDKMessage.tags message) "agentassignmentready"
  then false
  else true.

Definition toChatMessage (now : string) (message : SDKMessage.t) : ChatMessage.t :=
  {| ChatMessage.content := or_else (SDKMessage.content message) "";
     ChatMessage.sender := determineSender message;
     ChatMessage.timestamp :=
       or_else (SDKMessage.createdDateTime message)
         (or_else (SDKMessage.timestamp message) now) |}.

Definition filteredMessages (now : string) (messages : list SDKMessage.t)
  : list ChatMessage.t :=
  map (toChatMessage now) (filter keepMessage messages).

(** ** The conversation text (callAzureTextAnalytics, lines 827-844) *)
Definition MAX_TEXT_LENGTH : nat := 5000.

(** [`${msg.sender}: ${msg.content}`] *)
Definition line (msg : ChatMessage.t) : string :=
  Sender_toString (ChatMessage.sender msg) ++ ": " ++ ChatMessage.content msg.

(** The truncation of a text over the budget. *)
Definition truncate (conversationText : string) : string :=
  if (MAX_TEXT_LENGTH <? String.length conversationText)%nat then
    let truncated :=
      "..." ++ substringFrom conversationText
                 (Z.of_nat (String.length conversationText)
                  - Z.of_nat MAX_TEXT_LENGTH + 3) in
    let firstNewlineIndex := indexOf truncated (ascii_of_nat 10) in
    if (0 <? firstNewlineIndex)%Z && (firstNewlineIndex <? 100)%Z
    then substringFrom truncated (firstNewlineIndex + 1)
    else truncated
  else conversationText.

Definition conversationText (chatTranscript : list ChatMessage.t) : string :=
  truncate (join newline (map line chatTranscript)).

(** ** The response of the service (lines 586-615): what the parser reads *)
Record AnalysisError : Type := {
  id : string;
  code : string;
  message : string
}.

Record Results : Type := {
  documents : option (list SentimentAnalysisSuccessResult.t);
  errors : option (list AnalysisError)
}.

Record AzureTextAnalyticsResponse : Type := {
  kind : option string;
  results : option Results
}.

(** ** parseAzureTextAnalyticsResponse (lines 896-944); a document without
    [confidenceScores] makes the read throw, and nothing here catches it. *)
Definition parseAzureTextAnalyticsResponse (response : AzureTextAnalyticsResponse)
  : Outcome (option CSATResult) :=
  let documents := results response ?.? documents in
  let errors := results response ?.? errors in
  if match errors with
     | Some (_ :: _) => true
     | _ => false
     end
  then Returned None
  else
    let document := documents ?.? (fun ds => nth_error ds 0) in
    if negb (truthy_string (document ?.? SentimentAnalysisSuccessResult.sentiment))
    then Returned None
    else
      match document with
      | None => Returned None
      | Some document =>
          let sentiment :=
            let label := or_else (SentimentAnalysisSuccessResult.sentiment document) "" in
            if (label =? "mixed")%string then "neutral" else label in
          match SentimentAnalysisSuccessResult.confidenceScores document with
          | None => Thrown
          | Some scores =>
              let positive := SentimentAnalysisSuccessResult.positive scores in
              let negative := SentimentAnalysisSuccessResult.negative scores in
              let neutral := SentimentAnalysisSuccessResult.neutral scores in
              let confidence := Math_max [positive; negative; neutral] in
              let csatScore :=
                if (sentiment =? "positive")%string then
                  if (0.8 <? positive)%float then 5%float
                  else if (0.6 <? positive)%float then 4%float
                  else 4%float
                else if (sentiment =? "negative")%string then
                  if (0.8 <? negative)%float then 1%float
                  else if (0.6 <? negative)%float then 2%float
                  else 2%float
                else 3%float in
              Returned
                (Some {| csatScore := csatScore;
                         confidence := confidence;
                         sentiment := sentiment;
                         satisfactionLevel :=
                           mapSentimentToSatisfaction sentiment csatScore;
                         surveyResponseIncluded := None |})
          end
      end.

(** ** Configuration (lines 543-548 and 621-627) *)
Record AzureTextAnalyticsConfig : Type := {
  endpoint : Property string;
  apiKey : Property string;
  timeout : Property Z;
  enabled : Property bool
}.

Definition DEFAULT_CONFIG : AzureTextAnalyticsConfig :=
  {| endpoint :=
       present (Some "https://chat-sentiment-analytics.cognitiveservices.azure.com");
     apiKey := present (Some "<API_KEY>");
     timeout := present (Some 10000%Z);
     enabled := present (Some true) |}.

(** [{ ...this.DEFAULT_CONFIG, ...config }] *)
Definition effectiveConfig (config : option AzureTextAnalyticsConfig)
  : AzureTextAnalyticsConfig :=
  match config with
  | None => DEFAULT_CONFIG
  | Some c =>
      {| endpoint := spread (endpoint c) (endpoint DEFAULT_CONFIG);
         apiKey := spread (apiKey c) (apiKey DEFAULT_CONFIG);
         timeout := spread (timeout c) (timeout DEFAULT_CONFIG);
         enabled := spread (enabled c) (enabled DEFAULT_CONFIG) |}
  end.

(** ** The HTTP collaborator *)

(** What [fetch] resolves to: the [ok] flag, what [text()] gives and what
    [json()] gives. *)
Record HttpResponse : Type := {
  ok : bool;
  text : Outcome string;
  json : Outcome AzureTextAnalyticsResponse
}.

(** The request: the URL, the subscription key, the text of the document
    and the delay of the abort signal. *)
Record Request : Type := {
  apiUrl : string;
  subscriptionKey : string;
  documentText : string;
  signalTimeout : Z
}.

(** [fetch]; [None] is a rejected call. *)
Definition Fetch : Type := Request -> option HttpResponse.

(** [AbortSignal.timeout(delay)].  The delay is an unsigned integer: a
    negative delay throws, and so does one over the limit of the platform
    ([maxDelay]: 2^53 - 1 by the DOM standard, 2^32 - 1 in Node). *)
Definition AbortSignal_timeout (maxDelay delay : Z) : Outcome Z :=
  if (delay <? 0)%Z || (maxDelay <? delay)%Z then Thrown else Returned delay.

(** [timeout || 10000] *)
Definition signalDelay (config : AzureTextAnalyticsConfig) : Z :=
  match read (timeout config) with
  | Some t => if (t =? 0)%Z then 10000%Z else t
  | None => 10000%Z
  end.

(** The URL and the options of the request, for an endpoint that is set. *)
Definition requestOf (config : AzureTextAnalyticsConfig) (endpoint text : string)
    (delay : Z) : Request :=
  {| apiUrl := endpoint ++ "/language/:analyze-text?api-version=2023-04-01";
     subscriptionKey := or_else (read (apiKey config)) "";
     documentText := text;
     signalTimeout := delay |}.

(** ** callAzureTextAnalytics (lines 820-891).  The options of the request,
    with the abort signal, are built before the endpoint is looked at. *)
Definition callAzureTextAnalytics (maxDelay : Z) (fetch : Fetch)
    (chatTranscript : list ChatMessage.t) (config : AzureTextAnalyticsConfig)
  : Outcome (option CSATResult) :=
  let text := conversationText chatTranscript in
  match AbortSignal_timeout maxDelay (signalDelay config) with
  | Thrown => Thrown
  | Returned delay =>
      match read (endpoint config) with
      | Some (String c rest) =>
          match fetch (requestOf config (String c rest) text delay) with
          | None => Thrown
          | Some response =>
              if negb (ok response) then
                match SentimentAnalyticsService.text response with
                | Thrown => Thrown
                | Returned _ => Returned None
                end
              else match json response with
                   | Thrown => Thrown
                   | Returned result => parseAzureTextAnalyticsResponse result
                   end
          end
      | _ => Returned None
      end
  end.

(** ** analyzeSentiments (lines 658-721) *)
Definition analyzeSentiments (maxDelay : Z) (fetch : Fetch) (now : string)
    (messages : list SDKMessage.t) (config : option AzureTextAnalyticsConfig)
  : Telemetry * option CSATResult :=
  let effectiveConfig := effectiveConfig config in
  if negb (truthy (read (enabled effectiveConfig)))
     || negb (truthy_string (read (endpoint effectiveConfig)))
     || negb (truthy_string (read (apiKey effectiveConfig)))
  then ([], None)
  else
    let chatTranscript := filteredMessages now messages in
    if (List.length chatTranscript =? 0)%nat then ([], None)
    else
      match callAzureTextAnalytics maxDelay fetch chatTranscript effectiveConfig with
      | Thrown => ([(ERROR, CSATAnalysisFailed)], None)
      | Returned None => ([(WARN, CSATAnalysisFailed)], None)
      | Returned (Some result) => ([(INFO, CSATAnalysisCompleted)], Some result)
      end.

(** The first document of a response, if it has one. *)
Definition firstDocument (response : AzureTextAnalyticsResponse)
  : option SentimentAnalysisSuccessResult.t :=
  match results response with
  | Some r =>
      match documents r with
      | Some (document :: _) => Some document
      | _ => None
      end
  | None => None
  end.

(** The response reports an error. *)
Definition reportsError (response : AzureTextAnalyticsResponse) : bool :=
  match results response with
  | Some r =>
      match errors r with
      | Some (_ :: _) => true
      | _ => false
      end
  | None => false
  end.

End SentimentAnalyticsService.

(* ================================================================== *)
(** * Sample values *)
(* ================================================================== *)

Module Samples.
Import JS JSString.
Local Open Scope string_scope.
#[local] Set Warnings "-inexact-float".

(** A picked file of the given name, type and size in bytes. *)
Definition file (name type : string) (bytes : Z) : File.t :=
  {| File.name := name; File.type := type; File.size := Number bytes |}.

Definition photo : File.t := file "photo.png" "image/png" 204800.
Definition report : File.t := file "Report.PDF" "application/pdf" 1048576.
Definition movie : File.t := file "holiday.mov" "video/quicktime" 52428800.

(** Two pending attachments of the same name. *)
Definition pending : list Attachment.t :=
  [ AIFluentSendbox.attach report; AIFluentSendbox.attach photo;
    AIFluentSendbox.attach report ].

Definition sendbox : AIFluentSendbox.State :=
  {| AIFluentSendbox.wcAttachments := Some pending;
     AIFluentSendbox.liveRegionMsg := "" |}.

Definition emptySendbox : AIFluentSendbox.State :=
  {| AIFluentSendbox.wcAttachments := None;
     AIFluentSendbox.liveRegionMsg := "" |}.

(** An Active conversation in an open window. *)
Definition activeChat : IAppStates :=
  {| conversationState := ConversationState.Active;
     conversationEndedBy := ConversationEndEntity.NotSet;
     startChatFailed := false;
     isMinimized := false;
     previousElementIdOnFocusBeforeModalOpen := Some "oc-lcw-header-close" |}.

(** A message of a given tag string and user display name. *)
Definition messageOf (tags userName : option string) (sender : option string)
  : SentimentAnalysisService.SDKMessage.t :=
  {| SentimentAnalysisService.SDKMessage.content := Some "Hello";
     SentimentAnalysisService.SDKMessage.text := None;
     SentimentAnalysisService.SDKMessage.messageType := None;
     SentimentAnalysisService.SDKMessage.sender := sender;
     SentimentAnalysisService.SDKMessage.timestamp := None;
     SentimentAnalysisService.SDKMessage.createdDateTime := None;
     SentimentAnalysisService.SDKMessage.from :=
       Some {| SentimentAnalysisService.SDKMessage.user :=
                 Some {| SentimentAnalysisService.SDKMessage.displayName := userName;
                         SentimentAnalysisService.SDKMessage.id := None |};
               SentimentAnalysisService.SDKMessage.application := None |};
     SentimentAnalysisService.SDKMessage.tags := tags;
     SentimentAnalysisService.SDKMessage.isControlMessage := None |}.

(** A response of the service with one document and no error. *)
Definition positiveResponse : SentimentAnalyticsService.AzureTextAnalyticsResponse :=
  {| SentimentAnalyticsService.kind := Some "SentimentAnalysisResults";
     SentimentAnalyticsService.results :=
       Some {| SentimentAnalyticsService.documents :=
                 Some [ {| SentimentAnalysisService.SentimentAnalysisSuccessResult.sentiment :=
                             Some "positive";
                           SentimentAnalysisService.SentimentAnalysisSuccessResult.confidenceScores :=
                             Some (SentimentAnalysisService.scores 0.9 0.05 0.05) |} ];
               SentimentAnalyticsService.errors := Some [] |} |}.

(** The configuration [{ enabled: undefined }]. *)
Definition enabledUndefined : SentimentAnalysisService.SentimentAnalysisConfig :=
  {| SentimentAnalysisService.endpoint := SentimentAnalysisService.absent;
     SentimentAnalysisService.apiKey := SentimentAnalysisService.absent;
     SentimentAnalysisService.timeout := SentimentAnalysisService.absent;
     SentimentAnalysisService.enabled := SentimentAnalysisService.present None;
     SentimentAnalysisService.useDefaultCredential := SentimentAnalysisService.absent |}.

(** The configuration [{ timeout: -1 }] of the REST variant. *)
Definition negativeTimeout : SentimentAnalyticsService.AzureTextAnalyticsConfig :=
  {| SentimentAnalyticsService.endpoint := SentimentAnalysisService.absent;
     SentimentAnalyticsService.apiKey := SentimentAnalysisService.absent;
     SentimentAnalyticsService.timeout :=
       SentimentAnalysisService.present (Some (-1)%Z);
     SentimentAnalyticsService.enabled := SentimentAnalysisService.absent |}.

(** [n] times the code unit [c]. *)
Definition run (c : ascii) (n : nat) : string :=
  string_of_list_ascii (repeat c n).

(** A conversation text of 5101 code units whose last 4997 hold a line
    break after six of them. *)
Definition longText : string :=
  run "x" 110 ++ newline ++ run "y" 4990.

End Samples.

(* ================================================================== *)
(** * Properties of the lifecycle guards *)
(* ================================================================== *)

Section GuardProperties.
Import Guard.

(** The guards read the [appStates] slice only; the other two slices are
    arbitrary, present or not. *)
Variables (domain : option IDomainStates) (ui : option IUiStates).

Let inMemory (app : IAppStates) : option ILiveChatWidgetContext :=
  Some {| appStates := Some app; domainStates := domain; uiStates := ui |}.

Ltac by_cases app :=
  destruct app as [conv endedBy failed minimized focused];
  destruct conv, endedBy, failed; cbn.

(** C1. [shouldPreventStartChat] is true exactly when the conversation has
    an end marker other than NotSet, or is in PostchatLoading, or is in
    Postchat, or the session is not persistent and the conversation is
    InActive.  In particular an end marker alone blocks, and an InActive
    conversation without end marker is blocked exactly when the session is
    not persistent. *)
Theorem shouldPreventStartChat_iff (app : IAppStates) (isPersistent : bool) :
  (shouldPreventStartChat (inMemory app) isPersistent = true <->
     conversationEndedBy app <> ConversationEndEntity.NotSet
     \/ conversationState app = ConversationState.PostchatLoading
     \/ conversationState app = ConversationState.Postchat
     \/ (isPersistent = false
         /\ conversationState app = ConversationState.InActive))
  /\ (conversationEndedBy app <> ConversationEndEntity.NotSet ->
      shouldPreventStartChat (inMemory app) isPersistent = true)
  /\ (conversationEndedBy app = ConversationEndEntity.NotSet ->
      conversationState app = ConversationState.InActive ->
      shouldPreventStartChat (inMemory app) isPersistent = negb isPersistent).
Proof.
  by_cases app; destruct isPersistent; cbn;
    repeat split; intros;
    repeat match goal with
           | H : _ \/ _ |- _ => destruct H
           | H : _ /\ _ |- _ => destruct H
           end;
    try reflexivity; try discriminate; try congruence;
    try (left; discriminate);
    try (right; left; reflexivity);
    try (right; right; left; reflexivity);
    try (right; right; right; split; reflexivity).
Qed.

(** C2. [shouldPreventEndChat] is true exactly when the conversation is
    Loading and the start of the chat has not failed; it is false in every
    other conversation state, and in Loading once the start has failed. *)
Theorem shouldPreventEndChat_iff (app : IAppStates) :
  (shouldPreventEndChat (inMemory app) = true <->
     conversationState app = ConversationState.Loading
     /\ startChatFailed app = false)
  /\ (conversationState app <> ConversationState.Loading ->
      shouldPreventEndChat (inMemory app) = false)
  /\ (conversationState app = ConversationState.Loading ->
      startChatFailed app = true ->
      shouldPreventEndChat (inMemory app) = false).
Proof.
  by_cases app; repeat split; intros;
    repeat match goal with
           | H : _ /\ _ |- _ => destruct H
           end;
    try reflexivity; try discriminate; try congruence.
Qed.

End GuardProperties.

(** C1 at a conversation the customer ended, now Closed. *)
Lemma shouldPreventStartChat_iff_witness :
  let app := {| conversationState := ConversationState.Closed;
                conversationEndedBy := ConversationEndEntity.Customer;
                startChatFailed := false;
                isMinimized := false;
                previousElementIdOnFocusBeforeModalOpen := None |} in
  conversationEndedBy app <> ConversationEndEntity.NotSet
  /\ Guard.shouldPreventStartChat
       (Some {| appStates := Some app; domainStates := None; uiStates := None |})
       false = true.
Proof.
  cbv zeta. split; [discriminate|].
  refine (proj1 (proj2 (shouldPreventStartChat_iff None None _ false)) _).
  discriminate.
Defined.

(** C2 at a Loading conversation whose start has failed. *)
Lemma shouldPreventEndChat_iff_witness :
  let app := {| conversationState := ConversationState.Loading;
                conversationEndedBy := ConversationEndEntity.NotSet;
                startChatFailed := true;
                isMinimized := false;
                previousElementIdOnFocusBeforeModalOpen := None |} in
  conversationState app = ConversationState.Loading
  /\ startChatFailed app = true
  /\ Guard.shouldPreventEndChat
       (Some {| appStates := Some app; domainStates := None; uiStates := None |})
     = false.
Proof.
  cbv zeta. split; [reflexivity|]. split; [reflexivity|].
  refine (proj2 (proj2 (shouldPreventEndChat_iff None None _)) _ _); reflexivity.
Defined.

(** The expectations of raceConditionPrevention.spec.ts on the start of a
    chat (lines 8-116). *)
Example start_chat_protection_tests :
  Guard.shouldPreventStartChat
    (Guard.inMemState ConversationState.Closed ConversationEndEntity.Customer false)
    false = true
  /\ Guard.shouldPreventStartChat
       (Guard.inMemState ConversationState.PostchatLoading ConversationEndEntity.NotSet false)
       false = true
  /\ Guard.shouldPreventStartChat
       (Guard.inMemState ConversationState.Postchat ConversationEndEntity.NotSet false)
       false = true
  /\ Guard.shouldPreventStartChat
       (Guard.inMemState ConversationState.InActive ConversationEndEntity.NotSet false)
       false = true
  /\ Guard.shouldPreventStartChat
       (Guard.inMemState ConversationState.InActive ConversationEndEntity.NotSet false)
       true = false
  /\ Guard.shouldPreventStartChat
       (Guard.inMemState ConversationState.Closed ConversationEndEntity.NotSet false)
       false = false.
Proof. repeat split. Qed.

(** The expectations of raceConditionPrevention.spec.ts on the end of a chat
    (lines 120-225). *)
Example end_chat_protection_tests :
  Guard.shouldPreventEndChat
    (Guard.inMemState ConversationState.Loading ConversationEndEntity.NotSet false)
  = true
  /\ Guard.shouldPreventEndChat
       (Guard.inMemState ConversationState.Loading ConversationEndEntity.NotSet true)
     = false
  /\ Guard.shouldPreventEndChat
       (Guard.inMemState ConversationState.Active ConversationEndEntity.NotSet false)
     = false
  /\ Guard.shouldPreventEndChat
       (Guard.inMemState ConversationState.InActive ConversationEndEntity.NotSet false)
     = false
  /\ Guard.shouldPreventEndChat
       (Guard.inMemState ConversationState.Postchat ConversationEndEntity.NotSet false)
     = false
  /\ Guard.shouldPreventEndChat
       (Guard.inMemState ConversationState.Closed ConversationEndEntity.NotSet false)
     = false.
Proof. repeat split. Qed.

(** Without any state the optional chains give [undefined]: the start of a
    chat is blocked, because [undefined !== NotSet], and the end is not. *)
Remark guards_without_state (isPersistent : bool) :
  Guard.shouldPreventStartChat None isPersistent = true
  /\ Guard.shouldPreventEndChat None = false.
Proof. split; reflexivity. Qed.

Section ConfirmationPaneProperties.
Import Guard.

Ltac settle :=
  repeat match goal with
         | H : _ /\ _ |- _ => destruct H
         | H : _ \/ _ |- _ => destruct H
         | H : False |- _ => destruct H
         end;
  try reflexivity; try discriminate; try congruence.

(** One run of the effect either does nothing or releases the focus trap and
    then hides the pane. *)
Lemma autoDismissEffect_shape (state : option ILiveChatWidgetContext) :
  autoDismissEffect state = []
  \/ autoDismissEffect state = [setTabIndices true; dismissal].
Proof.
  unfold autoDismissEffect.
  destruct (negb (JS.truthy _)); [now left|].
  destruct (negb (JS.strict_eq _ _ _)); [now left|].
  destruct (negb (endChatCompleted state)); [now left | now right].
Qed.

(** C3. A run of the auto-dismiss effect dispatches SET_SHOW_CONFIRMATION
    false exactly when the pane is shown, the confirmation state is Ok and
    the conversation is settled: Closed, PostchatLoading, Postchat or Error,
    or Loading with a failed start.  While the confirmation state is not Ok
    the run does nothing, whatever the conversation state. *)
Theorem autoDismiss_iff (app : IAppStates) (confirmation : ConfirmationState.t)
    (show : bool) :
  (In dismissal (autoDismissEffect (context app confirmation show)) <->
     show = true /\ confirmation = ConfirmationState.Ok /\ settled app)
  /\ (confirmation <> ConfirmationState.Ok ->
      autoDismissEffect (context app confirmation show) = []).
Proof.
  unfold settled, dismissal.
  destruct app as [conv endedBy failed minimized focused].
  destruct conv, failed, confirmation, show; cbn;
    (split; [split; intros; settle | intros; settle]);
    repeat split;
    first [ now left | now (right; left) | now (right; right; left)
          | now (right; right; right; left)
          | now (right; right; right; right; split)
          | idtac ].
Qed.

(** The effect depends on the conversation state, the pane flag and the
    confirmation state, not on [startChatFailed]: a render in which only
    that flag has changed does not run the effect again. *)
Remark autoDismissDeps_startChatFailed (app : IAppStates)
    (confirmation : ConfirmationState.t) (show failed : bool) :
  autoDismissDeps
    (context {| conversationState := conversationState app;
                conversationEndedBy := conversationEndedBy app;
                startChatFailed := failed;
                isMinimized := isMinimized app;
                previousElementIdOnFocusBeforeModalOpen :=
                  previousElementIdOnFocusBeforeModalOpen app |}
       confirmation show)
  = autoDismissDeps (context app confirmation show).
Proof. reflexivity. Qed.

End ConfirmationPaneProperties.

(** C3 at a pane the user has not confirmed, over a Closed conversation. *)
Lemma autoDismiss_iff_witness :
  let app := {| conversationState := ConversationState.Closed;
                conversationEndedBy := ConversationEndEntity.Customer;
                startChatFailed := false;
                isMinimized := false;
                previousElementIdOnFocusBeforeModalOpen := None |} in
  ConfirmationState.NotSet <> ConfirmationState.Ok
  /\ Guard.autoDismissEffect (Guard.context app ConfirmationState.NotSet true) = [].
Proof.
  cbv zeta. split; [discriminate|].
  refine (proj2 (autoDismiss_iff _ ConfirmationState.NotSet true) _).
  discriminate.
Defined.

(* ================================================================== *)
(** * Properties of the JavaScript layer *)
(* ================================================================== *)

Section JSProperties.
Import JS.
Local Open Scope string_scope.

Lemma strict_eq_string (o : option string) (c : string) :
  strict_eq String.eqb o c = true <-> o = Some c.
Proof.
  destruct o as [s|]; cbn.
  - rewrite String.eqb_eq. split; congruence.
  - split; discriminate.
Qed.

Lemma truthy_string_iff (o : option string) :
  truthy_string o = true <-> exists s, o = Some s /\ s <> "".
Proof.
  destruct o as [[|c rest]|]; cbn; split; intros H;
    try discriminate; try reflexivity.
  - destruct H as (s & E & N). injection E as <-. now destruct N.
  - exists (String c rest). split; [reflexivity | discriminate].
  - destruct H as (s & E & _). discriminate.
Qed.

Lemma or_else_Some (s d : string) :
  s <> "" -> SentimentAnalysisService.or_else (Some s) d = s.
Proof. destruct s; [intros N; now destruct N | reflexivity]. Qed.

Lemma prefix_iff (sub s : string) :
  prefix sub s = true <-> exists post, s = sub ++ post.
Proof.
  revert s. induction sub as [|c sub IH]; intros s.
  - destruct s; cbn; (split; [intros _; eexists; reflexivity | reflexivity]).
  - destruct s as [|d s]; cbn.
    + split; [discriminate | intros [post E]; discriminate].
    + destruct (ascii_dec c d) as [->|N].
      * rewrite IH. split; intros [post E]; exists post; congruence.
      * split; [discriminate | intros [post E]; congruence].
Qed.

(** [includes] is the substring test. *)
Lemma includes_iff (s sub : string) :
  includes s sub = true <-> exists pre post, s = pre ++ sub ++ post.
Proof.
  induction s as [|c s IH].
  - change (includes "" sub) with (prefix sub "" || false)%bool.
    rewrite orb_false_r, prefix_iff. split.
    + intros [post E]. now exists "", post.
    + intros (pre & post & E). destruct pre; [now exists post|discriminate].
  - change (includes (String c s) sub)
      with (prefix sub (String c s) || includes s sub)%bool.
    rewrite orb_true_iff, IH, prefix_iff. split.
    + intros [[post E] | (pre & post & E)].
      * now exists "", post.
      * exists (String c pre), post. cbn. now rewrite E.
    + intros (pre & post & E). destruct pre as [|d pre]; cbn in E.
      * left. now exists post.
      * right. exists pre, post. congruence.
Qed.

Lemma test_digit_1_5_iff (s : string) :
  test_digit_1_5 s = true <->
  s = "1" \/ s = "2" \/ s = "3" \/ s = "4" \/ s = "5".
Proof.
  destruct s as [|c [|d rest]].
  - split; [discriminate | intros [H|[H|[H|[H|H]]]]; discriminate].
  - destruct c as [[] [] [] [] [] [] [] []]; cbn;
      (split; [ intros H; first [ discriminate H | tauto ]
              | intros [H|[H|[H|[H|H]]]]; first [ reflexivity | discriminate H ] ]).
  - split; [discriminate | intros [H|[H|[H|[H|H]]]]; discriminate].
Qed.

Lemma length_append (a b : string) :
  String.length (a ++ b) = String.length a + String.length b.
Proof. induction a as [|c a IH]; cbn; [reflexivity | now rewrite IH]. Qed.

Lemma append_assoc (a b c : string) : (a ++ b) ++ c = a ++ (b ++ c).
Proof. induction a as [|x a IH]; cbn; [reflexivity | now rewrite IH]. Qed.

Lemma append_empty_r (a : string) : a ++ "" = a.
Proof. induction a as [|x a IH]; cbn; [reflexivity | now rewrite IH]. Qed.

End JSProperties.

(* ================================================================== *)
(** * Properties of the scoring service *)
(* ================================================================== *)

Section SurveyActivity.
Import JS SentimentAnalysisService.
Local Open Scope string_scope.

(** C7. An activity is a survey response exactly when its type is
    "message", it carries a non-empty [channelData.clientActivityID] and a
    non-empty [cci_bot_id], its text is one digit from 1 to 5, and its text
    format is "plain"; every other activity, and no activity at all, is
    rejected. *)
Theorem isCopilotSurveyResponse_iff (activity : DirectLineActivity.t) :
  (isCopilotSurveyResponse (Some activity) = true <->
     DirectLineActivity.type activity = Some "message"
     /\ (exists data id,
           DirectLineActivity.channelData activity = Some data
           /\ DirectLineActivity.clientActivityID data = Some id /\ id <> "")
     /\ (exists botId,
           DirectLineActivity.cci_bot_id activity = Some botId /\ botId <> "")
     /\ (exists digit,
           DirectLineActivity.text activity = Some digit
           /\ (digit = "1" \/ digit = "2" \/ digit = "3"
               \/ digit = "4" \/ digit = "5"))
     /\ DirectLineActivity.textFormat activity = Some "plain")
  /\ isCopilotSurveyResponse None = false.
Proof.
  split; [|reflexivity].
  unfold isCopilotSurveyResponse. cbn [chain_opt].
  rewrite !andb_true_iff, !strict_eq_string, !truthy_string_iff, test_digit_1_5_iff.
  split.
  - intros [[[[[Htype (id & Hid & Nid)] Hbot] (txt & Htxt & Ntxt)] Hdigit] Hfmt].
    repeat split; try assumption.
    + destruct (DirectLineActivity.channelData activity) as [data|];
        [now exists data, id | discriminate].
    + exists txt. rewrite Htxt in Hdigit. rewrite or_else_Some in Hdigit by assumption.
      now split.
  - intros (Htype & (data & id & Hdata & Hid & Nid) & Hbot
            & (digit & Htxt & Hdigit) & Hfmt).
    assert (Ndigit : digit <> "")
      by (destruct Hdigit as [->|[->|[->|[->| ->]]]]; discriminate).
    repeat split; try assumption.
    + exists id. rewrite Hdata. now split.
    + now exists digit.
    + rewrite Htxt, or_else_Some by assumption. assumption.
Qed.

(** Two digits are rejected, one digit from 1 to 5 is accepted, and a digit
    followed by a line break is rejected. *)
Example isCopilotSurveyResponse_examples :
  isCopilotSurveyResponse (Some (surveyActivity "12")) = false
  /\ isCopilotSurveyResponse (Some (surveyActivity "3")) = true
  /\ isCopilotSurveyResponse (Some (surveyActivity "0")) = false
  /\ isCopilotSurveyResponse (Some (surveyActivity "6")) = false
  /\ isCopilotSurveyResponse (Some (surveyActivity ("3" ++ newline))) = false.
Proof. repeat split. Qed.

End SurveyActivity.

Section SenderClassification.
Import JS SentimentAnalysisService.
Local Open Scope string_scope.

(** The display name of the application a message comes from. *)
Let applicationName (message : SDKMessage.t) : option string :=
  match SDKMessage.from message with
  | Some f =>
      match SDKMessage.application f with
      | Some a => SDKMessage.displayName a
      | None => None
      end
  | None => None
  end.

(** What [determineSender] of the SDK service reads.  A message is from the
    customer exactly when its tags contain "FromCustomer" or its application
    is named exactly "Customer"; otherwise it is from an agent exactly when
    its tags contain "public"; otherwise it is from the bot.  Nothing but
    the tags and the application name is read: two messages that agree on
    them are classified alike. *)
Theorem determineSender_by_tags (message : SDKMessage.t) :
  (determineSender message = customer <->
     includes_opt (SDKMessage.tags message) "FromCustomer" = true
     \/ applicationName message = Some "Customer")
  /\ (determineSender message = agent <->
        includes_opt (SDKMessage.tags message) "FromCustomer" = false
        /\ applicationName message <> Some "Customer"
        /\ includes_opt (SDKMessage.tags message) "public" = true)
  /\ (determineSender message = bot <->
        includes_opt (SDKMessage.tags message) "FromCustomer" = false
        /\ applicationName message <> Some "Customer"
        /\ includes_opt (SDKMessage.tags message) "public" = false)
  /\ (forall other : SDKMessage.t,
        SDKMessage.tags other = SDKMessage.tags message ->
        applicationName other = applicationName message ->
        determineSender other = determineSender message).
Proof.
  assert (Hname : forall m,
            strict_eq String.eqb
              (chain_opt (chain_opt (SDKMessage.from m) SDKMessage.application)
                 SDKMessage.displayName) "Customer" = true
            <-> applicationName m = Some "Customer").
  { intros m. rewrite strict_eq_string. unfold applicationName.
    destruct (SDKMessage.from m) as [f|]; cbn; [|tauto].
    destruct (SDKMessage.application f); cbn; tauto. }
  assert (Hsame : forall m m', applicationName m' = applicationName m ->
            strict_eq String.eqb
              (chain_opt (chain_opt (SDKMessage.from m') SDKMessage.application)
                 SDKMessage.displayName) "Customer"
            = strict_eq String.eqb
                (chain_opt (chain_opt (SDKMessage.from m) SDKMessage.application)
                   SDKMessage.displayName) "Customer").
  { intros m m' E. apply eq_true_iff_eq. rewrite !Hname. now rewrite E. }
  unfold determineSender. repeat split.
  - destruct (includes_opt (SDKMessage.tags message) "FromCustomer"); cbn;
      [now left|].
    destruct (strict_eq _ _ _) eqn:E; [right; now apply Hname|].
    destruct (includes_opt _ "public"); discriminate.
  - intros [H|H].
    + now rewrite H.
    + apply Hname in H. rewrite H, orb_true_r. reflexivity.
  - destruct (includes_opt (SDKMessage.tags message) "FromCustomer");
      cbn in H; [discriminate | reflexivity].
  - intros N. apply Hname in N. rewrite N, orb_true_r in H. discriminate.
  - destruct (_ || _); [discriminate|].
    destruct (includes_opt _ "public"); [reflexivity | discriminate].
  - intros (H1 & H2 & H3). rewrite H1, H3. cbn.
    destruct (strict_eq _ _ _) eqn:E; [|reflexivity].
    apply Hname in E. contradiction.
  - destruct (includes_opt (SDKMessage.tags message) "FromCustomer");
      cbn in H; [discriminate | reflexivity].
  - intros N. apply Hname in N. rewrite N, orb_true_r in H. discriminate.
  - destruct (_ || _); [discriminate|].
    destruct (includes_opt _ "public"); [discriminate | reflexivity].
  - intros (H1 & H2 & H3). rewrite H1, H3. cbn.
    destruct (strict_eq _ _ _) eqn:E; [|reflexivity].
    apply Hname in E. contradiction.
  - intros other Htags Hn. rewrite Htags, (Hsame message other Hn). reflexivity.
Qed.

End SenderClassification.

(** C8 fails on [determineSender] of the SDK service: it has no display-name
    step and no type or sender field step.  A message without tags of the
    user "Agent Smith" is the bot's for it, and so is a message without tags
    whose sender field says "customer"; the classifier of the REST variant,
    which follows the order of the claim, gives the first to the agent and
    the second to the customer.  In general the SDK classifier gives to the
    bot every message whose tags hold neither "FromCustomer" nor "public"
    and whose application is not named "Customer", whatever its user name,
    its type and its sender field say. *)
Theorem determineSender_misses_heuristics :
  SentimentAnalysisService.determineSender
    (Samples.messageOf None (Some "Agent Smith"%string) None)
  = SentimentAnalysisService.bot
  /\ SentimentAnalyticsService.determineSender
       (Samples.messageOf None (Some "Agent Smith"%string) None)
     = SentimentAnalysisService.agent
  /\ SentimentAnalysisService.determineSender
       SentimentAnalysisService.untaggedCustomerFieldMessage
     = SentimentAnalysisService.bot
  /\ SentimentAnalyticsService.determineSender
       SentimentAnalysisService.untaggedCustomerFieldMessage
     = SentimentAnalysisService.customer
  /\ (forall message : SentimentAnalysisService.SDKMessage.t,
        JS.includes_opt (SentimentAnalysisService.SDKMessage.tags message)
          "FromCustomer" = false ->
        JS.includes_opt (SentimentAnalysisService.SDKMessage.tags message)
          "public" = false ->
        JS.strict_eq String.eqb
          (JS.chain_opt
             (JS.chain_opt (SentimentAnalysisService.SDKMessage.from message)
                SentimentAnalysisService.SDKMessage.application)
             SentimentAnalysisService.SDKMessage.displayName)
          "Customer"%string = false ->
        SentimentAnalysisService.determineSender message
        = SentimentAnalysisService.bot).
Proof.
  split; [reflexivity|]. split; [reflexivity|].
  split; [reflexivity|]. split; [reflexivity|].
  intros message Hcustomer Hpublic Hname.
  unfold SentimentAnalysisService.determineSender.
  now rewrite Hcustomer, Hpublic, Hname.
Qed.

Section SurveyOnly.
Import JS SentimentAnalysisService.
Local Open Scope string_scope.
#[local] Set Warnings "-inexact-float".

Lemma invalidSurveyScore_false (n : Z) :
  (1 <= n <= 5)%Z -> invalidSurveyScore (Some n) = false.
Proof.
  intros H. unfold invalidSurveyScore, isNaN, lt, gt. cbn.
  apply orb_false_iff. split; apply Z.ltb_ge; lia.
Qed.

Lemma invalidSurveyScore_true (score : option Z) :
  score = None \/ (exists n, score = Some n /\ (n < 1 \/ 5 < n)%Z) ->
  invalidSurveyScore score = true.
Proof.
  intros [-> | (n & -> & [H|H])]; unfold invalidSurveyScore; cbn.
  - reflexivity.
  - apply Z.ltb_lt in H. now rewrite H.
  - apply Z.ltb_lt in H. rewrite H. apply orb_true_r.
Qed.

(** What [parseInt] reads in the texts a survey can carry. *)
Example parseInt_examples :
  parseInt "1" = Some 1%Z /\ parseInt "2" = Some 2%Z /\ parseInt "3" = Some 3%Z
  /\ parseInt "4" = Some 4%Z /\ parseInt "5" = Some 5%Z
  /\ parseInt "7" = Some 7%Z /\ parseInt "0" = Some 0%Z
  /\ parseInt "-3" = Some (-3)%Z /\ parseInt "great" = None
  /\ parseInt "" = None /\ parseInt " 4 stars" = Some 4%Z
  /\ parseInt "0x1F" = Some 31%Z.
Proof. repeat split. Qed.

(** C9. When the AI analysis gives no result and a survey response is
    supplied, the pipeline returns the result built from the survey alone:
    with score n and confidence 0.95 when the response reads as an integer n
    from 1 to 5, and the neutral fallback (score 3, confidence 0.5,
    sentiment neutral) when it reads as an integer out of that range or as
    no number.  It is never null. *)
Theorem survey_only_result
    (newClient : string -> option TextAnalysisClient) (now : string)
    (messages : list SDKMessage.t) (config : option SentimentAnalysisConfig)
    (survey : CopilotSurveyResponse.t) :
  snd (analyzeSentiments newClient now messages config) = None ->
  snd (analyzeSentimentWithSurvey newClient now messages (Some survey) config)
  = Some (createCSATFromSurvey survey)
  /\ (forall n,
        parseInt (CopilotSurveyResponse.response survey) = Some n ->
        (1 <= n <= 5)%Z ->
        csatScore (createCSATFromSurvey survey) = Number n
        /\ confidence (createCSATFromSurvey survey) = 0.95%float
        /\ surveyResponseIncluded (createCSATFromSurvey survey) = Some true)
  /\ (parseInt (CopilotSurveyResponse.response survey) = None
      \/ (exists n, parseInt (CopilotSurveyResponse.response survey) = Some n
                    /\ (n < 1 \/ 5 < n)%Z) ->
      createCSATFromSurvey survey = neutralFallback).
Proof.
  intros Hai. repeat split.
  - unfold analyzeSentimentWithSurvey.
    destruct (analyzeSentiments newClient now messages config) as [log ai].
    cbn in Hai. subst ai. reflexivity.
  - unfold createCSATFromSurvey. rewrite H, invalidSurveyScore_false by assumption.
    reflexivity.
  - unfold createCSATFromSurvey. rewrite H, invalidSurveyScore_false by assumption.
    reflexivity.
  - unfold createCSATFromSurvey. rewrite H, invalidSurveyScore_false by assumption.
    reflexivity.
  - intros H. unfold createCSATFromSurvey.
    now rewrite invalidSurveyScore_true.
Qed.

End SurveyOnly.

(** C9 at the survey response "7" with the AI analysis disabled. *)
Lemma survey_only_result_witness :
  snd (SentimentAnalysisService.analyzeSentimentWithSurvey
         (fun _ => None) "now" []
         (Some (SentimentAnalysisService.surveyOf "7"))
         (Some SentimentAnalysisService.disabledConfig))
  = Some SentimentAnalysisService.neutralFallback.
Proof.
  pose proof (survey_only_result (fun _ => None) "now" []
                (Some SentimentAnalysisService.disabledConfig)
                (SentimentAnalysisService.surveyOf "7") eq_refl) as (Hres & _ & Hfall).
  refine (eq_trans Hres (f_equal Some (Hfall _))).
  right. exists 7%Z. split; [reflexivity | lia].
Defined.

Section ConversationText.
Import JS SentimentAnalysisService.
Local Open Scope string_scope.

Lemma skipn_nth_error {A : Type} (l : list A) (i : nat) (x : A) :
  nth_error l i = Some x -> skipn i l = x :: skipn (S i) l.
Proof.
  revert i. induction l as [|y l IH]; intros [|i] H; cbn in *;
    try discriminate.
  - now injection H as ->.
  - now apply IH.
Qed.

Lemma transcriptText_app (a b : list ChatMessage.t) :
  transcriptText (a ++ b) = transcriptText a ++ transcriptText b.
Proof.
  unfold transcriptText.
  induction a as [|m a IH]; cbn [fold_right app]; [reflexivity|].
  now rewrite IH, append_assoc.
Qed.

(** The loop below the newest message: entered at [n] with the text of the
    messages from [n] on, it ends with the text of the messages from some
    [k] on; every message it added fitted the budget, and it stopped either
    at the oldest message or at one that did not fit. *)
Lemma conversationTextLoop_suffix (chatTranscript : list ChatMessage.t) (n : nat) :
  n < List.length chatTranscript ->
  exists k,
    k <= n
    /\ conversationTextLoop chatTranscript n (transcriptText (skipn n chatTranscript))
       = transcriptText (skipn k chatTranscript)
    /\ (forall j, k <= j < n ->
          String.length (transcriptText (skipn j chatTranscript)) <= MAX_TEXT_LENGTH)
    /\ (k = 0
        \/ exists message,
             nth_error chatTranscript (k - 1) = Some message
             /\ MAX_TEXT_LENGTH
                < String.length (transcriptText (skipn k chatTranscript))
                  + String.length (messageText message)).
Proof.
  induction n as [|i IH]; intros Hn.
  - exists 0. refine (conj _ (conj _ (conj _ _)));
      [lia | reflexivity | intros j Hj; lia | now left].
  - destruct (nth_error chatTranscript i) as [message|] eqn:Hi;
      [|apply nth_error_None in Hi; lia].
    cbn [conversationTextLoop]. rewrite Hi.
    replace (i =? List.length chatTranscript - 1)%nat with false
      by (symmetry; apply Nat.eqb_neq; lia).
    cbn [orb].
    destruct (String.length (transcriptText (skipn (S i) chatTranscript))
              + String.length (messageText message) <=? MAX_TEXT_LENGTH)%nat eqn:Hfit.
    + apply Nat.leb_le in Hfit.
      assert (Hstep : messageText message ++ transcriptText (skipn (S i) chatTranscript)
                      = transcriptText (skipn i chatTranscript))
        by (now rewrite (skipn_nth_error _ _ Hi)).
      rewrite Hstep.
      destruct IH as (k & Hk & Hres & Hfits & Hstop); [lia|].
      exists k. refine (conj _ (conj _ (conj _ _)));
        [lia | assumption | | assumption].
      intros j Hj. destruct (Nat.eq_dec j i) as [->|Nj]; [|apply Hfits; lia].
      rewrite <- Hstep, length_append. lia.
    + apply Nat.leb_gt in Hfit.
      exists (S i). refine (conj _ (conj _ (conj _ _)));
        [lia | reflexivity | intros j Hj; lia |].
      right. exists message. cbn [Nat.sub]. rewrite Nat.sub_0_r. now split.
Qed.

(** C6. For a transcript that ends with the message [newest], the text
    sent to the provider is the lines of a run of messages that ends with
    [newest], whose line is there in full whatever its length.  Walking
    back from [newest], every older message whose line still fitted the
    budget of 5000 characters was added, and the walk stopped at the first
    one whose line did not fit, or at the oldest message. *)
Theorem conversationText_newest_suffix
    (older : list ChatMessage.t) (newest : ChatMessage.t) :
  exists k,
    k <= List.length older
    /\ buildConversationText (older ++ [newest])
       = transcriptText (skipn k (older ++ [newest]))
    /\ buildConversationText (older ++ [newest])
       = transcriptText (skipn k older) ++ messageText newest
    /\ (forall j, k <= j < List.length older ->
          String.length (transcriptText (skipn j (older ++ [newest])))
          <= MAX_TEXT_LENGTH)
    /\ (k = 0
        \/ exists message,
             nth_error older (k - 1) = Some message
             /\ MAX_TEXT_LENGTH
                < String.length (transcriptText (skipn k (older ++ [newest])))
                  + String.length (messageText message)).
Proof.
  set (chatTranscript := (older ++ [newest])%list).
  assert (Hlen : List.length chatTranscript = S (List.length older))
    by (unfold chatTranscript; rewrite length_app; cbn; lia).
  assert (Hnewest : nth_error chatTranscript (List.length older) = Some newest)
    by (unfold chatTranscript; rewrite nth_error_app2, Nat.sub_diag by lia;
        reflexivity).
  assert (Hfirst : buildConversationText chatTranscript
                   = conversationTextLoop chatTranscript (List.length older)
                       (transcriptText (skipn (List.length older) chatTranscript))).
  { unfold buildConversationText. rewrite Hlen. cbn [conversationTextLoop].
    rewrite Hnewest, Hlen.
    replace (List.length older =? S (List.length older) - 1)%nat with true
      by (symmetry; apply Nat.eqb_eq; lia).
    cbn [orb]. rewrite (skipn_nth_error _ _ Hnewest).
    rewrite skipn_all2 by lia. reflexivity. }
  destruct (conversationTextLoop_suffix chatTranscript (n := List.length older))
    as (k & Hk & Hres & Hfits & Hstop); [lia|].
  exists k. rewrite Hfirst, Hres.
  refine (conj Hk (conj eq_refl (conj _ (conj Hfits _)))).
  - unfold chatTranscript. rewrite skipn_app, transcriptText_app.
    replace (k - List.length older) with 0 by lia.
    cbn. now rewrite append_empty_r.
  - destruct k as [|k]; [now left|].
    destruct Hstop as [Hk0|(message & Hm & Hover)]; [discriminate|].
    right. exists message. split; [|assumption].
    unfold chatTranscript in Hm. rewrite nth_error_app1 in Hm by (cbn; lia).
    assumption.
Qed.

(** The newest message is kept whole even when its line alone is longer than
    the budget, and then no older message is added. *)
Example conversationText_over_budget :
  let older := messageOfLength customer 10 in
  let newest := messageOfLength agent (60 * 100) in
  buildConversationText [older; newest] = messageText newest
  /\ (MAX_TEXT_LENGTH <? String.length (messageText newest))%nat = true.
Proof. vm_compute. split; reflexivity. Qed.

End ConversationText.

(* ================================================================== *)
(** * Order of Numbers and [Math.max] *)
(* ================================================================== *)

Section NumberOrder.
Import JS.

Ltac order_cases :=
  repeat match goal with
         | |- context [Pos.compare_cont Eq ?a ?b] =>
             change (Pos.compare_cont Eq a b) with (Pos.compare a b)
         end;
  repeat match goal with
         | |- context [Z.compare ?a ?b] => destruct (Z.compare_spec a b); try subst
         | |- context [Pos.compare ?a ?b] => destruct (Pos.compare_spec a b); try subst
         end;
  cbn; intros; try reflexivity; try discriminate; try lia.

Lemma SFleb_trans (x y z : spec_float) :
  SFleb x y = true -> SFleb y z = true -> SFleb x z = true.
Proof.
  unfold SFleb, SFcompare.
  destruct x as [[]|[]| |[] mx ex], y as [[]|[]| |[] my ey], z as [[]|[]| |[] mz ez];
    cbn; try (intros; reflexivity || discriminate); order_cases.
Qed.

Lemma SFcompare_antisym (x y : spec_float) (c : comparison) :
  SFcompare x y = Some c -> SFcompare y x = Some (CompOpp c).
Proof.
  unfold SFcompare.
  destruct x as [[]|[]| |[] mx ex], y as [[]|[]| |[] my ey];
    cbn; try (intros H; injection H as <-; reflexivity); try discriminate;
    intros H; injection H as <-; f_equal; order_cases.
Qed.

Lemma SFcompare_defined (x y : spec_float) :
  x <> S754_nan -> y <> S754_nan -> exists c, SFcompare x y = Some c.
Proof.
  intros Hx Hy. destruct x, y; try (now destruct Hx); try (now destruct Hy);
    cbn; eexists; reflexivity.
Qed.

Lemma is_nan_false (x : float) : is_nan x = false -> Prim2SF x <> S754_nan.
Proof.
  unfold is_nan. rewrite negb_false_iff, eqb_spec. unfold SFeqb.
  intros H E. rewrite E in H. discriminate.
Qed.

Lemma leb_trans (x y z : float) :
  (x <=? y)%float = true -> (y <=? z)%float = true -> (x <=? z)%float = true.
Proof. rewrite !leb_spec. apply SFleb_trans. Qed.

Lemma eqb_leb (x y : float) :
  (x =? y)%float = true -> (x <=? y)%float = true /\ (y <=? x)%float = true.
Proof.
  rewrite eqb_spec, !leb_spec. unfold SFeqb, SFleb.
  destruct (SFcompare (Prim2SF x) (Prim2SF y)) as [[]|] eqn:E; try discriminate.
  intros _. now rewrite (@SFcompare_antisym _ _ _ E).
Qed.

Lemma leb_refl (x : float) : is_nan x = false -> (x <=? x)%float = true.
Proof.
  unfold is_nan. rewrite negb_false_iff. intros H. now apply eqb_leb in H.
Qed.

Lemma ltb_leb (x y : float) : (x <? y)%float = true -> (x <=? y)%float = true.
Proof.
  rewrite ltb_spec, leb_spec. unfold SFltb, SFleb.
  now destruct (SFcompare (Prim2SF x) (Prim2SF y)) as [[]|].
Qed.

Lemma not_ltb_leb (x y : float) :
  is_nan x = false -> is_nan y = false ->
  (x <? y)%float = false -> (y <=? x)%float = true.
Proof.
  intros Hx Hy. rewrite ltb_spec, leb_spec. unfold SFltb, SFleb.
  destruct (@SFcompare_defined _ _ (@is_nan_false _ Hx) (@is_nan_false _ Hy)) as [c E].
  rewrite E, (@SFcompare_antisym _ _ _ E). now destruct c.
Qed.

(** One round of [Math.max]. *)
Let higher (highest number : float) : float :=
  if isPositiveZero number && isNegativeZero highest then number
  else if (highest <? number)%float then number
  else highest.

Lemma higher_spec (highest number : float) :
  is_nan highest = false -> is_nan number = false ->
  (highest <=? higher highest number)%float = true
  /\ (number <=? higher highest number)%float = true
  /\ (higher highest number = highest \/ higher highest number = number).
Proof.
  intros Hh Hn. unfold higher.
  destruct (isPositiveZero number && isNegativeZero highest) eqn:Hzero.
  - apply andb_true_iff in Hzero as [Hp Hm].
    unfold isPositiveZero, isNegativeZero, is_zero in Hp, Hm.
    apply andb_true_iff in Hp as [Hp _]. apply andb_true_iff in Hm as [Hm _].
    apply eqb_leb in Hp as [_ Hp]. apply eqb_leb in Hm as [Hm _].
    split; [exact (@leb_trans _ _ _ Hm Hp) | split; [now apply leb_refl | now right]].
  - destruct (highest <? number)%float eqn:Hlt.
    + split; [now apply ltb_leb | split; [now apply leb_refl | now right]].
    + split; [now apply leb_refl | split; [now apply not_ltb_leb | now left]].
Qed.

Lemma fold_higher_spec (args : list float) (start : float) :
  is_nan start = false -> existsb is_nan args = false ->
  (start <=? fold_left higher args start)%float = true
  /\ (forall x, In x args -> (x <=? fold_left higher args start)%float = true)
  /\ (fold_left higher args start = start \/ In (fold_left higher args start) args).
Proof.
  revert start. induction args as [|number args IH]; intros start Hs Hargs.
  - cbn. split; [now apply leb_refl | split; [intros x [] | now left]].
  - cbn in Hargs. apply orb_false_iff in Hargs as [Hn Hargs].
    destruct (@higher_spec start number Hs Hn) as (H1 & H2 & H3).
    assert (Hh : is_nan (higher start number) = false)
      by (destruct H3 as [-> | ->]; assumption).
    destruct (IH _ Hh Hargs) as (I1 & I2 & I3).
    cbn [fold_left]. split; [exact (@leb_trans _ _ _ H1 I1)|]. split.
    + intros x [<- | Hx]; [exact (@leb_trans _ _ _ H2 I1) | now apply I2].
    + destruct I3 as [I3 | I3]; [|right; now right].
      rewrite I3. destruct H3 as [-> | ->]; [now left | right; now left].
Qed.

(** Without NaN among its arguments, [Math.max] returns one of them, and
    none of them is above it. *)
Lemma Math_max_spec (first : float) (others : list float) :
  existsb is_nan (first :: others) = false ->
  In (Math_max (first :: others)) (first :: others)
  /\ forall x, In x (first :: others) ->
               (x <=? Math_max (first :: others))%float = true.
Proof.
  intros Hargs. unfold Math_max. rewrite Hargs.
  fold higher.
  destruct (@fold_higher_spec (first :: others) neg_infinity eq_refl Hargs)
    as (H1 & H2 & H3).
  split; [|exact H2].
  destruct H3 as [H3 | H3]; [|exact H3].
  (* the result is -Infinity: then so is the first argument, up to the order *)
  cbn in Hargs. apply orb_false_iff in Hargs as [Hf Hothers].
  assert (Hle : (first <=? neg_infinity)%float = true)
    by (rewrite <- H3; apply H2; now left).
  assert (Hfirst : first = neg_infinity).
  { apply Prim2SF_inj. rewrite leb_spec in Hle.
    pose proof (@is_nan_false _ Hf) as Hnan.
    change (Prim2SF neg_infinity) with (S754_infinity true) in *.
    destruct (Prim2SF first) as [[]|[]| |[] m e]; cbn in Hle;
      try discriminate; try reflexivity; now destruct Hnan. }
  rewrite H3, <- Hfirst. now left.
Qed.

End NumberOrder.

Section ProviderResponse.
Import JS SentimentAnalysisService.
Local Open Scope string_scope.
#[local] Set Warnings "-inexact-float".

(** The parser on a response that carries a label and scores. *)
Lemma parseAzureSDKResponse_labelled (label : string)
    (scores : SentimentAnalysisSuccessResult.ConfidenceScores) :
  label <> "" ->
  parseAzureSDKResponse (providerResult label scores)
  = let positive := SentimentAnalysisSuccessResult.positive scores in
    let negative := SentimentAnalysisSuccessResult.negative scores in
    let neutral := SentimentAnalysisSuccessResult.neutral scores in
    let sentiment := if (label =? "mixed")%string then "neutral" else label in
    let csatScore :=
      if (sentiment =? "positive")%string then
        if (0.8 <? positive)%float then 5%float else 4%float
      else if (sentiment =? "negative")%string then
        if (0.8 <? negative)%float then 1%float else 2%float
      else 3%float in
    Some {| csatScore := csatScore;
            confidence := Math_max [positive; negative; neutral];
            sentiment := sentiment;
            satisfactionLevel := mapSentimentToSatisfaction sentiment csatScore;
            surveyResponseIncluded := None |}.
Proof.
  intros Hlabel. destruct label as [|c rest]; [now destruct Hlabel|].
  unfold parseAzureSDKResponse, providerResult.
  cbn [chain_opt truthy_string negb SentimentAnalysisSuccessResult.sentiment
       SentimentAnalysisSuccessResult.confidenceScores or_else].
  cbv zeta.
  destruct (0.8 <? SentimentAnalysisSuccessResult.positive scores)%float,
           (0.6 <? SentimentAnalysisSuccessResult.positive scores)%float,
           (0.8 <? SentimentAnalysisSuccessResult.negative scores)%float,
           (0.6 <? SentimentAnalysisSuccessResult.negative scores)%float;
    reflexivity.
Qed.

(** C4. For a provider response with a sentiment label and confidence
    scores the parser returns a result whose score is 5 or 4 for positive
    (5 when the positive confidence is above 0.8), 1 or 2 for negative (1
    when the negative confidence is above 0.8), 3 for neutral, and 3 with
    sentiment neutral for mixed.  Its confidence is [Math.max] of the three
    scores: when none of them is NaN it is one of the three and none of
    them is above it.  For positive the score is at least 4. *)
Theorem parseAzureSDKResponse_score (label : string)
    (scores : SentimentAnalysisSuccessResult.ConfidenceScores) :
  let positive := SentimentAnalysisSuccessResult.positive scores in
  let negative := SentimentAnalysisSuccessResult.negative scores in
  let neutral := SentimentAnalysisSuccessResult.neutral scores in
  label <> "" ->
  exists csat,
    parseAzureSDKResponse (providerResult label scores) = Some csat
    /\ (label = "positive" ->
        csatScore csat = (if (0.8 <? positive)%float then 5 else 4)%float
        /\ (4 <=? csatScore csat)%float = true
        /\ sentiment csat = "positive")
    /\ (label = "negative" ->
        csatScore csat = (if (0.8 <? negative)%float then 1 else 2)%float
        /\ sentiment csat = "negative")
    /\ (label = "neutral" -> csatScore csat = 3%float /\ sentiment csat = "neutral")
    /\ (label = "mixed" -> csatScore csat = 3%float /\ sentiment csat = "neutral")
    /\ confidence csat = Math_max [positive; negative; neutral]
    /\ (existsb is_nan [positive; negative; neutral] = false ->
        In (confidence csat) [positive; negative; neutral]
        /\ forall x, In x [positive; negative; neutral] ->
                     (x <=? confidence csat)%float = true).
Proof.
  intros positive negative neutral Hlabel.
  rewrite (parseAzureSDKResponse_labelled scores Hlabel). cbv zeta.
  fold positive negative neutral.
  eexists. split; [reflexivity|].
  cbn [csatScore confidence sentiment].
  split; [intros ->; cbn; destruct (0.8 <? positive)%float; now repeat split|].
  split; [intros ->; cbn; destruct (0.8 <? negative)%float; now repeat split|].
  split; [intros ->; now cbn|].
  split; [intros ->; now cbn|].
  split; [reflexivity|].
  apply Math_max_spec.
Qed.

End ProviderResponse.

Section SurveyBlend.
Import JS SentimentAnalysisService.
Local Open Scope string_scope.
#[local] Set Warnings "-inexact-float".

Lemma invalidSurveyScore_false_inv (score : option Z) :
  invalidSurveyScore score = false ->
  exists n, score = Some n /\ (1 <= n <= 5)%Z.
Proof.
  destruct score as [n|]; [|discriminate].
  unfold invalidSurveyScore. cbn. intros H.
  apply orb_false_iff in H as [H1 H5].
  apply Z.ltb_ge in H1, H5. exists n. split; [reflexivity | lia].
Qed.

Lemma scale_cases (n : Z) :
  (1 <= n <= 5)%Z -> n = 1%Z \/ n = 2%Z \/ n = 3%Z \/ n = 4%Z \/ n = 5%Z.
Proof. lia. Qed.

(** The blend branch of [combineSentimentAndSurvey]. *)
Lemma combineSentimentAndSurvey_valid (ai : CSATResult)
    (survey : CopilotSurveyResponse.t) (n : Z) :
  parseInt (CopilotSurveyResponse.response survey) = Some n ->
  (1 <= n <= 5)%Z ->
  combineSentimentAndSurvey ai survey
  = let finalScore :=
      Math_max [1%float;
                Math_min [5%float;
                          Math_round (Number n * 0.7 + csatScore ai * 0.3)%float]] in
    {| csatScore := finalScore;
       confidence := Math_max [confidence ai; 0.95%float];
       sentiment := mapScoreToSentiment finalScore;
       satisfactionLevel := mapSentimentToSatisfaction "" finalScore;
       surveyResponseIncluded := Some true |}.
Proof.
  intros Hparse Hn. unfold combineSentimentAndSurvey.
  rewrite Hparse, invalidSurveyScore_false by assumption. reflexivity.
Qed.

(** On the scale 1..5 the Number arithmetic of the blend gives what exact
    arithmetic gives, with the sentiment and the label of that score. *)
Lemma blend_on_scale (n a : Z) :
  (1 <= n <= 5)%Z -> (1 <= a <= 5)%Z ->
  let finalScore :=
    Math_max [1%float;
              Math_min [5%float;
                        Math_round (Number n * 0.7 + Number a * 0.3)%float]] in
  finalScore = Number (Specified.blend n a)
  /\ (1 <= Specified.blend n a <= 5)%Z
  /\ mapScoreToSentiment finalScore = Specified.sentimentOfScore (Specified.blend n a)
  /\ mapSentimentToSatisfaction "" finalScore
     = Specified.satisfactionLevel (Specified.blend n a).
Proof.
  intros Hn Ha.
  destruct (scale_cases Hn) as [->|[->|[->|[->| ->]]]];
    destruct (scale_cases Ha) as [->|[->|[->|[->| ->]]]];
    vm_compute; (split; [reflexivity|]); (split; [split; discriminate|]);
    split; reflexivity.
Qed.

(** C5. With a survey response that reads as an integer n from 1 to 5, the
    blended result has the score [Math.max(1, Math.min(5, Math.round(n * 0.7
    + aiScore * 0.3)))], the confidence [Math.max(aiConfidence, 0.95)], the
    sentiment of its own score (positive from 4 up, negative up to 2,
    neutral otherwise) and the survey mark.  For an AI score a on the scale
    1..5 that score is round(n * 0.7 + a * 0.3) of exact arithmetic, clamped
    to 1..5; when the AI confidence is not NaN the confidence is the larger
    of it and 0.95. *)
Theorem combineSentimentAndSurvey_blend (ai : CSATResult)
    (survey : CopilotSurveyResponse.t) (n : Z) :
  parseInt (CopilotSurveyResponse.response survey) = Some n ->
  (1 <= n <= 5)%Z ->
  let blended := combineSentimentAndSurvey ai survey in
  csatScore blended
  = Math_max [1%float;
              Math_min [5%float;
                        Math_round (Number n * 0.7 + csatScore ai * 0.3)%float]]
  /\ confidence blended = Math_max [confidence ai; 0.95%float]
  /\ sentiment blended
     = (if (4 <=? csatScore blended)%float then "positive"
        else if (csatScore blended <=? 2)%float then "negative"
        else "neutral")
  /\ surveyResponseIncluded blended = Some true
  /\ (forall a : Z,
        (1 <= a <= 5)%Z -> csatScore ai = Number a ->
        csatScore blended = Number (Specified.blend n a)
        /\ (1 <= Specified.blend n a <= 5)%Z
        /\ sentiment blended = Specified.sentimentOfScore (Specified.blend n a))
  /\ (is_nan (confidence ai) = false ->
        (confidence blended = confidence ai \/ confidence blended = 0.95%float)
        /\ (confidence ai <=? confidence blended)%float = true
        /\ (0.95 <=? confidence blended)%float = true).
Proof.
  intros Hparse Hn blended. subst blended.
  rewrite (combineSentimentAndSurvey_valid ai survey Hparse Hn). cbv zeta.
  cbn [csatScore confidence sentiment surveyResponseIncluded].
  split; [reflexivity|]. split; [reflexivity|]. split; [reflexivity|].
  split; [reflexivity|]. split.
  - intros a Ha Hai. rewrite Hai.
    destruct (blend_on_scale Hn Ha) as (H1 & H2 & H3 & _).
    cbv zeta in H1, H3. now rewrite H3, H1.
  - intros Hnan.
    destruct (@Math_max_spec (confidence ai) [0.95%float]) as [Hin Hle].
    + cbn. now rewrite Hnan.
    + split; [|split].
      * destruct Hin as [<-|[<-|[]]]; [now left | now right].
      * apply Hle. now left.
      * apply Hle. right. now left.
Qed.

End SurveyBlend.

Section CsatScale.
Import JS SentimentAnalysisService.
Local Open Scope string_scope.
#[local] Set Warnings "-inexact-float".

Ltac on_scale n :=
  exists n; split; [lia | split; vm_compute; reflexivity].

Lemma parseAzureSDKResponse_onScale
    (result : option SentimentAnalysisSuccessResult.t) (csat : CSATResult) :
  parseAzureSDKResponse result = Some csat -> onScale csat.
Proof.
  destruct result as [[[label|] [scores|]]|]; try discriminate;
    try (destruct label; discriminate).
  destruct (string_dec label "") as [->|Hlabel]; [discriminate|].
  change (Some {| SentimentAnalysisSuccessResult.sentiment := Some label;
                  SentimentAnalysisSuccessResult.confidenceScores := Some scores |})
    with (providerResult label scores).
  rewrite (parseAzureSDKResponse_labelled scores Hlabel). cbv zeta.
  intros H. injection H as <-. unfold onScale.
  cbn [csatScore satisfactionLevel].
  destruct ((if (label =? "mixed")%string then "neutral" else label) =? "positive")%string.
  - destruct (0.8 <? _)%float; [on_scale 5%Z | on_scale 4%Z].
  - destruct (_ =? "negative")%string.
    + destruct (0.8 <? _)%float; [on_scale 1%Z | on_scale 2%Z].
    + exists 3%Z. split; [lia|]. split; reflexivity.
Qed.

Lemma combineSentimentAndSurvey_onScale (ai : CSATResult)
    (survey : CopilotSurveyResponse.t) :
  onScale ai -> onScale (combineSentimentAndSurvey ai survey).
Proof.
  intros Hai.
  destruct (invalidSurveyScore (parseInt (CopilotSurveyResponse.response survey)))
    eqn:Hvalid.
  - unfold combineSentimentAndSurvey. now rewrite Hvalid.
  - apply invalidSurveyScore_false_inv in Hvalid as (n & Hparse & Hn).
    rewrite (combineSentimentAndSurvey_valid ai survey Hparse Hn). cbv zeta.
    destruct Hai as (a & Ha & Hscore & _). rewrite Hscore.
    destruct (blend_on_scale Hn Ha) as (H1 & H2 & _ & H4). cbv zeta in H1, H4.
    exists (Specified.blend n a). cbn [csatScore satisfactionLevel].
    split; [exact H2 | split; assumption].
Qed.

Lemma createCSATFromSurvey_onScale (survey : CopilotSurveyResponse.t) :
  onScale (createCSATFromSurvey survey).
Proof.
  unfold createCSATFromSurvey.
  destruct (invalidSurveyScore (parseInt (CopilotSurveyResponse.response survey)))
    eqn:Hvalid.
  - on_scale 3%Z.
  - apply invalidSurveyScore_false_inv in Hvalid as (n & -> & Hn).
    exists n. split; [exact Hn|]. split; [reflexivity|].
    cbn [satisfactionLevel surveyNumber].
    destruct (scale_cases Hn) as [->|[->|[->|[->| ->]]]]; vm_compute; reflexivity.
Qed.

Lemma analyzeSentiments_onScale
    (newClient : string -> option TextAnalysisClient) (now : string)
    (messages : list SDKMessage.t) (config : option SentimentAnalysisConfig)
    (csat : CSATResult) :
  snd (analyzeSentiments newClient now messages config) = Some csat ->
  onScale csat.
Proof.
  unfold analyzeSentiments.
  destruct (_ || _ || _)%bool; [discriminate|].
  destruct (_ =? 0)%nat; [discriminate|].
  destruct (callSentimentAnalysis _ _ _) as [result|] eqn:Hcall; [|discriminate].
  cbn. intros H. injection H as <-.
  unfold callSentimentAnalysis in Hcall.
  destruct (createSentimentClient _ _) as [client|]; [|discriminate].
  destruct (client _) as [results|]; [|discriminate].
  destruct (nth_error results 0) as [[|success]|]; try discriminate.
  now apply parseAzureSDKResponse_onScale in Hcall.
Qed.

(** C10. Every result of a scoring path is on the CSAT scale: the result of
    parsing a provider response, the blend of such a result with a survey
    response, the result built from a survey response alone, and so every
    non-null result of the pipeline.  On the scale the score is an integer
    from 1 to 5 and the satisfaction level is the label of that score: Very
    Satisfied for 5, Satisfied for 4, Neutral for 3, Dissatisfied for 2, Very
    Dissatisfied for 1. *)
Theorem csat_results_on_scale :
  (forall result csat, parseAzureSDKResponse result = Some csat -> onScale csat)
  /\ (forall ai survey, onScale ai -> onScale (combineSentimentAndSurvey ai survey))
  /\ (forall survey, onScale (createCSATFromSurvey survey))
  /\ (forall newClient now messages survey config csat,
        snd (analyzeSentimentWithSurvey newClient now messages survey config)
        = Some csat ->
        onScale csat).
Proof.
  split; [exact parseAzureSDKResponse_onScale|].
  split; [exact combineSentimentAndSurvey_onScale|].
  split; [exact createCSATFromSurvey_onScale|].
  intros newClient now messages survey config csat.
  unfold analyzeSentimentWithSurvey.
  pose proof (@analyzeSentiments_onScale newClient now messages config) as Hai.
  destruct (analyzeSentiments newClient now messages config) as [log ai].
  cbn in Hai.
  destruct survey as [survey|], ai as [ai|]; cbn; intros H;
    try discriminate; injection H as <-.
  - apply combineSentimentAndSurvey_onScale. now apply Hai.
  - apply createCSATFromSurvey_onScale.
  - now apply Hai.
Qed.

End CsatScale.

(* ================================================================== *)
(** * The properties at concrete inputs *)
(* ================================================================== *)

Section Instances.
Import JS SentimentAnalysisService.
Local Open Scope string_scope.
#[local] Set Warnings "-inexact-float".

(** For a positive document the score is 5 at confidence 0.9 and 4 at
    confidence 0.7 and at confidence 0.5. *)
Example parseAzureSDKResponse_positive_examples :
  option_map csatScore
    (parseAzureSDKResponse (providerResult "positive" (scores 0.9 0.05 0.05)))
  = Some 5%float
  /\ option_map csatScore
       (parseAzureSDKResponse (providerResult "positive" (scores 0.7 0.1 0.2)))
     = Some 4%float
  /\ option_map csatScore
       (parseAzureSDKResponse (providerResult "positive" (scores 0.5 0.2 0.3)))
     = Some 4%float
  /\ option_map csatScore
       (parseAzureSDKResponse (providerResult "positive" (scores 0.8 0.1 0.1)))
     = Some 4%float
  /\ parseAzureSDKResponse (providerResult "" (scores 0.9 0.05 0.05)) = None
  /\ parseAzureSDKResponse None = None.
Proof. repeat split. Qed.

(** C4 at a confidently positive document. *)
Lemma parseAzureSDKResponse_score_witness :
  exists csat,
    parseAzureSDKResponse (providerResult "positive" (scores 0.9 0.05 0.05))
    = Some csat
    /\ csatScore csat = 5%float
    /\ confidence csat = 0.9%float.
Proof.
  destruct (@parseAzureSDKResponse_score "positive" (scores 0.9 0.05 0.05))
    as (csat & Hparse & Hpositive & _ & _ & _ & Hconfidence & _).
  - discriminate.
  - exists csat. split; [exact Hparse|].
    split; [exact (proj1 (Hpositive eq_refl)) | exact Hconfidence].
Defined.

(** C5 at an AI score of 4 and the survey response "5": the blend is 5. *)
Lemma combineSentimentAndSurvey_blend_witness :
  csatScore (combineSentimentAndSurvey satisfiedResult (surveyOf "5")) = 5%float
  /\ surveyResponseIncluded (combineSentimentAndSurvey satisfiedResult (surveyOf "5"))
     = Some true
  /\ confidence (combineSentimentAndSurvey satisfiedResult (surveyOf "5"))
     = 0.95%float.
Proof.
  destruct (@combineSentimentAndSurvey_blend satisfiedResult (surveyOf "5") 5%Z)
    as (_ & Hconfidence & _ & Hsurvey & Hscale & _).
  - reflexivity.
  - lia.
  - destruct (Hscale 4%Z) as (Hscore & _); [lia | reflexivity |].
    split; [exact Hscore | split; [exact Hsurvey | exact Hconfidence]].
Defined.

(** Two untagged messages of an application named "agent": both are the
    bot's for the SDK service, whatever the sender field says. *)
Lemma determineSender_by_tags_witness :
  determineSender untaggedCustomerFieldMessage = determineSender untaggedAgentMessage
  /\ determineSender untaggedAgentMessage = bot.
Proof.
  split; [|reflexivity].
  exact (proj2 (proj2 (proj2 (determineSender_by_tags untaggedAgentMessage)))
           untaggedCustomerFieldMessage eq_refl eq_refl).
Defined.

(** C10 at the blend of an AI result of score 4 with the survey response
    "5". *)
Lemma csat_results_on_scale_witness :
  onScale (combineSentimentAndSurvey satisfiedResult (surveyOf "5")).
Proof.
  apply (proj1 (proj2 csat_results_on_scale)).
  exists 4%Z. split; [lia | split; reflexivity].
Defined.

End Instances.

(* ================================================================== *)
(** * Further properties of the scoring service *)
(* ================================================================== *)

Section TrimProperties.
Import JS.
Local Open Scope string_scope.

Lemma trimStart_blank (s : string) : JSString.allWhiteSpace (trimStart s) = JSString.allWhiteSpace s.
Proof.
  unfold JSString.allWhiteSpace. induction s as [|c s IH]; [reflexivity|].
  cbn [trimStart]. destruct (isWhiteSpace c) eqn:Hc.
  - rewrite IH. cbn. now rewrite Hc.
  - reflexivity.
Qed.

Lemma trimStart_empty_iff (s : string) : trimStart s = "" <-> JSString.allWhiteSpace s = true.
Proof.
  unfold JSString.allWhiteSpace. induction s as [|c s IH]; [now split|].
  cbn. destruct (isWhiteSpace c); cbn; [exact IH|].
  split; discriminate.
Qed.

Lemma trimStart_head (s : string) (c : ascii) (rest : string) :
  trimStart s = String c rest -> isWhiteSpace c = false.
Proof.
  induction s as [|d s IH]; [discriminate|].
  cbn. destruct (isWhiteSpace d) eqn:Hd; [exact IH|].
  intros H. injection H as <- _. exact Hd.
Qed.

Lemma reverse_blank (s : string) : JSString.allWhiteSpace (reverse s) = JSString.allWhiteSpace s.
Proof.
  unfold JSString.allWhiteSpace, reverse. rewrite list_ascii_of_string_of_list_ascii.
  generalize (list_ascii_of_string s) as l. intros l.
  apply eq_true_iff_eq. rewrite !forallb_forall.
  split; intros H x Hx; apply H; [now apply -> in_rev | now apply in_rev in Hx].
Qed.

Lemma length_reverse (s : string) : String.length (reverse s) = String.length s.
Proof.
  assert (Hlen : forall l, String.length (string_of_list_ascii l) = List.length l)
    by (induction l as [|c l IH]; cbn; [reflexivity | now rewrite IH]).
  unfold reverse. rewrite Hlen, length_rev, <- Hlen.
  now rewrite string_of_list_ascii_of_string.
Qed.

(** [s.trim().length === 0] holds exactly for the strings of white space. *)
Lemma trim_length_zero_iff (s : string) :
  String.length (trim s) = 0 <-> JSString.allWhiteSpace s = true.
Proof.
  unfold trim. rewrite length_reverse.
  rewrite <- (trimStart_blank s), <- (reverse_blank (trimStart s)),
    <- trimStart_empty_iff.
  destruct (trimStart (reverse (trimStart s))); cbn; split;
    (reflexivity || discriminate).
Qed.

(** A trimmed string neither starts nor ends with white space. *)
Lemma trim_ends (s : string) :
  match list_ascii_of_string (trim s) with
  | [] => True
  | first :: _ =>
      isWhiteSpace first = false
      /\ isWhiteSpace (last (list_ascii_of_string (trim s)) first) = false
  end.
Proof.
  set (t := trimStart s).
  set (u := trimStart (reverse t)).
  assert (Htrim : list_ascii_of_string (trim s) = rev (list_ascii_of_string u)).
  { unfold trim. fold t. fold u. unfold reverse at 1.
    now rewrite list_ascii_of_string_of_list_ascii. }
  rewrite Htrim. clear Htrim.
  assert (Hu : exists skipped, list_ascii_of_string (reverse t)
                               = (skipped ++ list_ascii_of_string u)%list).
  { subst u. generalize (reverse t) as r.
    induction r as [|c r IH]; [now exists []|].
    cbn [trimStart]. destruct (isWhiteSpace c).
    - destruct IH as [skipped E]. exists (c :: skipped). cbn. now rewrite E.
    - now exists []. }
  destruct Hu as [skipped Hrev].
  destruct u as [|c u'] eqn:Eu; [exact I|].
  pose proof (trimStart_head (reverse t) Eu) as Hc.
  cbn [list_ascii_of_string] in *.
  (* the trimmed string, reversed, is [c :: u']; its last unit is [c] *)
  destruct (rev (c :: list_ascii_of_string u')) as [|first body] eqn:Erev.
  { apply (f_equal (@List.length ascii)) in Erev.
    rewrite length_rev in Erev. discriminate. }
  assert (Hlast : last (first :: body) first = c).
  { rewrite <- Erev. cbn [rev]. now rewrite last_last. }
  rewrite Hlast. split; [|exact Hc].
  (* the first unit is the last unit of [rev t], the head of [t] *)
  assert (Hfirst : exists tail, list_ascii_of_string t = first :: tail).
  { unfold reverse in Hrev. rewrite list_ascii_of_string_of_list_ascii in Hrev.
    apply (f_equal (@rev ascii)) in Hrev.
    rewrite rev_involutive, rev_app_distr, Erev in Hrev.
    cbn in Hrev. eexists. exact Hrev. }
  destruct Hfirst as [tail Ht].
  destruct t as [|d t'] eqn:Et; [discriminate|].
  cbn in Ht. injection Ht as -> _.
  exact (trimStart_head s Et).
Qed.

End TrimProperties.

Section SurveyExtraction.
Import JS SentimentAnalysisService.
Local Open Scope string_scope.
#[local] Set Warnings "-inexact-float".

Lemma isCopilotSurveyResponse_text (activity : option DirectLineActivity.t) :
  isCopilotSurveyResponse activity = true ->
  exists a digit,
    activity = Some a
    /\ DirectLineActivity.text a = Some digit
    /\ (digit = "1" \/ digit = "2" \/ digit = "3" \/ digit = "4" \/ digit = "5")
    /\ truthy_string (DirectLineActivity.cci_bot_id a) = true.
Proof.
  destruct activity as [a|]; [|discriminate].
  unfold isCopilotSurveyResponse. cbn [chain_opt].
  rewrite !andb_true_iff.
  intros [[[[[_ _] Hbot] Htext] Hdigit] _].
  apply truthy_string_iff in Htext as (txt & Htxt & Ntxt).
  rewrite Htxt, or_else_Some in Hdigit by assumption.
  apply test_digit_1_5_iff in Hdigit.
  exists a, txt. repeat split; assumption.
Qed.

Lemma extractSurveyResponse_cases (now : string)
    (activity : option DirectLineActivity.t) :
  (isCopilotSurveyResponse activity = false ->
   extractSurveyResponse now activity = None)
  /\ (isCopilotSurveyResponse activity = true ->
      exists survey,
        extractSurveyResponse now activity = Some survey
        /\ In (CopilotSurveyResponse.response survey) ["1"; "2"; "3"; "4"; "5"]).
Proof.
  split; intros Haccept.
  - unfold extractSurveyResponse. now rewrite Haccept.
  - destruct (isCopilotSurveyResponse_text _ Haccept)
      as (a & digit & -> & Htext & Hdigit & _).
    unfold extractSurveyResponse. rewrite Haccept. cbn [negb chain_opt].
    eexists. split; [reflexivity|].
    cbn [CopilotSurveyResponse.response]. rewrite Htext.
    destruct Hdigit as [->|[->|[->|[->| ->]]]]; cbn; auto 10.
Qed.

(** [extractSurveyResponse] gives a survey exactly for the activities that
    [isCopilotSurveyResponse] accepts.  The survey carries the text of the
    activity, which is one digit from 1 to 5, the bot id of the activity,
    the confidence 95, and the local timestamp of the activity or, without
    one, the current time. *)
Theorem extractSurveyResponse_accepts (now : string)
    (activity : option DirectLineActivity.t) :
  (isCopilotSurveyResponse activity = false ->
   extractSurveyResponse now activity = None)
  /\ (isCopilotSurveyResponse activity = true ->
      exists a survey,
        activity = Some a
        /\ extractSurveyResponse now activity = Some survey
        /\ DirectLineActivity.text a = Some (CopilotSurveyResponse.response survey)
        /\ In (CopilotSurveyResponse.response survey) ["1"; "2"; "3"; "4"; "5"]
        /\ CopilotSurveyResponse.botId survey = DirectLineActivity.cci_bot_id a
        /\ CopilotSurveyResponse.confidence survey = Some 95%float
        /\ CopilotSurveyResponse.timestamp survey
           = or_else (DirectLineActivity.localTimestamp a) now).
Proof.
  split; intros Haccept.
  - unfold extractSurveyResponse. now rewrite Haccept.
  - destruct (isCopilotSurveyResponse_text _ Haccept)
      as (a & digit & -> & Htext & Hdigit & _).
    unfold extractSurveyResponse. rewrite Haccept. cbn [negb chain_opt].
    eexists a, _. split; [reflexivity|]. split; [reflexivity|].
    cbn [CopilotSurveyResponse.response CopilotSurveyResponse.botId
         CopilotSurveyResponse.confidence CopilotSurveyResponse.timestamp].
    rewrite Htext.
    assert (Hne : digit <> "")
      by (destruct Hdigit as [->|[->|[->|[->| ->]]]]; discriminate).
    rewrite (or_else_Some _ Hne).
    split; [reflexivity|]. split; [|now repeat split].
    destruct Hdigit as [->|[->|[->|[->| ->]]]]; cbn; auto 10.
Qed.

(** A survey extracted from an activity always scores: alone it gives the
    digit as score with confidence 0.95, never the neutral fallback, and
    with an AI result it is always blended, so the result carries the
    survey mark. *)
Theorem extracted_survey_scores (now : string)
    (activity : option DirectLineActivity.t) (survey : CopilotSurveyResponse.t)
    (ai : CSATResult) :
  extractSurveyResponse now activity = Some survey ->
  exists n : Z,
    (1 <= n <= 5)%Z
    /\ parseInt (CopilotSurveyResponse.response survey) = Some n
    /\ csatScore (createCSATFromSurvey survey) = Number n
    /\ confidence (createCSATFromSurvey survey) = 0.95%float
    /\ createCSATFromSurvey survey <> neutralFallback
    /\ surveyResponseIncluded (combineSentimentAndSurvey ai survey) = Some true.
Proof.
  intros Hextract.
  destruct (isCopilotSurveyResponse activity) eqn:Haccept;
    [|now rewrite (proj1 (extractSurveyResponse_cases now activity) Haccept)
        in Hextract].
  destruct (proj2 (extractSurveyResponse_cases now activity) Haccept)
    as (survey' & Hsome & Hdigit).
  rewrite Hsome in Hextract. injection Hextract as ->.
  assert (Hparse : exists n : Z,
             (1 <= n <= 5)%Z
             /\ parseInt (CopilotSurveyResponse.response survey) = Some n).
  { cbn in Hdigit.
    destruct Hdigit as [<-|[<-|[<-|[<-|[<-|[]]]]]];
      [exists 1%Z | exists 2%Z | exists 3%Z | exists 4%Z | exists 5%Z];
      (split; [lia | reflexivity]). }
  destruct Hparse as (n & Hn & Hparse). exists n.
  split; [exact Hn|]. split; [exact Hparse|].
  assert (Hcreate : createCSATFromSurvey survey
                    = {| csatScore := Number n;
                         confidence := 0.95%float;
                         sentiment := mapScoreToSentiment (Number n);
                         satisfactionLevel := mapSentimentToSatisfaction "" (Number n);
                         surveyResponseIncluded := Some true |}).
  { unfold createCSATFromSurvey.
    now rewrite Hparse, invalidSurveyScore_false by assumption. }
  rewrite Hcreate. split; [reflexivity|]. split; [reflexivity|]. split.
  - intros H. apply (f_equal confidence) in H. cbn in H.
    apply (f_equal (fun x => (x =? 0.5)%float)) in H. vm_compute in H.
    discriminate.
  - now rewrite (combineSentimentAndSurvey_valid ai survey Hparse Hn).
Qed.

End SurveyExtraction.

Section TranscriptFilter.
Import JS SentimentAnalysisService.
Local Open Scope string_scope.

Lemma keepMessage_iff (message : SDKMessage.t) :
  keepMessage message = true <->
  SDKMessage.isControlMessage message <> Some true
  /\ exists content,
       SDKMessage.content message = Some content
       /\ JSString.allWhiteSpace content = false.
Proof.
  unfold keepMessage.
  destruct (SDKMessage.isControlMessage message) as [[|]|]; cbn [truthy];
    try (split; [discriminate | intros [H _]; now destruct H]).
  - destruct (SDKMessage.content message) as [[|c rest]|]; cbn [truthy_string negb orb].
    + split; [discriminate | intros [_ (content & H & Hw)]].
      injection H as <-. discriminate.
    + cbn [or_else].
      destruct (String.length (trim (String c rest)) =? 0)%nat eqn:Hlen.
      * apply Nat.eqb_eq, trim_length_zero_iff in Hlen.
        split; [discriminate | intros [_ (content & H & Hw)]].
        injection H as <-. congruence.
      * apply Nat.eqb_neq in Hlen. rewrite trim_length_zero_iff in Hlen.
        split; [intros _ | reflexivity].
        split; [discriminate|]. exists (String c rest).
        split; [reflexivity | now destruct (JSString.allWhiteSpace (String c rest))].
    + split; [discriminate | intros [_ (content & H & _)]; discriminate].
  - destruct (SDKMessage.content message) as [[|c rest]|]; cbn [truthy_string negb orb].
    + split; [discriminate | intros [_ (content & H & Hw)]].
      injection H as <-. discriminate.
    + cbn [or_else].
      destruct (String.length (trim (String c rest)) =? 0)%nat eqn:Hlen.
      * apply Nat.eqb_eq, trim_length_zero_iff in Hlen.
        split; [discriminate | intros [_ (content & H & Hw)]].
        injection H as <-. congruence.
      * apply Nat.eqb_neq in Hlen. rewrite trim_length_zero_iff in Hlen.
        split; [intros _ | reflexivity].
        split; [discriminate|]. exists (String c rest).
        split; [reflexivity | now destruct (JSString.allWhiteSpace (String c rest))].
    + split; [discriminate | intros [_ (content & H & _)]; discriminate].
Qed.

(** The transcript keeps exactly the messages that are not control messages
    and whose content has a code unit that is not white space, each with its
    content unchanged and the sender [determineSender] gives it: no chat
    message of the transcript is blank, and the transcript is never longer
    than the message array. *)
Theorem filteredMessages_kept (now : string) (messages : list SDKMessage.t) :
  (forall chat, In chat (filteredMessages now messages) ->
        JSString.allWhiteSpace (ChatMessage.content chat) = false
        /\ exists message,
             In message messages
             /\ SDKMessage.isControlMessage message <> Some true
             /\ SDKMessage.content message = Some (ChatMessage.content chat)
             /\ ChatMessage.sender chat = determineSender message)
  /\ (forall message, In message messages ->
        SDKMessage.isControlMessage message <> Some true ->
        (exists content, SDKMessage.content message = Some content
                         /\ JSString.allWhiteSpace content = false) ->
        In (toChatMessage now message) (filteredMessages now messages))
  /\ List.length (filteredMessages now messages) <= List.length messages.
Proof.
  unfold filteredMessages. split; [|split].
  - intros chat Hin. apply in_map_iff in Hin as (message & <- & Hin).
    apply filter_In in Hin as [Hin Hkeep].
    apply keepMessage_iff in Hkeep as (Hcontrol & content & Hcontent & Hwhite).
    assert (Hne : content <> "") by (intros ->; discriminate).
    cbn [toChatMessage ChatMessage.content ChatMessage.sender].
    rewrite Hcontent, (or_else_Some _ Hne).
    split; [exact Hwhite|]. exists message. now repeat split.
  - intros message Hin Hcontrol Hcontent. apply in_map, filter_In.
    split; [exact Hin | now apply keepMessage_iff].
  - rewrite length_map. apply filter_length_le.
Qed.

End TranscriptFilter.

Section AnalysisPipeline.
Import JS SentimentAnalysisService.
Local Open Scope string_scope.

Variable newClient : string -> option TextAnalysisClient.
Variables (now : string) (messages : list SDKMessage.t).
Variable config : option SentimentAnalysisConfig.

(** What the three checks of the effective configuration say of the
    configuration the caller gave: a key it carries decides, also with the
    value [undefined]; for a key it does not carry the default passes. *)
Lemma effectiveConfig_checks :
  let cfg := effectiveConfig config in
  (read (enabled cfg) <> Some true
   \/ truthy_string (read (endpoint cfg)) = false
   \/ truthy_string (read (apiKey cfg)) = false)
  <-> exists c,
        config = Some c
        /\ ((exists v, enabled c = present v /\ v <> Some true)
            \/ (exists v, endpoint c = present v /\ truthy_string v = false)
            \/ (exists v, apiKey c = present v /\ truthy_string v = false)).
Proof.
  cbv zeta. destruct config as [[ep key to en udc]|]; cbn.
  - split.
    + intros H. eexists. split; [reflexivity|]. cbn.
      destruct en as [|en], ep as [|ep], key as [|key]; cbn in *;
        destruct H as [H | [H | H]];
        try (now destruct H); try discriminate H; eauto 6.
    + intros (c & Hc & H). injection Hc as <-. cbn in H.
      destruct H as [(v & -> & H) | [(v & -> & H) | (v & -> & H)]]; cbn; auto.
  - split.
    + intros [H | [H | H]]; [now destruct H | discriminate | discriminate].
    + intros (c & Hc & _). discriminate.
Qed.

Lemma checks_bool (cfg : SentimentAnalysisConfig) :
  negb (truthy (read (enabled cfg)))
  || negb (truthy_string (read (endpoint cfg)))
  || negb (truthy_string (read (apiKey cfg))) = false
  <-> read (enabled cfg) = Some true
      /\ truthy_string (read (endpoint cfg)) = true
      /\ truthy_string (read (apiKey cfg)) = true.
Proof.
  destruct (read (enabled cfg)) as [[|]|]; cbn;
    destruct (truthy_string (read (endpoint cfg)));
    destruct (truthy_string (read (apiKey cfg))); cbn;
    split; try tauto; try discriminate;
    intros (H1 & H2 & H3); discriminate.
Qed.

Lemma callSentimentAnalysis_result (transcript : list ChatMessage.t)
    (cfg : SentimentAnalysisConfig) (csat : CSATResult) :
  callSentimentAnalysis newClient transcript cfg = Some csat
  <-> exists url client document rest,
        read (endpoint cfg) = Some url /\ url <> ""
        /\ newClient url = Some client
        /\ client (buildConversationText transcript)
           = Some (SuccessResult document :: rest)
        /\ parseAzureSDKResponse (Some document) = Some csat.
Proof.
  unfold callSentimentAnalysis, createSentimentClient. cbv zeta. split.
  - destruct (read (endpoint cfg)) as [[|c url]|]; try discriminate.
    destruct (newClient (String c url)) as [client|] eqn:Hclient;
      [|discriminate].
    destruct (client (buildConversationText transcript))
      as [[|[|document] rest]|] eqn:Hanswer; cbn; try discriminate.
    intros Hparse. exists (String c url), client, document, rest.
    split; [reflexivity|]. split; [discriminate|]. now repeat split.
  - intros (url & client & document & rest & -> & Hurl & Hclient & Hanswer & Hparse).
    destruct url as [|c url]; [now destruct Hurl|].
    rewrite Hclient, Hanswer. exact Hparse.
Qed.

(** The analysis answers null without any event exactly when the caller's
    configuration switches it off or the filtered transcript is empty.  The
    configuration switches it off exactly when it carries the key [enabled]
    with a value other than true, or the key [endpoint] or [apiKey] with an
    empty or undefined value: a key carried with the value [undefined]
    overrides the default, and no configuration at all leaves the defaults,
    which pass. *)
Theorem analyzeSentiments_gate :
  analyzeSentiments newClient now messages config = ([], None)
  <-> (exists c,
         config = Some c
         /\ ((exists v, enabled c = present v /\ v <> Some true)
             \/ (exists v, endpoint c = present v /\ truthy_string v = false)
             \/ (exists v, apiKey c = present v /\ truthy_string v = false)))
      \/ filteredMessages now messages = [].
Proof.
  rewrite <- effectiveConfig_checks. cbv zeta.
  unfold analyzeSentiments. cbv zeta.
  destruct (_ || _ || _)%bool eqn:Hchecks.
  - split; [intros _; left | reflexivity].
    destruct (read (enabled (effectiveConfig config))) as [[|]|];
      [|left; discriminate | left; discriminate].
    cbn in Hchecks.
    destruct (truthy_string (read (endpoint (effectiveConfig config))));
      [|now right; left].
    destruct (truthy_string (read (apiKey (effectiveConfig config))));
      [discriminate | now right; right].
  - apply checks_bool in Hchecks as (Henabled & Hendpoint & HapiKey).
    destruct (filteredMessages now messages) as [|message transcript] eqn:Ht;
      cbn [List.length Nat.eqb].
    + split; [now right | reflexivity].
    + split.
      * destruct (callSentimentAnalysis _ _ _); discriminate.
      * intros [[H | [H | H]] | H]; congruence.
Qed.

(** One run of the analysis logs at most one event, and the event tells the
    outcome.  Nothing is logged exactly when the run stops at the checks:
    the effective configuration is not enabled or has no endpoint or no key,
    or the filtered transcript is empty.  A result is returned exactly when,
    past the checks, the client could be made for the endpoint, answered the
    text of the transcript with a first entry that is a document, and the
    parser scored that document; exactly then the event is a completion.
    Every other run past the checks logs one failure warning and answers
    null.  No run logs an error. *)
Theorem analyzeSentiments_telemetry :
  let cfg := effectiveConfig config in
  let transcript := filteredMessages now messages in
  let run := analyzeSentiments newClient now messages config in
  let ready :=
    read (enabled cfg) = Some true
    /\ truthy_string (read (endpoint cfg)) = true
    /\ truthy_string (read (apiKey cfg)) = true
    /\ transcript <> [] in
  (fst run = [] <-> ~ ready)
  /\ (forall csat,
        snd run = Some csat
        <-> ready
            /\ exists url client document rest,
                 read (endpoint cfg) = Some url /\ url <> ""
                 /\ newClient url = Some client
                 /\ client (buildConversationText transcript)
                    = Some (SuccessResult document :: rest)
                 /\ parseAzureSDKResponse (Some document) = Some csat)
  /\ (fst run = [(INFO, CSATAnalysisCompleted)] <-> exists csat, snd run = Some csat)
  /\ (fst run = [(WARN, CSATAnalysisFailed)] <-> ready /\ snd run = None)
  /\ (fst run = [] \/ fst run = [(INFO, CSATAnalysisCompleted)]
      \/ fst run = [(WARN, CSATAnalysisFailed)]).
Proof.
  cbv zeta. unfold analyzeSentiments. cbv zeta.
  destruct (_ || _ || _)%bool eqn:Hchecks.
  { assert (Hnot : ~ (read (enabled (effectiveConfig config)) = Some true
                      /\ truthy_string (read (endpoint (effectiveConfig config))) = true
                      /\ truthy_string (read (apiKey (effectiveConfig config))) = true
                      /\ filteredMessages now messages <> [])).
    { intros (H1 & H2 & H3 & _).
      assert (H : negb (truthy (read (enabled (effectiveConfig config))))
                  || negb (truthy_string (read (endpoint (effectiveConfig config))))
                  || negb (truthy_string (read (apiKey (effectiveConfig config))))
                  = false) by (apply checks_bool; auto).
      congruence. }
    cbn [fst snd]. split; [tauto|]. split; [|split; [|split; [|now left]]].
    - intros csat. split; [discriminate | tauto].
    - split; [discriminate | intros (csat & H); discriminate].
    - split; [discriminate | tauto]. }
  apply checks_bool in Hchecks as (Henabled & Hendpoint & HapiKey).
  destruct (filteredMessages now messages) as [|message transcript] eqn:Ht;
    cbn [List.length Nat.eqb].
  { cbn [fst snd]. split; [split; [intros _ (_ & _ & _ & H); now apply H | reflexivity]|].
    split; [|split; [|split; [|now left]]].
    - intros csat. split; [discriminate | intros ((_ & _ & _ & H) & _); now destruct H].
    - split; [discriminate | intros (csat & H); discriminate].
    - split; [discriminate | intros ((_ & _ & _ & H) & _); now destruct H]. }
  assert (Hready : read (enabled (effectiveConfig config)) = Some true
                   /\ truthy_string (read (endpoint (effectiveConfig config))) = true
                   /\ truthy_string (read (apiKey (effectiveConfig config))) = true
                   /\ message :: transcript <> [])
    by (repeat split; try assumption; discriminate).
  pose proof (callSentimentAnalysis_result (message :: transcript)
                (effectiveConfig config)) as Hcall.
  destruct (callSentimentAnalysis newClient (message :: transcript)
              (effectiveConfig config)) as [result|]; cbn [fst snd].
  - split; [split; [discriminate | tauto]|].
    split; [|split; [|split; [|right; now left]]].
    + intros csat. split.
      * intros H. injection H as <-. split; [exact Hready | now apply Hcall].
      * intros (_ & H). apply Hcall in H. exact H.
    + split; [intros _; now exists result | reflexivity].
    + split; [discriminate | intros (_ & H); discriminate].
  - split; [split; [discriminate | tauto]|].
    split; [|split; [|split; [|right; now right]]].
    + intros csat. split; [discriminate|].
      intros (_ & H). apply Hcall in H. discriminate.
    + split; [discriminate | intros (csat & H); discriminate].
    + split; [intros _; now split | reflexivity].
Qed.

(** With a survey response the pipeline never answers null, and its last
    event is a completion.  The result carries the survey mark unless an AI
    result exists and the survey does not read as a number from 1 to 5: then
    the AI result is returned as it is. *)
Theorem analyzeSentimentWithSurvey_never_null (survey : CopilotSurveyResponse.t) :
  let run := analyzeSentimentWithSurvey newClient now messages (Some survey) config in
  exists csat,
    snd run = Some csat
    /\ last (fst run) (ERROR, CSATAnalysisFailed) = (INFO, CSATAnalysisCompleted)
    /\ (surveyResponseIncluded csat = Some true
        \/ (snd (analyzeSentiments newClient now messages config) = Some csat
            /\ invalidSurveyScore
                 (parseInt (CopilotSurveyResponse.response survey)) = true)).
Proof.
  unfold analyzeSentimentWithSurvey. cbv zeta.
  destruct (analyzeSentiments newClient now messages config) as [log [ai|]];
    cbn [withSurvey fst snd].
  - eexists. split; [reflexivity|]. split; [now rewrite last_last|].
    unfold combineSentimentAndSurvey.
    destruct (invalidSurveyScore _); [now right | now left].
  - eexists. split; [reflexivity|]. split; [now rewrite last_last|].
    left. unfold createCSATFromSurvey. now destruct (invalidSurveyScore _).
Qed.

(** Without a survey response the pipeline is the AI analysis alone: the
    same result and the same events. *)
Theorem analyzeSentimentWithSurvey_without_survey :
  analyzeSentimentWithSurvey newClient now messages None config
  = analyzeSentiments newClient now messages config.
Proof.
  unfold analyzeSentimentWithSurvey.
  destruct (analyzeSentiments newClient now messages config) as [log ai].
  cbn. now rewrite app_nil_r.
Qed.

End AnalysisPipeline.

Section ScoreCoherence.
Import JS SentimentAnalysisService.
Local Open Scope string_scope.
#[local] Set Warnings "-inexact-float".

(** For the four labels of the provider the parsed result is coherent: its
    sentiment is the sentiment [mapScoreToSentiment] gives its score, a
    positive result is Satisfied or Very Satisfied, a negative one
    Dissatisfied or Very Dissatisfied, and a neutral one Neutral. *)
Theorem parseAzureSDKResponse_coherent (label : string)
    (scores : SentimentAnalysisSuccessResult.ConfidenceScores) :
  In label ["positive"; "negative"; "neutral"; "mixed"] ->
  exists csat,
    parseAzureSDKResponse (providerResult label scores) = Some csat
    /\ sentiment csat = mapScoreToSentiment (csatScore csat)
    /\ (sentiment csat = "positive" ->
        In (satisfactionLevel csat) ["Satisfied"; "Very Satisfied"])
    /\ (sentiment csat = "negative" ->
        In (satisfactionLevel csat) ["Dissatisfied"; "Very Dissatisfied"])
    /\ (sentiment csat = "neutral" -> satisfactionLevel csat = "Neutral").
Proof.
  intros Hlabel.
  assert (Hne : label <> "")
    by (destruct Hlabel as [<-|[<-|[<-|[<-|[]]]]]; discriminate).
  rewrite (parseAzureSDKResponse_labelled scores Hne). cbv zeta.
  eexists. split; [reflexivity|].
  cbn [sentiment csatScore satisfactionLevel].
  destruct Hlabel as [<-|[<-|[<-|[<-|[]]]]]; cbn;
    try destruct (0.8 <? _)%float; cbn;
    repeat split; intros; try discriminate; auto.
Qed.

(** The blend follows the survey: for a survey n and an AI score a, both on
    the scale 1..5, the blended score is an integer between the two, at
    most one away from the survey, and equal to both when they agree. *)
Theorem combineSentimentAndSurvey_follows_survey (ai : CSATResult)
    (survey : CopilotSurveyResponse.t) (n a : Z) :
  parseInt (CopilotSurveyResponse.response survey) = Some n ->
  (1 <= n <= 5)%Z -> (1 <= a <= 5)%Z -> csatScore ai = Number a ->
  exists k : Z,
    csatScore (combineSentimentAndSurvey ai survey) = Number k
    /\ (Z.min n a <= k <= Z.max n a)%Z
    /\ (Z.abs (k - n) <= 1)%Z
    /\ (a = n -> k = n).
Proof.
  intros Hparse Hn Ha Hai.
  rewrite (combineSentimentAndSurvey_valid ai survey Hparse Hn). cbv zeta.
  cbn [csatScore]. rewrite Hai.
  destruct (blend_on_scale Hn Ha) as (Hscore & _). cbv zeta in Hscore.
  exists (Specified.blend n a). split; [exact Hscore|].
  unfold Specified.blend.
  destruct (scale_cases Hn) as [->|[->|[->|[->| ->]]]];
    destruct (scale_cases Ha) as [->|[->|[->|[->| ->]]]];
    vm_compute; repeat split; intros; congruence.
Qed.

End ScoreCoherence.

Section ConversationTextBounds.
Import JS SentimentAnalysisService.
Local Open Scope string_scope.

(** The first round of the loop takes the newest message whatever its
    length; the rest of the loop starts below it. *)
Lemma buildConversationText_newest (older : list ChatMessage.t)
    (newest : ChatMessage.t) :
  buildConversationText (older ++ [newest])
  = conversationTextLoop (older ++ [newest]) (List.length older)
      (transcriptText (skipn (List.length older) (older ++ [newest]))).
Proof.
  assert (Hlen : List.length (older ++ [newest]) = S (List.length older))
    by (rewrite length_app; cbn; lia).
  assert (Hnewest : nth_error (older ++ [newest]) (List.length older) = Some newest)
    by (rewrite nth_error_app2, Nat.sub_diag by lia; reflexivity).
  unfold buildConversationText. rewrite Hlen. cbn [conversationTextLoop].
  rewrite Hnewest, Hlen.
  replace (List.length older =? S (List.length older) - 1)%nat with true
    by (symmetry; apply Nat.eqb_eq; lia).
  cbn [orb]. rewrite (skipn_nth_error _ _ Hnewest).
  rewrite skipn_all2 by lia. reflexivity.
Qed.

Lemma transcriptText_skipn_length (chatTranscript : list ChatMessage.t) (j : nat) :
  String.length (transcriptText (skipn j chatTranscript))
  <= String.length (transcriptText chatTranscript).
Proof.
  rewrite <- (firstn_skipn j chatTranscript) at 2.
  rewrite transcriptText_app, length_append. lia.
Qed.

(** The text is over the budget of 5000 code units only when the line of
    the newest message alone is: otherwise it is within the budget.  An
    empty transcript gives the empty text. *)
Theorem buildConversationText_budget (older : list ChatMessage.t)
    (newest : ChatMessage.t) :
  (String.length (buildConversationText (older ++ [newest])) <= MAX_TEXT_LENGTH
   \/ (buildConversationText (older ++ [newest]) = messageText newest
       /\ MAX_TEXT_LENGTH < String.length (messageText newest)))
  /\ buildConversationText [] = "".
Proof.
  split; [|reflexivity].
  rewrite buildConversationText_newest.
  destruct (@conversationTextLoop_suffix (older ++ [newest]) (List.length older))
    as (k & Hk & Hres & Hfits & _); [rewrite length_app; cbn; lia|].
  rewrite Hres.
  destruct (Nat.eq_dec k (List.length older)) as [->|Hlt].
  - rewrite skipn_app, skipn_all, Nat.sub_diag. cbn.
    rewrite append_empty_r.
    destruct (Nat.le_gt_cases (String.length (messageText newest)) MAX_TEXT_LENGTH);
      [now left | right; now split].
  - left. apply Hfits. lia.
Qed.

(** A transcript whose lines fit the budget together is sent whole. *)
Theorem buildConversationText_whole (older : list ChatMessage.t)
    (newest : ChatMessage.t) :
  String.length (transcriptText (older ++ [newest])) <= MAX_TEXT_LENGTH ->
  buildConversationText (older ++ [newest]) = transcriptText (older ++ [newest]).
Proof.
  intros Hfit. rewrite buildConversationText_newest.
  destruct (@conversationTextLoop_suffix (older ++ [newest]) (List.length older))
    as (k & Hk & Hres & _ & Hstop); [rewrite length_app; cbn; lia|].
  rewrite Hres.
  destruct k as [|k]; [reflexivity|].
  destruct Hstop as [Hzero | (message & Hm & Hover)]; [discriminate|].
  exfalso. cbn [Nat.sub] in Hm. rewrite Nat.sub_0_r in Hm.
  pose proof (transcriptText_skipn_length (older ++ [newest]) k) as Hle.
  rewrite (skipn_nth_error _ _ Hm) in Hle.
  change (transcriptText (message :: skipn (S k) (older ++ [newest])))
    with (messageText message ++ transcriptText (skipn (S k) (older ++ [newest])))
    in Hle.
  rewrite length_append in Hle. lia.
Qed.

End ConversationTextBounds.

(* ================================================================== *)
(** * Properties of the confirmation pane buttons *)
(* ================================================================== *)

Section PaneButtons.
Import JS Guard ConfirmationPane.
Local Open Scope string_scope.

(** Once the user has confirmed, the buttons are dead: a click on Confirm or
    on Cancel does nothing at all, so an end of chat in progress can be
    neither repeated nor called off. *)
Theorem buttons_dead_after_confirm (app : option IAppStates) (ui : option IUiStates) :
  let state := {| appStates := app;
                  domainStates :=
                    Some {| confirmationState := ConfirmationState.Ok |};
                  uiStates := ui |} in
  onConfirm (Some state) = ([], Completed)
  /\ onCancel state = ([], Completed).
Proof. split; reflexivity. Qed.

(** The pane is hidden by one mechanism at a time.  Confirm never hides it.
    Cancel hides it exactly when the user has not confirmed, the automatic
    dismissal only when the user has: in no state do both dispatch
    SET_SHOW_CONFIRMATION false. *)
Theorem pane_hidden_by_one (state : ILiveChatWidgetContext) :
  ~ In dismissal (effectsOf (fst (onConfirm (Some state))))
  /\ (In dismissal (effectsOf (fst (onCancel state)))
      <-> isConfirmInProgress (Some state) = false)
  /\ (In dismissal (autoDismissEffect (Some state))
      -> isConfirmInProgress (Some state) = true)
  /\ ~ (In dismissal (effectsOf (fst (onCancel state)))
        /\ In dismissal (autoDismissEffect (Some state))).
Proof.
  assert (Hconfirm : ~ In dismissal (effectsOf (fst (onConfirm (Some state))))).
  { unfold onConfirm. destruct (isConfirmInProgress (Some state)); cbn;
      [tauto|]. unfold dismissal. intros [H|[]]. discriminate. }
  assert (Hcancel : In dismissal (effectsOf (fst (onCancel state)))
                    <-> isConfirmInProgress (Some state) = false).
  { unfold onCancel. destruct (isConfirmInProgress (Some state)); cbn.
    - split; [tauto | discriminate].
    - split; [reflexivity|]. intros _.
      destruct (appStates state); cbn; now left. }
  assert (Hauto : In dismissal (autoDismissEffect (Some state))
                  -> isConfirmInProgress (Some state) = true).
  { unfold autoDismissEffect, isConfirmInProgress.
    destruct (negb (truthy _)); [intros []|].
    destruct (strict_eq ConfirmationState.eqb _ _); [reflexivity | intros []]. }
  repeat split; try assumption; try apply Hcancel.
  intros [H1 H2]. apply Hcancel in H1. apply Hauto in H2. congruence.
Qed.

(** A Cancel before any confirmation hides the pane, records the
    cancellation, puts the focus back and releases the focus trap last: back
    on the element remembered when the pane opened, whose memory is then
    cleared, or on the send box when none is remembered. *)
Theorem onCancel_restores_focus (app : IAppStates)
    (confirmation : ConfirmationState.t) (ui : option IUiStates) :
  confirmation <> ConfirmationState.Ok ->
  let state := {| appStates := Some app;
                  domainStates := Some {| confirmationState := confirmation |};
                  uiStates := ui |} in
  exists focus,
    onCancel state
    = ((logActionEvent ConfirmationCancelButtonClicked
        :: send SET_SHOW_CONFIRMATION (PBool false)
        :: send SET_CONFIRMATION_STATE (PConfirmation ConfirmationState.Cancel)
        :: focus ++ [effect (setTabIndices true)])%list,
       Completed)
    /\ (forall id, previousElementIdOnFocusBeforeModalOpen app = Some id ->
                   id <> "" ->
                   focus = [ setFocusOnElement ("#" ++ id);
                             send SET_PREVIOUS_FOCUSED_ELEMENT_ID PNull ])
    /\ (previousElementIdOnFocusBeforeModalOpen app = None
        \/ previousElementIdOnFocusBeforeModalOpen app = Some "" ->
        focus = [ setFocusOnSendBox ]).
Proof.
  intros Hconfirmation state. unfold onCancel, isConfirmInProgress. cbn.
  replace (ConfirmationState.eqb confirmation ConfirmationState.Ok) with false
    by (destruct confirmation; [reflexivity | now destruct Hconfirmation | reflexivity]).
  eexists. split; [reflexivity|]. split.
  - intros id -> Hid. destruct id; [now destruct Hid | reflexivity].
  - intros [-> | ->]; reflexivity.
Qed.

End PaneButtons.

(* ================================================================== *)
(** * Properties of the attachment list *)
(* ================================================================== *)

Section AttachmentIds.
Import JS JSString ChatInputAttachments.
Local Open Scope string_scope.

Lemma decimal_inj (i j : nat) : decimal i = decimal j -> i = j.
Proof.
  unfold decimal. intros H.
  apply DecimalNat.Unsigned.to_uint_inj.
  pose proof (DecimalString.NilEmpty.usu (Nat.to_uint i)) as Hi.
  pose proof (DecimalString.NilEmpty.usu (Nat.to_uint j)) as Hj.
  rewrite H in Hi. rewrite Hi in Hj. now injection Hj.
Qed.

Lemma uint_no_dash (d : Decimal.uint) :
  ~ In "-"%char (list_ascii_of_string (DecimalString.NilEmpty.string_of_uint d)).
Proof.
  induction d; cbn; [intros [] | ..];
    (intros [H|H]; [discriminate | now apply IHd]).
Qed.

(** Two strings without dash that are followed by a dash in equal strings
    are equal. *)
Lemma before_dash (a b x y : string) :
  ~ In "-"%char (list_ascii_of_string a) ->
  ~ In "-"%char (list_ascii_of_string b) ->
  a ++ "-" ++ x = b ++ "-" ++ y -> a = b.
Proof.
  revert b. induction a as [|c a IH]; intros [|d b] Ha Hb H; cbn in *.
  - reflexivity.
  - injection H as <- _. exfalso. apply Hb. now left.
  - injection H as -> _. exfalso. apply Ha. now left.
  - injection H as -> H. f_equal. apply IH; [tauto | tauto | exact H].
Qed.

(** The ids of the attachments of a list are pairwise different: an id
    tells the index. *)
Lemma attachmentId_inj (i j : nat) (a b : Attachment.t) :
  attachmentId i a = attachmentId j b -> i = j.
Proof.
  unfold attachmentId. intros H.
  apply decimal_inj, (before_dash _ _ _ _ (uint_no_dash _) (uint_no_dash _) H).
Qed.

Lemma findIndexFrom_range (start : nat) (attachments : list Attachment.t)
    (id : string) (found : nat) :
  findIndexFrom start attachments id = Some found ->
  exists attachment,
    nth_error attachments (found - start) = Some attachment
    /\ start <= found
    /\ attachmentId found attachment = id.
Proof.
  revert start. induction attachments as [|a rest IH]; intros start; cbn;
    [discriminate|].
  destruct (attachmentId start a =? id) eqn:E.
  - intros H. injection H as <-. apply String.eqb_eq in E.
    exists a. rewrite Nat.sub_diag. now repeat split.
  - intros H. apply IH in H as (attachment & Hnth & Hle & Hid).
    exists attachment. replace (found - start) with (S (found - S start)) by lia.
    split; [exact Hnth | split; [lia | exact Hid]].
Qed.

Lemma findIndexFrom_finds (start : nat) (attachments : list Attachment.t)
    (i : nat) (attachment : Attachment.t) :
  nth_error attachments i = Some attachment ->
  findIndexFrom start attachments (attachmentId (start + i) attachment)
  = Some (start + i).
Proof.
  revert start i. induction attachments as [|a rest IH]; intros start [|i] H;
    cbn in *; try discriminate.
  - injection H as ->. now rewrite Nat.add_0_r, String.eqb_refl.
  - destruct (attachmentId start a =? attachmentId (start + S i) attachment) eqn:E.
    + apply String.eqb_eq, attachmentId_inj in E. lia.
    + replace (start + S i) with (S start + i) by lia. now apply IH.
Qed.

(** Dismissing by id removes the right attachment: the id of the attachment
    at index i makes [handleDismiss] call [onRemove] with i, and an id that
    no attachment has makes it call nothing.  So does a second attachment
    of the same name as the first: the index is part of the id. *)
Theorem handleDismiss_finds_index (attachments : list Attachment.t) :
  (forall i attachment,
      nth_error attachments i = Some attachment ->
      handleDismiss attachments (attachmentId i attachment) = Some i)
  /\ (forall id found,
        handleDismiss attachments id = Some found ->
        exists attachment,
          nth_error attachments found = Some attachment
          /\ attachmentId found attachment = id)
  /\ (forall id,
        (forall i attachment, nth_error attachments i = Some attachment ->
                              attachmentId i attachment <> id) ->
        handleDismiss attachments id = None).
Proof.
  unfold handleDismiss. split; [|split].
  - intros i attachment H. exact (findIndexFrom_finds 0 _ _ H).
  - intros id found H. apply findIndexFrom_range in H as (attachment & Hnth & _ & Hid).
    rewrite Nat.sub_0_r in Hnth. now exists attachment.
  - intros id Hnone. destruct (findIndexFrom 0 attachments id) as [found|] eqn:E;
      [|reflexivity].
    apply findIndexFrom_range in E as (attachment & Hnth & _ & Hid).
    rewrite Nat.sub_0_r in Hnth. now destruct (Hnone _ _ Hnth).
Qed.

End AttachmentIds.

(* ================================================================== *)
(** * Properties of the send box *)
(* ================================================================== *)

Section SendboxAttachments.
Import JS JSString ChatInputAttachments AIFluentSendbox.
Local Open Scope string_scope.

Lemma withoutIndexFrom_spec {A : Type} (start index : nat) (l : list A) :
  start <= index ->
  withoutIndexFrom start index l
  = (firstn (index - start) l ++ skipn (S (index - start)) l)%list.
Proof.
  revert start. induction l as [|x l IH]; intros start Hle; cbn.
  - now rewrite firstn_nil.
  - destruct (start =? index)%nat eqn:E.
    + apply Nat.eqb_eq in E. subst. rewrite Nat.sub_diag. cbn.
      clear IH.
      assert (Hrest : forall (l : list A) later, index < later ->
                 withoutIndexFrom later index l = l).
      { clear. induction l as [|y l IH]; intros later H; cbn; [reflexivity|].
        replace (later =? index)%nat with false
          by (symmetry; apply Nat.eqb_neq; lia).
        f_equal. apply IH. lia. }
      apply Hrest. lia.
    + apply Nat.eqb_neq in E.
      replace (index - start) with (S (index - S start)) by lia.
      cbn. f_equal. apply IH. lia.
Qed.

Lemma removeAttachmentAt_list (state : State) (index : nat) :
  wcAttachments (removeAttachmentAt state index)
  = Some (firstn index (current state) ++ skipn (S index) (current state))%list.
Proof.
  unfold removeAttachmentAt. cbn.
  rewrite withoutIndexFrom_spec by lia. now rewrite Nat.sub_0_r.
Qed.

(** Removing the attachment at an index removes that one and no other: the
    attachments before and after it stay, in order; an index past the end
    removes nothing.  The live region says "Attachment removed" either
    way. *)
Theorem removeAttachmentAt_removes (state : State) (index : nat) :
  wcAttachments (removeAttachmentAt state index)
  = Some (firstn index (current state) ++ skipn (S index) (current state))%list
  /\ (List.length (current state) <= index ->
      wcAttachments (removeAttachmentAt state index) = Some (current state))
  /\ (index < List.length (current state) ->
      List.length (current (removeAttachmentAt state index))
      = List.length (current state) - 1)
  /\ liveRegionMsg (removeAttachmentAt state index) = "Attachment removed".
Proof.
  assert (H : wcAttachments (removeAttachmentAt state index)
              = Some (firstn index (current state)
                      ++ skipn (S index) (current state))%list)
    by apply removeAttachmentAt_list.
  split; [exact H|]. split; [|split; [|reflexivity]].
  - intros Hout. rewrite H, firstn_all2, skipn_all2 by lia.
    now rewrite app_nil_r.
  - intros Hin. unfold current at 1. rewrite H.
    rewrite length_app, length_firstn, length_skipn. lia.
Qed.

(** Dismissing the attachment shown at index i, then removing what
    [handleDismiss] found, leaves the list without its i-th attachment. *)
Theorem dismiss_removes_that_attachment (state : State) (i : nat)
    (attachment : Attachment.t) :
  nth_error (current state) i = Some attachment ->
  exists index,
    handleDismiss (current state) (attachmentId i attachment) = Some index
    /\ wcAttachments (removeAttachmentAt state index)
       = Some (firstn i (current state) ++ skipn (S i) (current state))%list.
Proof.
  intros Hnth. exists i. split.
  - exact (findIndexFrom_finds 0 _ _ Hnth).
  - apply removeAttachmentAt_list.
Qed.

(** What [validateAndAddFiles] leaves pending, whatever the slots left. *)
Lemma validateAndAddFiles_current (accept : option string) (state : State)
    (files : list File.t) :
  current (validateAndAddFiles accept state files)
  = (current state
     ++ map attach
          (filter (accepts accept)
             (slice0 files (MAX_FILES - Z.of_nat (List.length (current state))))))%list.
Proof.
  unfold validateAndAddFiles.
  destruct files as [|f files]; cbn [List.length Nat.eqb].
  { unfold slice0. destruct (_ <? 0)%Z; rewrite firstn_nil; cbn;
      now rewrite app_nil_r. }
  cbv zeta.
  set (slice := slice0 (f :: files) _). clearbody slice.
  destruct (List.length (filter _ slice) =? 0)%nat;
    destruct (List.length (map attach (filter (accepts accept) slice)) =? 0)%nat
      eqn:Hnone;
    unfold current at 1; cbn [wcAttachments];
    try reflexivity;
    apply Nat.eqb_eq, length_zero_iff_nil in Hnone; rewrite Hnone, app_nil_r;
    reflexivity.
Qed.

(** With at most ten attachments pending, adding files appends exactly the
    files that pass the size and type checks among the first picked, as many
    of these as slots are left, in the order they were picked; the pending
    attachments stay first and in order, and the list never goes past ten.
    With ten pending nothing changes, live region included.  With more than
    ten pending the cap does not hold: every picked file is considered but
    as many of the last as the list is over ten. *)
Theorem validateAndAddFiles_capacity (accept : option string) (state : State)
    (files : list File.t) :
  let pending := List.length (current state) in
  let after := validateAndAddFiles accept state files in
  (pending <= 10 ->
   current after
   = (current state
      ++ map attach (filter (accepts accept) (firstn (10 - pending) files)))%list
   /\ List.length (current after) <= 10)
  /\ (pending = 10 -> after = state)
  /\ (10 < pending ->
      current after
      = (current state
         ++ map attach
              (filter (accepts accept)
                 (firstn (List.length files - (pending - 10)) files)))%list).
Proof.
  cbv zeta. split; [|split].
  - intros Hcap. rewrite validateAndAddFiles_current. unfold slice0, MAX_FILES.
    replace (10 - Z.of_nat (List.length (current state)) <? 0)%Z with false
      by (symmetry; apply Z.ltb_ge; lia).
    replace (Z.to_nat (10 - Z.of_nat (List.length (current state))))
      with (10 - List.length (current state)) by lia.
    split; [reflexivity|].
    rewrite length_app, length_map.
    pose proof (filter_length_le (accepts accept)
                  (firstn (10 - List.length (current state)) files)) as Hle.
    rewrite length_firstn in Hle. lia.
  - intros Hfull. unfold validateAndAddFiles.
    destruct (List.length files =? 0)%nat; [reflexivity|]. cbv zeta.
    unfold slice0, MAX_FILES. rewrite Hfull. cbn. reflexivity.
  - intros Hover. rewrite validateAndAddFiles_current. unfold slice0, MAX_FILES.
    replace (10 - Z.of_nat (List.length (current state)) <? 0)%Z with true
      by (symmetry; apply Z.ltb_lt; lia).
    replace (Z.to_nat
               (Z.max (Z.of_nat (List.length files)
                       + (10 - Z.of_nat (List.length (current state)))) 0))
      with (List.length files - (List.length (current state) - 10)) by lia.
    reflexivity.
Qed.

End SendboxAttachments.

Section SendboxSubmit.
Import JS JSString AIFluentSendbox.
Local Open Scope string_scope.

Lemma trim_empty_iff (v : string) : trim v = "" <-> allWhiteSpace v = true.
Proof.
  rewrite <- trim_length_zero_iff.
  destruct (trim v); cbn; split; (reflexivity || discriminate).
Qed.

Lemma enrich_contentType (a : Attachment.t) :
  exists contentType,
    Attachment.contentType (enrich a) = Some contentType /\ contentType <> "".
Proof.
  unfold enrich. cbn. eexists. split; [reflexivity|].
  unfold orString.
  destruct (Attachment.contentType a) as [[|c ct]|]; cbn;
    destruct (Attachment.blob a) as [b|]; cbn; try discriminate;
    destruct (Blob.type b); discriminate.
Qed.

(** Submitting sends a message exactly when the text has a code unit that is
    not white space or an attachment is pending; otherwise nothing is sent
    and the state is untouched.  The text sent is the trimmed text, so it
    neither starts nor ends with white space, and it is left out rather than
    sent empty.  Every pending attachment goes along, each with a content
    type that is not empty, and afterwards no attachment is pending. *)
Theorem onSubmitText_sends (state : State) (value : option string) :
  (fst (onSubmitText state value) = None <->
     (value = None \/ exists v, value = Some v /\ allWhiteSpace v = true)
     /\ current state = [])
  /\ (fst (onSubmitText state value) = None ->
      snd (onSubmitText state value) = state)
  /\ (forall message,
        fst (onSubmitText state value) = Some message ->
        snd (onSubmitText state value)
        = {| wcAttachments := Some []; liveRegionMsg := "Message sent" |}
        /\ attachments message = map enrich (current state)
        /\ (forall a, In a (attachments message) ->
              exists contentType,
                Attachment.contentType a = Some contentType /\ contentType <> "")
        /\ (forall t, text message = Some t ->
              exists v first rest,
                value = Some v /\ t = trim v
                /\ list_ascii_of_string t = first :: rest
                /\ isWhiteSpace first = false
                /\ isWhiteSpace (last (list_ascii_of_string t) first) = false)
        /\ (text message = None ->
            value = None \/ exists v, value = Some v /\ allWhiteSpace v = true)).
Proof.
  assert (Htext : truthy_string (chain value trim) = false <->
                  value = None \/ exists v, value = Some v /\ allWhiteSpace v = true).
  { destruct value as [v|]; cbn [chain truthy_string].
    - destruct (trim v) eqn:E.
      + split; [intros _; right; exists v; split; [reflexivity|] | reflexivity].
        now apply trim_empty_iff.
      + split; [discriminate | intros [H | (v' & H & H')]; [discriminate|]].
        injection H as <-. apply trim_empty_iff in H'. congruence.
    - split; [now left | reflexivity]. }
  assert (Hnone : current state = [] <->
                  (List.length (map enrich (current state)) =? 0)%nat = true).
  { rewrite Nat.eqb_eq, length_map. split; [now intros -> | apply length_zero_iff_nil]. }
  assert (Hattachments : forall a, In a (map enrich (current state)) ->
            exists contentType,
              Attachment.contentType a = Some contentType /\ contentType <> "").
  { intros a Ha. apply in_map_iff in Ha as (a0 & <- & _). apply enrich_contentType. }
  assert (Htrimmed : forall t, truthy_string (chain value trim) = true ->
            chain value trim = Some t ->
            exists v first rest,
              value = Some v /\ t = trim v
              /\ list_ascii_of_string t = first :: rest
              /\ isWhiteSpace first = false
              /\ isWhiteSpace (last (list_ascii_of_string t) first) = false).
  { intros t Htruthy Ht. destruct value as [v|]; [|discriminate].
    cbn [chain] in Ht, Htruthy. injection Ht as <-.
    pose proof (trim_ends v) as Hends.
    destruct (list_ascii_of_string (trim v)) as [|first rest] eqn:El.
    - destruct (trim v); discriminate.
    - exists v, first, rest. destruct Hends. now repeat split. }
  unfold onSubmitText. cbv zeta.
  destruct (truthy_string (chain value trim)) eqn:Et;
    destruct (List.length (map enrich (current state)) =? 0)%nat eqn:Ea;
    cbn [negb andb fst snd].
  - (* text and no attachment *)
    split; [|split].
    + split; [discriminate | intros [H _]; apply Htext in H; discriminate].
    + discriminate.
    + intros message H. injection H as <-. cbn [text attachments].
      split; [reflexivity|]. split; [reflexivity|]. split; [exact Hattachments|].
      split; [intros t Ht; now apply Htrimmed | intros H].
      destruct value; discriminate.
  - (* text and attachments *)
    split; [|split].
    + split; [discriminate | intros [H _]; apply Htext in H; discriminate].
    + discriminate.
    + intros message H. injection H as <-. cbn [text attachments].
      split; [reflexivity|]. split; [reflexivity|]. split; [exact Hattachments|].
      split; [intros t Ht; now apply Htrimmed | intros H].
      destruct value; discriminate.
  - (* no text and no attachment: nothing is sent *)
    split; [|split].
    + split; [intros _ | reflexivity].
      split; [now apply Htext | now apply Hnone].
    + reflexivity.
    + discriminate.
  - (* attachments alone *)
    split; [|split].
    + split; [discriminate | intros [_ H]; apply Hnone in H; discriminate].
    + discriminate.
    + intros message H. injection H as <-. cbn [text attachments].
      split; [reflexivity|]. split; [reflexivity|]. split; [exact Hattachments|].
      split; [discriminate | intros _; now apply Htext].
Qed.

End SendboxSubmit.

Section SendboxVisibility.
Import JS Guard AIFluentSendbox.

(** While the send box is shown the conversation is Active and the window
    is open; then an end of chat is never blocked, the confirmation pane is
    never dismissed on its own, and a start of chat is blocked exactly when
    an end marker is set. *)
Theorem sendbox_shown_guards (app : IAppStates)
    (confirmation : ConfirmationState.t) (show isPersistent : bool) :
  shouldShowSendbox app = true ->
  conversationState app = ConversationState.Active
  /\ isMinimized app = false
  /\ shouldPreventEndChat (context app confirmation show) = false
  /\ autoDismissEffect (context app confirmation show) = []
  /\ (shouldPreventStartChat (context app confirmation show) isPersistent = true
      <-> conversationEndedBy app <> ConversationEndEntity.NotSet).
Proof.
  unfold shouldShowSendbox.
  destruct app as [conv endedBy failed minimized focused]. cbn.
  destruct minimized; [discriminate|].
  destruct conv; try discriminate. intros _.
  split; [reflexivity|]. split; [reflexivity|]. split; [reflexivity|]. split.
  - destruct show, confirmation; reflexivity.
  - destruct endedBy, isPersistent; cbn; split; intros H;
      try reflexivity; try discriminate; now destruct H.
Qed.

End SendboxVisibility.

Section SendboxAccept.
Import JS JSString AIFluentSendbox.
Local Open Scope string_scope.

Lemma drop_all (s : string) : drop (String.length s) s = "".
Proof. induction s as [|c s IH]; [reflexivity | exact IH]. Qed.

Lemma endsWith_empty (s : string) : endsWith s "" = true.
Proof.
  unfold endsWith. cbn [String.length]. rewrite Nat.sub_0_r, drop_all.
  reflexivity.
Qed.

Lemma list_ascii_of_string_append (a b : string) :
  list_ascii_of_string (a ++ b)
  = (list_ascii_of_string a ++ list_ascii_of_string b)%list.
Proof. induction a as [|c a IH]; cbn; [reflexivity | now rewrite IH]. Qed.

(** A string that includes another holds every code unit of it. *)
Lemma includes_units (s sub : string) (c : ascii) :
  includes s sub = true ->
  In c (list_ascii_of_string sub) -> In c (list_ascii_of_string s).
Proof.
  intros H Hc. apply includes_iff in H as (pre & post & ->).
  rewrite !list_ascii_of_string_append. apply in_or_app. right.
  apply in_or_app. now left.
Qed.

(** The type check of a picked file.  Without accepted types (no [accept],
    an empty one, or one of commas and blanks only) every file passes, and
    so it does when the star alone is accepted.  A pattern with a star is
    not matched against the type of the file: when it is the only pattern
    and the type has no star in it, the file passes exactly when its name
    ends with the pattern without its first star. *)
Theorem typeOk_patterns (accept : option string) (f : File.t) :
  (acceptTypes accept = [] -> typeOk accept f = true)
  /\ acceptTypes None = [] /\ acceptTypes (Some "") = []
  /\ acceptTypes (Some " , ") = []
  /\ (In "*" (acceptTypes accept) -> typeOk accept f = true)
  /\ (forall pattern,
        acceptTypes accept = [pattern] ->
        In "*"%char (list_ascii_of_string pattern) ->
        ~ In "*"%char (list_ascii_of_string (File.type f)) ->
        typeOk accept f = endsWith (File.name f) (replace pattern "*" "")).
Proof.
  split; [|split; [|split; [|split; [|split]]]]; try reflexivity.
  - intros H. unfold typeOk. now rewrite H.
  - intros H. unfold typeOk. apply orb_true_iff. right.
    apply existsb_exists. exists "*". split; [exact H|].
    apply orb_true_iff. right. apply endsWith_empty.
  - intros pattern Hone Hstar Htype. unfold typeOk. rewrite Hone. cbn.
    rewrite orb_false_r.
    destruct (includes (File.type f) pattern) eqn:Hinc; [|reflexivity].
    destruct Htype. exact (includes_units _ _ _ Hinc Hstar).
Qed.

End SendboxAccept.

Section FileIcons.
Import JS JSString ChatInputAttachments.
Local Open Scope string_scope.

Lemma split_nonempty (sep : ascii) (s : string) : split sep s <> [].
Proof.
  destruct s as [|c s]; cbn; [discriminate|].
  destruct (Ascii.eqb c sep); [discriminate|].
  destruct (split sep s); discriminate.
Qed.

Lemma split_without_separator (sep : ascii) (s : string) :
  ~ In sep (list_ascii_of_string s) -> split sep s = [s].
Proof.
  induction s as [|c s IH]; cbn; [reflexivity|]. intros H.
  destruct (Ascii.eqb c sep) eqn:E.
  - apply Ascii.eqb_eq in E. destruct H. now left.
  - rewrite IH by tauto. reflexivity.
Qed.

Lemma pop_cons (piece : string) (pieces : list string) :
  pieces <> [] -> pop (piece :: pieces) = pop pieces.
Proof. unfold pop. destruct pieces; [intros H; now destruct H | reflexivity]. Qed.

Lemma split_two_pieces (sep : ascii) (pre post : string) :
  exists piece other pieces,
    split sep (pre ++ String sep post) = piece :: other :: pieces.
Proof.
  induction pre as [|c pre IH]; cbn.
  - rewrite Ascii.eqb_refl.
    destruct (split sep post) as [|other pieces] eqn:E;
      [now destruct (split_nonempty sep post) | now eexists _, _, _].
  - destruct IH as (piece & other & pieces & ->).
    destruct (Ascii.eqb c sep); now eexists _, _, _.
Qed.

(** The last piece of a string is what follows its last separator. *)
Lemma pop_split_after (sep : ascii) (pre post : string) :
  pop (split sep (pre ++ String sep post)) = pop (split sep post).
Proof.
  induction pre as [|c pre IH]; cbn.
  - rewrite Ascii.eqb_refl. apply pop_cons, split_nonempty.
  - destruct (split_two_pieces sep pre post) as (piece & other & pieces & E).
    rewrite E in *. destruct (Ascii.eqb c sep); rewrite <- IH; reflexivity.
Qed.

Lemma toLowerCase_append (a b : string) :
  toLowerCase (a ++ b) = toLowerCase a ++ toLowerCase b.
Proof. induction a as [|c a IH]; cbn; [reflexivity | now rewrite IH]. Qed.

Lemma toLowerCaseUnit_dot (c : ascii) :
  toLowerCaseUnit c = "."%char -> c = "."%char.
Proof.
  destruct c as [[] [] [] [] [] [] [] []]; vm_compute; intros H;
    first [reflexivity | discriminate H].
Qed.

Lemma toLowerCase_without_dot (s : string) :
  ~ In "."%char (list_ascii_of_string s) ->
  ~ In "."%char (list_ascii_of_string (toLowerCase s)).
Proof.
  induction s as [|c s IH]; cbn; [tauto|].
  intros H [E|E]; [apply toLowerCaseUnit_dot in E; tauto | apply IH; tauto].
Qed.

Lemma toLowerCaseUnit_idempotent (c : ascii) :
  toLowerCaseUnit (toLowerCaseUnit c) = toLowerCaseUnit c.
Proof. destruct c as [[] [] [] [] [] [] [] []]; reflexivity. Qed.

Lemma toLowerCase_idempotent (s : string) :
  toLowerCase (toLowerCase s) = toLowerCase s.
Proof.
  induction s as [|c s IH]; cbn; [reflexivity|].
  now rewrite IH, toLowerCaseUnit_idempotent.
Qed.

(** The icon of a file depends on its name only through the text after the
    last dot, whatever the case of its letters: a name that ends with a dot
    and an extension has the icon of the extension in lower case. *)
Theorem getFileIcon_by_extension (base ext : string) :
  ~ In "."%char (list_ascii_of_string ext) ->
  getFileIcon (base ++ "." ++ ext) = getFileIcon (toLowerCase ext)
  /\ getFileIcon ext = getFileIcon (toLowerCase ext).
Proof.
  intros Hext.
  assert (Hlower : pop (split "."%char (toLowerCase ext))
                   = Some (toLowerCase ext))
    by (rewrite split_without_separator
          by (now apply toLowerCase_without_dot);
        reflexivity).
  unfold getFileIcon. cbv zeta.
  rewrite toLowerCase_idempotent, toLowerCase_append.
  change (toLowerCase ("." ++ ext)) with (String "."%char (toLowerCase ext)).
  rewrite pop_split_after, Hlower. split; reflexivity.
Qed.

End FileIcons.

(* ================================================================== *)
(** * Properties of the REST variant of the scoring service *)
(* ================================================================== *)

Section VariantSender.
Import JS JSString SentimentAnalysisService.
Local Open Scope string_scope.

(** The two classifiers agree on the customer: a message that
    [determineSender] of the SDK service gives to the customer is the
    customer's for the REST variant too. *)
Theorem determineSender_variants_agree_on_customer (message : SDKMessage.t) :
  determineSender message = customer ->
  SentimentAnalyticsService.determineSender message = customer.
Proof.
  unfold determineSender, SentimentAnalyticsService.determineSender.
  destruct (includes_opt (SDKMessage.tags message) "FromCustomer"); cbn [orb];
    [reflexivity|].
  destruct (strict_eq String.eqb _ "Customer").
  - intros _. now destruct (includes_opt _ "ChannelId-lcw").
  - destruct (includes_opt _ "public"); discriminate.
Qed.

(** The REST variant classifies in this order.  A customer tag
    ("FromCustomer" or "ChannelId-lcw") or the application name "Customer"
    makes the customer, whatever else the message says.  Failing that, a
    user display name decides, whatever its case: one with "bot" or
    "virtual" in it makes the bot, and otherwise one with "agent" in it the
    agent.  Failing that, the message type or the sender field decide, and
    the bot is the default. *)
Theorem determineSender_variant_priorities (message : SDKMessage.t) :
  let tags := SDKMessage.tags message in
  let applicationName :=
    chain_opt (chain_opt (SDKMessage.from message) SDKMessage.application)
      SDKMessage.displayName in
  let userName :=
    chain_opt (chain_opt (SDKMessage.from message) SDKMessage.user)
      SDKMessage.displayName in
  let marked :=
    includes_opt tags "FromCustomer" || includes_opt tags "ChannelId-lcw"
    || strict_eq String.eqb applicationName "Customer" in
  let lower := toLowerCase (or_else userName "") in
  let botName :=
    truthy_string userName && (includes lower "bot" || includes lower "virtual") in
  let agentName := truthy_string userName && includes lower "agent" in
  (marked = true -> SentimentAnalyticsService.determineSender message = customer)
  /\ (marked = false -> botName = true -> SentimentAnalyticsService.determineSender message = bot)
  /\ (marked = false -> botName = false -> agentName = true ->
      SentimentAnalyticsService.determineSender message = agent)
  /\ (marked = false -> botName = false -> agentName = false ->
      SentimentAnalyticsService.determineSender message
      = if strict_eq String.eqb (SDKMessage.messageType message) "customer"
           || strict_eq String.eqb (SDKMessage.sender message) "customer"
        then customer
        else if strict_eq String.eqb (SDKMessage.messageType message) "agent"
                || strict_eq String.eqb (SDKMessage.sender message) "agent"
        then agent
        else bot).
Proof.
  cbv zeta. unfold SentimentAnalyticsService.determineSender.
  set (tags := SDKMessage.tags message).
  set (applicationName :=
         chain_opt (chain_opt (SDKMessage.from message) SDKMessage.application)
           SDKMessage.displayName).
  set (userName :=
         chain_opt (chain_opt (SDKMessage.from message) SDKMessage.user)
           SDKMessage.displayName).
  set (lower := toLowerCase (or_else userName "")).
  (* "power virtual agents" holds "virtual", and "__agent__" holds "agent" *)
  assert (Hpva : includes lower "power virtual agents" = true ->
                 includes lower "virtual" = true).
  { intros H. apply includes_iff in H as (pre & post & E).
    apply includes_iff. exists (pre ++ "power "), (" agents" ++ post).
    rewrite E, !append_assoc. reflexivity. }
  assert (Hagent : strict_eq String.eqb userName "__agent__" = true ->
                   includes lower "agent" = true).
  { intros H. apply strict_eq_string in H. subst lower. now rewrite H. }
  destruct (includes_opt tags "FromCustomer"),
           (includes_opt tags "ChannelId-lcw"),
           (strict_eq String.eqb applicationName "Customer");
    cbn [orb]; repeat split; intros; try discriminate; try reflexivity.
  - (* bot by name *)
    apply andb_true_iff in H0 as [Hu Hb]. rewrite Hu. cbn [andb].
    apply orb_true_iff in Hb as [Hb | Hb]; rewrite Hb; cbn;
      [reflexivity | now rewrite orb_true_r].
  - (* agent by name *)
    apply andb_true_iff in H1 as [Hu Ha]. rewrite Hu in *. cbn [andb] in *.
    destruct (includes lower "power virtual agents") eqn:Hp;
      [rewrite (Hpva eq_refl), orb_true_r in H0; discriminate|].
    rewrite orb_false_r. rewrite H0, Ha. reflexivity.
  - (* neither *)
    destruct (truthy_string userName); cbn [andb] in *; [|reflexivity].
    destruct (includes lower "power virtual agents") eqn:Hp;
      [rewrite (Hpva eq_refl), orb_true_r in H0; discriminate|].
    rewrite orb_false_r, H0.
    destruct (strict_eq String.eqb userName "__agent__") eqn:Hs;
      [rewrite (Hagent eq_refl) in H1; discriminate|].
    rewrite H1. reflexivity.
Qed.

End VariantSender.

Section VariantTranscript.
Import JS JSString SentimentAnalysisService.
Local Open Scope string_scope.

(** The REST variant filters more: it keeps a message only if the SDK
    service keeps it and its tags hold neither "system" nor
    "agentassignmentready".  So its transcript is never the longer one. *)
Theorem keepMessage_variant_stricter (now : string) (messages : list SDKMessage.t) :
  (forall message,
      SentimentAnalyticsService.keepMessage message = true <->
      keepMessage message = true
      /\ includes_opt (SDKMessage.tags message) "system" = false
      /\ includes_opt (SDKMessage.tags message) "agentassignmentready" = false)
  /\ List.length (SentimentAnalyticsService.filteredMessages now messages)
     <= List.length (filteredMessages now messages).
Proof.
  assert (Hkeep : forall message,
      SentimentAnalyticsService.keepMessage message = true <->
      keepMessage message = true
      /\ includes_opt (SDKMessage.tags message) "system" = false
      /\ includes_opt (SDKMessage.tags message) "agentassignmentready" = false).
  { intros message. unfold SentimentAnalyticsService.keepMessage, keepMessage.
    destruct (truthy (SDKMessage.isControlMessage message));
      [split; [discriminate | intros [H _]; discriminate]|].
    destruct (_ || _)%bool;
      [split; [discriminate | intros [H _]; discriminate]|].
    destruct (includes_opt (SDKMessage.tags message) "system"),
             (includes_opt (SDKMessage.tags message) "agentassignmentready");
      cbn; split; intros H; try discriminate; try tauto;
      destruct H as (_ & H1 & H2); discriminate. }
  split; [exact Hkeep|].
  unfold SentimentAnalyticsService.filteredMessages, filteredMessages.
  rewrite !length_map.
  induction messages as [|message rest IH]; cbn; [lia|].
  destruct (SentimentAnalyticsService.keepMessage message) eqn:E.
  - apply Hkeep in E as [-> _]. cbn. lia.
  - destruct (keepMessage message); cbn; lia.
Qed.

End VariantTranscript.

Section VariantTruncation.
Import JS JSString.
Local Open Scope string_scope.

Lemma length_drop (n : nat) (s : string) :
  String.length (drop n s) = String.length s - n.
Proof.
  revert s. induction n as [|n IH]; intros [|c s]; cbn; try reflexivity.
  apply IH.
Qed.

Lemma drop_suffix (n : nat) (s : string) :
  n <= String.length s ->
  exists pre, s = pre ++ drop n s /\ String.length pre = n.
Proof.
  revert s. induction n as [|n IH]; intros s Hn.
  - exists "". split; [now destruct s | reflexivity].
  - destruct s as [|c s]; [cbn in Hn; lia|].
    destruct (IH s) as (pre & E & Hlen); [cbn in Hn; lia|].
    exists (String c pre). cbn. split; [now rewrite <- E | now rewrite Hlen].
Qed.

Lemma positionOf_split (c : ascii) (s : string) (i : nat) :
  positionOf c s = Some i ->
  exists pre post,
    s = pre ++ String c post
    /\ String.length pre = i
    /\ drop (S i) s = post.
Proof.
  revert i. induction s as [|d s IH]; intros i; cbn; [discriminate|].
  destruct (Ascii.eqb d c) eqn:E.
  - intros H. injection H as <-. apply Ascii.eqb_eq in E. subst d.
    exists "", s. now repeat split.
  - destruct (positionOf c s) as [j|]; [|discriminate].
    intros H. injection H as <-.
    destruct (IH j eq_refl) as (pre & post & -> & Hlen & Hdrop).
    exists (String d pre), post.
    split; [reflexivity|]. split; [cbn; now rewrite Hlen | exact Hdrop].
Qed.

Lemma truncate_within (text : string) :
  String.length text <= 5000 -> SentimentAnalyticsService.truncate text = text.
Proof.
  intros H. unfold SentimentAnalyticsService.truncate,
    SentimentAnalyticsService.MAX_TEXT_LENGTH.
  now replace (5000 <? String.length text)%nat with false
    by (symmetry; apply Nat.ltb_ge; exact H).
Qed.

Lemma truncate_over (text : string) :
  5000 < String.length text ->
  SentimentAnalyticsService.truncate text
  = match positionOf (ascii_of_nat 10)
            ("..." ++ drop (String.length text - 4997) text) with
    | Some i =>
        if (0 <? i)%nat && (i <? 100)%nat
        then drop (S i) ("..." ++ drop (String.length text - 4997) text)
        else "..." ++ drop (String.length text - 4997) text
    | None => "..." ++ drop (String.length text - 4997) text
    end.
Proof.
  intros H. unfold SentimentAnalyticsService.truncate,
    SentimentAnalyticsService.MAX_TEXT_LENGTH.
  replace (5000 <? String.length text)%nat with true
    by (symmetry; apply Nat.ltb_lt; exact H).
  cbv zeta. unfold substringFrom, indexOf.
  replace (Z.to_nat (Z.of_nat (String.length text) - Z.of_nat 5000 + 3))
    with (String.length text - 4997) by lia.
  destruct (positionOf (ascii_of_nat 10)
              ("..." ++ drop (String.length text - 4997) text)) as [i|];
    [|reflexivity].
  replace (Z.to_nat (Z.of_nat i + 1)) with (S i) by lia.
  replace (0 <? Z.of_nat i)%Z with (0 <? i)%nat
    by (destruct i; [reflexivity | symmetry; apply Z.ltb_lt; lia]).
  replace (Z.of_nat i <? 100)%Z with (i <? 100)%nat; [reflexivity|].
  destruct (i <? 100)%nat eqn:E; symmetry.
  - apply Nat.ltb_lt in E. apply Z.ltb_lt. lia.
  - apply Nat.ltb_ge in E. apply Z.ltb_ge. lia.
Qed.

Lemma positionOf_first (c : ascii) (pre post : string) :
  ~ In c (list_ascii_of_string pre) ->
  positionOf c (pre ++ String c post) = Some (String.length pre).
Proof.
  induction pre as [|d pre IH]; cbn; intros Hpre.
  - now rewrite Ascii.eqb_refl.
  - destruct (Ascii.eqb d c) eqn:E.
    + apply Ascii.eqb_eq in E. destruct Hpre. now left.
    + rewrite IH by tauto. reflexivity.
Qed.

Lemma drop_after (pre post : string) (c : ascii) :
  drop (S (String.length pre)) (pre ++ String c post) = post.
Proof. induction pre as [|d pre IH]; [reflexivity | exact IH]. Qed.

(** The text the REST variant sends is never over the budget of 5000 code
    units.  A text within the budget is sent as it is.  Of a longer one the
    last 4997 code units count.  When their first line break comes after
    fewer than 97 code units, the text sent is what follows that line break:
    a proper end of the conversation, of at least 4900 code units.  When no
    line break comes that early, the text sent is three dots and the 4997
    code units. *)
Theorem truncate_budget (text : string) :
  String.length (SentimentAnalyticsService.truncate text)
  <= SentimentAnalyticsService.MAX_TEXT_LENGTH
  /\ (String.length text <= SentimentAnalyticsService.MAX_TEXT_LENGTH ->
      SentimentAnalyticsService.truncate text = text)
  /\ (SentimentAnalyticsService.MAX_TEXT_LENGTH < String.length text ->
      let tail := drop (String.length text - 4997) text in
      (exists cut, text = cut ++ tail)
      /\ String.length tail = 4997
      /\ (forall skipped rest,
            tail = skipped ++ newline ++ rest ->
            ~ In (ascii_of_nat 10) (list_ascii_of_string skipped) ->
            String.length skipped < 97 ->
            SentimentAnalyticsService.truncate text = rest
            /\ 4900 <= String.length rest)
      /\ ((forall skipped rest,
             tail = skipped ++ newline ++ rest -> 97 <= String.length skipped) ->
          SentimentAnalyticsService.truncate text = "..." ++ tail)).
Proof.
  unfold SentimentAnalyticsService.MAX_TEXT_LENGTH.
  destruct (Nat.le_gt_cases (String.length text) 5000) as [Hwithin | Hover].
  { rewrite (truncate_within _ Hwithin).
    split; [exact Hwithin|]. split; [reflexivity | lia]. }
  rewrite (truncate_over _ Hover). cbv zeta.
  set (tail := drop (String.length text - 4997) text).
  assert (Htail : String.length tail = 4997)
    by (subst tail; rewrite length_drop; lia).
  destruct (@drop_suffix (String.length text - 4997) text) as (cut & Hcut & _);
    [lia|]. fold tail in Hcut.
  assert (Hdots : String.length ("..." ++ tail) = 5000)
    by (rewrite length_append, Htail; reflexivity).
  clearbody tail.
  (* the early line break *)
  assert (Hearly : forall skipped rest,
            tail = skipped ++ newline ++ rest ->
            ~ In (ascii_of_nat 10) (list_ascii_of_string skipped) ->
            String.length skipped < 97 ->
            positionOf (ascii_of_nat 10) ("..." ++ tail)
            = Some (3 + String.length skipped)
            /\ drop (S (3 + String.length skipped)) ("..." ++ tail) = rest
            /\ 4900 <= String.length rest).
  { intros skipped rest -> Hskipped Hshort.
    change ("..." ++ skipped ++ newline ++ rest)
      with (("..." ++ skipped) ++ String (ascii_of_nat 10) rest).
    split; [|split].
    - rewrite positionOf_first; [reflexivity|].
      cbn. intros [H|[H|[H|H]]]; try discriminate H. now apply Hskipped.
    - exact (drop_after ("..." ++ skipped) rest (ascii_of_nat 10)).
    - rewrite !length_append in Htail. cbn [String.length newline] in Htail. lia. }
  (* a line break found at an index from 1 to 99 is an early line break *)
  assert (Hfound : forall i,
            positionOf (ascii_of_nat 10) ("..." ++ tail) = Some i ->
            (0 <? i)%nat && (i <? 100)%nat = true ->
            exists skipped rest,
              tail = skipped ++ newline ++ rest /\ String.length skipped < 97).
  { intros i Hpos Hrange.
    apply andb_true_iff in Hrange as [Hpositive Hbelow].
    apply Nat.ltb_lt in Hpositive, Hbelow.
    destruct (positionOf_split _ _ Hpos) as (pre & post & Hsplit & Hlen & _).
    assert (Hpre : exists skipped, pre = "..." ++ skipped).
    { clear - Hsplit.
      change ("..." ++ tail) with (String "." (String "." (String "." tail)))
        in Hsplit.
      destruct pre as [|p1 [|p2 [|p3 skipped]]]; cbn [append] in Hsplit;
        injection Hsplit; intros; try discriminate.
      subst. now exists skipped. }
    destruct Hpre as (skipped & ->).
    change ("..." ++ tail) with (String "." (String "." (String "." tail)))
      in Hsplit.
    change (("..." ++ skipped) ++ String (ascii_of_nat 10) post)
      with (String "." (String "." (String "." (skipped ++ newline ++ post))))
      in Hsplit.
    injection Hsplit as Hsplit.
    exists skipped, post. split; [exact Hsplit|].
    rewrite length_append in Hlen. cbn [String.length] in Hlen. lia. }
  split; [|split; [lia|]].
  - destruct (positionOf (ascii_of_nat 10) ("..." ++ tail)) as [i|] eqn:Hpos;
      [|lia].
    destruct ((0 <? i)%nat && (i <? 100)%nat) eqn:Hrange; [|lia].
    rewrite length_drop. lia.
  - intros _. split; [now exists cut|]. split; [exact Htail|]. split.
    + intros skipped rest Hsplit Hskipped Hshort.
      destruct (Hearly _ _ Hsplit Hskipped Hshort) as (Hpos & Hdrop & Hlong).
      rewrite Hpos.
      replace ((0 <? 3 + String.length skipped)%nat
               && (3 + String.length skipped <? 100)%nat) with true.
      * split; [exact Hdrop | exact Hlong].
      * symmetry. apply andb_true_iff.
        split; apply Nat.ltb_lt; lia.
    + intros Hlate.
      destruct (positionOf (ascii_of_nat 10) ("..." ++ tail)) as [i|] eqn:Hpos;
        [|reflexivity].
      destruct ((0 <? i)%nat && (i <? 100)%nat) eqn:Hrange; [|reflexivity].
      destruct (Hfound i eq_refl Hrange) as (skipped & rest & Hsplit & Hshort).
      specialize (Hlate _ _ Hsplit). lia.
Qed.

End VariantTruncation.

Section VariantParser.
Import JS JSString SentimentAnalysisService.
Import SentimentAnalyticsService.
Local Open Scope string_scope.
#[local] Set Warnings "-inexact-float".

Lemma mapSentimentToSatisfaction_same (label : string) (score : float) :
  SentimentAnalyticsService.mapSentimentToSatisfaction label score
  = SentimentAnalysisService.mapSentimentToSatisfaction label score.
Proof. reflexivity. Qed.

Lemma parsers_compared (response : AzureTextAnalyticsResponse) :
  (reportsError response = true ->
   parseAzureTextAnalyticsResponse response = Returned None)
  /\ (reportsError response = false ->
      forall result,
        parseAzureTextAnalyticsResponse response = Returned result ->
        result = parseAzureSDKResponse (firstDocument response)).
Proof.
  unfold reportsError, firstDocument, parseAzureTextAnalyticsResponse,
    parseAzureSDKResponse.
  destruct response as [k [[docs errs]|]]; cbn [results documents errors chain_opt].
  2:{ split; intros; try discriminate. cbn in H0. now injection H0 as <-. }
  destruct errs as [[|e errs]|]; cbn [chain_opt].
  all: split; try discriminate; try reflexivity.
  all: intros; try discriminate.
  all: destruct docs as [[|d docs]|]; cbn [chain_opt nth_error] in *.
  all: try (injection H0 as <-; reflexivity).
  all: destruct d as [[[|c label]|] [scores|]];
    cbn [truthy_string negb SentimentAnalysisSuccessResult.sentiment
         SentimentAnalysisSuccessResult.confidenceScores or_else] in *;
    try discriminate;
    try (injection H0 as <-; reflexivity).
Qed.

(** The two parsers score alike.  When the response reports no error, the
    REST parser returns what the SDK parser returns for the first document,
    except that a document with a label and without scores makes it throw
    where the SDK parser returns null.  A reported error gives null even
    when a document is there. *)
Theorem parsers_agree (response : AzureTextAnalyticsResponse) :
  (reportsError response = true ->
   parseAzureTextAnalyticsResponse response = Returned None)
  /\ (reportsError response = false ->
      forall result,
        parseAzureTextAnalyticsResponse response = Returned result ->
        result = parseAzureSDKResponse (firstDocument response))
  /\ (reportsError response = false ->
      parseAzureTextAnalyticsResponse response = Thrown <->
      exists document,
        firstDocument response = Some document
        /\ truthy_string (SentimentAnalysisSuccessResult.sentiment document) = true
        /\ SentimentAnalysisSuccessResult.confidenceScores document = None).
Proof.
  unfold reportsError, firstDocument, parseAzureTextAnalyticsResponse,
    parseAzureSDKResponse.
  destruct response as [k [[docs errs]|]]; cbn [results documents errors chain_opt].
  2:{ repeat split; intros; try discriminate.
      - cbn in H0. now injection H0 as <-.
      - destruct H0 as (d & Hd & _). discriminate. }
  destruct errs as [[|e errs]|]; cbn [chain_opt].
  all: repeat split; try discriminate; try reflexivity.
  all: intros; try discriminate.
  all: destruct docs as [[|d docs]|]; cbn [chain_opt nth_error] in *.
  all: try (injection H0 as <-; reflexivity).
  all: try (destruct H0 as (d0 & Hd & _); discriminate).
  all: try discriminate.
  all: destruct d as [[[|c label]|] [scores|]];
    cbn [truthy_string negb SentimentAnalysisSuccessResult.sentiment
         SentimentAnalysisSuccessResult.confidenceScores or_else] in *;
    try discriminate;
    try (injection H0 as <-; reflexivity);
    try (eexists; repeat split; reflexivity);
    try (destruct H0 as (d0 & Hd & Hs & Hc); injection Hd as <-;
         cbn in Hs, Hc; discriminate).
Qed.

End VariantParser.

Section VariantPipeline.
Import JS JSString SentimentAnalysisService.
Import SentimentAnalyticsService.
Local Open Scope string_scope.

Variable maxDelay : Z.
Variable fetch : Fetch.
Variables (now : string) (messages : list SDKMessage.t).
Variable config : option AzureTextAnalyticsConfig.

Lemma variant_checks_bool (cfg : AzureTextAnalyticsConfig) :
  negb (truthy (read (enabled cfg)))
  || negb (truthy_string (read (endpoint cfg)))
  || negb (truthy_string (read (apiKey cfg))) = false
  <-> read (enabled cfg) = Some true
      /\ truthy_string (read (endpoint cfg)) = true
      /\ truthy_string (read (apiKey cfg)) = true.
Proof.
  destruct (read (enabled cfg)) as [[|]|]; cbn;
    destruct (truthy_string (read (endpoint cfg)));
    destruct (truthy_string (read (apiKey cfg))); cbn;
    split; try tauto; try discriminate;
    intros (H1 & H2 & H3); discriminate.
Qed.

(** When the call throws, for an endpoint that is set: the delay of the
    abort signal is refused, and then [fetch] is not called; or [fetch]
    rejects; or the response is not ok and its text cannot be read; or it
    is ok and its body cannot be read or makes the parser throw. *)
Lemma callAzureTextAnalytics_throws (transcript : list ChatMessage.t)
    (cfg : AzureTextAnalyticsConfig) (url : string) :
  read (endpoint cfg) = Some url -> url <> "" ->
  let request :=
    requestOf cfg url (conversationText transcript) (signalDelay cfg) in
  callAzureTextAnalytics maxDelay fetch transcript cfg = Thrown
  <-> (signalDelay cfg < 0)%Z \/ (maxDelay < signalDelay cfg)%Z
      \/ ((0 <= signalDelay cfg <= maxDelay)%Z
          /\ (fetch request = None
              \/ exists response,
                   fetch request = Some response
                   /\ ((ok response = false
                        /\ SentimentAnalyticsService.text response = Thrown)
                       \/ (ok response = true
                           /\ (json response = Thrown
                               \/ exists body,
                                    json response = Returned body
                                    /\ parseAzureTextAnalyticsResponse body
                                       = Thrown))))).
Proof.
  intros Hurl Hset. cbv zeta.
  unfold callAzureTextAnalytics, AbortSignal_timeout. cbv zeta.
  destruct url as [|c url]; [now destruct Hset|]. rewrite Hurl.
  destruct (signalDelay cfg <? 0)%Z eqn:Hneg; cbn [orb].
  { apply Z.ltb_lt in Hneg. split; [now left | reflexivity]. }
  apply Z.ltb_ge in Hneg.
  destruct (maxDelay <? signalDelay cfg)%Z eqn:Hbig.
  { apply Z.ltb_lt in Hbig. split; [now right; left | reflexivity]. }
  apply Z.ltb_ge in Hbig.
  destruct (fetch _) as [response|] eqn:Hfetch.
  2:{ split; [intros _; right; right; split; [lia | now left] | reflexivity]. }
  destruct (ok response) eqn:Hok; cbn [negb].
  - destruct (json response) as [body|] eqn:Hjson.
    + split.
      * intros Hparse. right; right. split; [lia|]. right.
        exists response. split; [reflexivity|]. right.
        split; [exact Hok|]. right. exists body. now split.
      * intros [H | [H | (_ & [H | (r & Hr & H)])]]; try lia; try discriminate.
        injection Hr as <-.
        destruct H as [(H & _) | (_ & [H | (b & Hb & H)])]; congruence.
    + split; [|reflexivity]. intros _. right; right. split; [lia|]. right.
      exists response. split; [reflexivity|]. right. split; [exact Hok | now left].
  - destruct (SentimentAnalyticsService.text response) as [t|] eqn:Htext.
    + split; [discriminate|].
      intros [H | [H | (_ & [H | (r & Hr & H)])]]; try lia; try discriminate.
      injection Hr as <-.
      destruct H as [(_ & H) | (H & _)]; congruence.
    + split; [|reflexivity]. intros _. right; right. split; [lia|]. right.
      exists response. split; [reflexivity|]. left. now split.
Qed.

(** Whatever the service answers, the REST analysis logs at most one event,
    and the event tells the outcome.  Nothing is logged exactly when the run
    stops at the checks: the effective configuration is not enabled or has
    no endpoint or no key, or the filtered transcript is empty.  Past the
    checks, the event is a failure error exactly when the call throws, a
    failure warning exactly when the call returns null, and a completion
    exactly when it returns a result; that result is the answer, and it is
    on the CSAT scale.  A delay of the abort signal that the platform
    refuses, a negative one first of all, makes the call throw whatever
    [fetch] would answer. *)
Theorem analyzeSentiments_variant_outcome :
  let cfg := effectiveConfig config in
  let transcript := SentimentAnalyticsService.filteredMessages now messages in
  let run :=
    SentimentAnalyticsService.analyzeSentiments maxDelay fetch now messages config in
  let call := callAzureTextAnalytics maxDelay fetch transcript cfg in
  let ready :=
    read (enabled cfg) = Some true
    /\ truthy_string (read (endpoint cfg)) = true
    /\ truthy_string (read (apiKey cfg)) = true
    /\ transcript <> [] in
  (fst run = [] <-> ~ ready)
  /\ (fst run = [(ERROR, CSATAnalysisFailed)] <-> ready /\ call = Thrown)
  /\ (fst run = [(WARN, CSATAnalysisFailed)] <-> ready /\ call = Returned None)
  /\ (fst run = [(INFO, CSATAnalysisCompleted)]
      <-> ready /\ exists csat, call = Returned (Some csat))
  /\ (forall csat,
        snd run = Some csat <-> ready /\ call = Returned (Some csat))
  /\ (forall csat, snd run = Some csat -> onScale csat)
  /\ (ready ->
      (signalDelay cfg < 0)%Z \/ (maxDelay < signalDelay cfg)%Z ->
      run = ([(ERROR, CSATAnalysisFailed)], None))
  /\ (forall url,
        read (endpoint cfg) = Some url -> url <> "" ->
        let request :=
          requestOf cfg url (conversationText transcript) (signalDelay cfg) in
        call = Thrown
        <-> (signalDelay cfg < 0)%Z \/ (maxDelay < signalDelay cfg)%Z
            \/ ((0 <= signalDelay cfg <= maxDelay)%Z
                /\ (fetch request = None
                    \/ exists response,
                         fetch request = Some response
                         /\ ((ok response = false
                              /\ SentimentAnalyticsService.text response = Thrown)
                             \/ (ok response = true
                                 /\ (json response = Thrown
                                     \/ exists body,
                                          json response = Returned body
                                          /\ parseAzureTextAnalyticsResponse body
                                             = Thrown)))))).
Proof.
  cbv zeta.
  assert (Hcauses := callAzureTextAnalytics_throws
                       (SentimentAnalyticsService.filteredMessages now messages)
                       (effectiveConfig config)).
  cbv zeta in Hcauses.
  assert (Hscale : forall csat,
            callAzureTextAnalytics maxDelay fetch
              (SentimentAnalyticsService.filteredMessages now messages)
              (effectiveConfig config) = Returned (Some csat) ->
            onScale csat).
  { intros csat Hcall.
    unfold callAzureTextAnalytics in Hcall. cbv zeta in Hcall.
    destruct (AbortSignal_timeout _ _); [|discriminate].
    destruct (read (endpoint _)) as [[|c rest]|]; try discriminate.
    destruct (fetch _) as [response|]; [|discriminate].
    destruct (negb (ok response)).
    { destruct (SentimentAnalyticsService.text response); discriminate. }
    destruct (json response) as [body|]; [|discriminate].
    destruct (reportsError body) eqn:Herr.
    - rewrite (proj1 (parsers_compared body) Herr) in Hcall. discriminate.
    - apply (proj2 (parsers_compared body) Herr) in Hcall.
      symmetry in Hcall. exact (parseAzureSDKResponse_onScale _ Hcall). }
  unfold SentimentAnalyticsService.analyzeSentiments. cbv zeta.
  destruct (_ || _ || _)%bool eqn:Hchecks.
  { assert (Hnot : ~ (read (enabled (effectiveConfig config)) = Some true
                      /\ truthy_string (read (endpoint (effectiveConfig config))) = true
                      /\ truthy_string (read (apiKey (effectiveConfig config))) = true
                      /\ SentimentAnalyticsService.filteredMessages now messages <> [])).
    { intros (H1 & H2 & H3 & _).
      assert (H : negb (truthy (read (enabled (effectiveConfig config))))
                  || negb (truthy_string (read (endpoint (effectiveConfig config))))
                  || negb (truthy_string (read (apiKey (effectiveConfig config))))
                  = false) by (apply variant_checks_bool; auto).
      congruence. }
    cbn [fst snd]. split; [tauto|].
    split; [split; [discriminate | tauto]|].
    split; [split; [discriminate | tauto]|].
    split; [split; [discriminate | tauto]|].
    split; [intros csat; split; [discriminate | tauto]|].
    split; [discriminate|]. split; [tauto | exact Hcauses]. }
  apply variant_checks_bool in Hchecks as (Henabled & Hendpoint & HapiKey).
  destruct (SentimentAnalyticsService.filteredMessages now messages)
    as [|message transcript] eqn:Ht; cbn [List.length Nat.eqb].
  { assert (Hnot : ~ (read (enabled (effectiveConfig config)) = Some true
                      /\ truthy_string (read (endpoint (effectiveConfig config))) = true
                      /\ truthy_string (read (apiKey (effectiveConfig config))) = true
                      /\ @nil ChatMessage.t <> []))
      by (intros (_ & _ & _ & H); now apply H).
    cbn [fst snd]. split; [tauto|].
    split; [split; [discriminate | tauto]|].
    split; [split; [discriminate | tauto]|].
    split; [split; [discriminate | tauto]|].
    split; [intros csat; split; [discriminate | tauto]|].
    split; [discriminate|]. split; [tauto | exact Hcauses]. }
  assert (Hready : read (enabled (effectiveConfig config)) = Some true
                   /\ truthy_string (read (endpoint (effectiveConfig config))) = true
                   /\ truthy_string (read (apiKey (effectiveConfig config))) = true
                   /\ message :: transcript <> [])
    by (repeat split; try assumption; discriminate).
  assert (Hrefused :
            (signalDelay (effectiveConfig config) < 0)%Z
            \/ (maxDelay < signalDelay (effectiveConfig config))%Z ->
            callAzureTextAnalytics maxDelay fetch (message :: transcript)
              (effectiveConfig config) = Thrown).
  { intros Hdelay. unfold callAzureTextAnalytics, AbortSignal_timeout. cbv zeta.
    replace ((signalDelay (effectiveConfig config) <? 0)%Z
             || (maxDelay <? signalDelay (effectiveConfig config))%Z)
      with true; [reflexivity|].
    symmetry. apply orb_true_iff.
    destruct Hdelay; [left | right]; now apply Z.ltb_lt. }
  destruct (callAzureTextAnalytics maxDelay fetch (message :: transcript)
              (effectiveConfig config)) as [[csat|]|] eqn:Hcall; cbn [fst snd].
  - split; [split; [discriminate | tauto]|].
    split; [split; [discriminate | intros (_ & H); discriminate]|].
    split; [split; [discriminate | intros (_ & H); discriminate]|].
    split; [split; [intros _; split; [exact Hready | now exists csat] | reflexivity]|].
    split.
    + intros csat'. split.
      * intros H. injection H as <-. now split.
      * intros (_ & H). now injection H as <-.
    + split; [|split].
      * intros csat' H. injection H as <-. now apply Hscale.
      * intros _ Hdelay. apply Hrefused in Hdelay. discriminate.
      * exact Hcauses.
  - split; [split; [discriminate | tauto]|].
    split; [split; [discriminate | intros (_ & H); discriminate]|].
    split; [split; [intros _; now split | reflexivity]|].
    split; [split; [discriminate | intros (_ & csat & H); discriminate]|].
    split; [intros csat; split; [discriminate | intros (_ & H); discriminate]|].
    split; [discriminate|]. split; [|exact Hcauses].
    intros _ Hdelay. apply Hrefused in Hdelay. discriminate.
  - split; [split; [discriminate | tauto]|].
    split; [split; [intros _; now split | reflexivity]|].
    split; [split; [discriminate | intros (_ & H); discriminate]|].
    split; [split; [discriminate | intros (_ & csat & H); discriminate]|].
    split; [intros csat; split; [discriminate | intros (_ & H); discriminate]|].
    split; [discriminate|]. split; [reflexivity | exact Hcauses].
Qed.

End VariantPipeline.

(* ================================================================== *)
(** * The further properties at concrete inputs *)
(* ================================================================== *)

Section FurtherInstances.
Import JS JSString SentimentAnalysisService.
Import Guard ConfirmationPane ChatInputAttachments AIFluentSendbox Samples.
Local Open Scope string_scope.
#[local] Set Warnings "-inexact-float".

(** The survey activity with text "3" gives a survey with response "3". *)
Lemma extractSurveyResponse_accepts_witness :
  exists survey,
    extractSurveyResponse "2025-01-01T00:00:00.000Z" (Some (surveyActivity "3"))
    = Some survey
    /\ Some "3" = Some (CopilotSurveyResponse.response survey)
    /\ extractSurveyResponse "2025-01-01T00:00:00.000Z" None = None.
Proof.
  destruct (proj2 (extractSurveyResponse_accepts "2025-01-01T00:00:00.000Z"
                     (Some (surveyActivity "3"))) eq_refl)
    as (a & survey & Ha & Hsome & Htext & _).
  injection Ha as <-.
  exists survey. split; [exact Hsome|]. split; [exact Htext|].
  exact (proj1 (extractSurveyResponse_accepts "2025-01-01T00:00:00.000Z" None)
           eq_refl).
Defined.

(** The survey extracted from the activity with text "4" scores 4. *)
Lemma extracted_survey_scores_witness :
  exists n : Z,
    (1 <= n <= 5)%Z
    /\ parseInt "4" = Some n
    /\ csatScore (createCSATFromSurvey
                    {| CopilotSurveyResponse.response := "4";
                       CopilotSurveyResponse.timestamp := "2025-01-01T00:00:00.000Z";
                       CopilotSurveyResponse.conversationId := None;
                       CopilotSurveyResponse.userId := None;
                       CopilotSurveyResponse.botId := Some "bot-1";
                       CopilotSurveyResponse.confidence := Some 95%float |})
       = Number n.
Proof.
  destruct (@extracted_survey_scores "2025-01-01T00:00:00.000Z"
              (Some (surveyActivity "4")) _ satisfiedResult eq_refl)
    as (n & Hn & Hparse & Hscore & _).
  exists n. split; [exact Hn|]. split; [exact Hparse | exact Hscore].
Defined.

(** An agent message with content is kept. *)
Lemma filteredMessages_kept_witness :
  In (toChatMessage "2025-01-01T00:00:00.000Z" untaggedAgentMessage)
     (filteredMessages "2025-01-01T00:00:00.000Z"
        [untaggedCustomerFieldMessage; untaggedAgentMessage]).
Proof.
  apply (proj1 (proj2 (filteredMessages_kept "2025-01-01T00:00:00.000Z"
                         [untaggedCustomerFieldMessage; untaggedAgentMessage]))).
  - right. left. reflexivity.
  - discriminate.
  - exists "How can I help you?". split; reflexivity.
Defined.

(** The configuration [{ enabled: undefined }] switches the analysis off. *)
Lemma analyzeSentiments_gate_witness :
  analyzeSentiments (fun _ => None) "2025-01-01T00:00:00.000Z"
    [untaggedAgentMessage] (Some enabledUndefined)
  = ([], None).
Proof.
  apply (proj2 (analyzeSentiments_gate (fun _ => None) "2025-01-01T00:00:00.000Z"
                  [untaggedAgentMessage] (Some enabledUndefined))).
  left. exists enabledUndefined. split; [reflexivity|].
  left. exists None. split; [reflexivity | discriminate].
Defined.

(** A confidently negative document is Very Dissatisfied or Dissatisfied. *)
Lemma parseAzureSDKResponse_coherent_witness :
  exists csat,
    parseAzureSDKResponse (providerResult "negative" (scores 0.05 0.9 0.05))
    = Some csat
    /\ sentiment csat = mapScoreToSentiment (csatScore csat).
Proof.
  destruct (@parseAzureSDKResponse_coherent "negative" (scores 0.05 0.9 0.05))
    as (csat & Hparse & Hsentiment & _).
  - right. left. reflexivity.
  - exists csat. split; [exact Hparse | exact Hsentiment].
Defined.

(** An AI score of 4 and the survey "5": the blend is within one of 5. *)
Lemma combineSentimentAndSurvey_follows_survey_witness :
  exists k : Z,
    csatScore (combineSentimentAndSurvey satisfiedResult (surveyOf "5")) = Number k
    /\ (Z.abs (k - 5) <= 1)%Z.
Proof.
  destruct (@combineSentimentAndSurvey_follows_survey satisfiedResult
              (surveyOf "5") 5%Z 4%Z)
    as (k & Hscore & _ & Hnear & _).
  - reflexivity.
  - lia.
  - lia.
  - reflexivity.
  - exists k. split; [exact Hscore | exact Hnear].
Defined.

(** Two short messages are sent whole. *)
Lemma buildConversationText_whole_witness :
  buildConversationText
    ([messageOfLength customer 10] ++ [messageOfLength agent 20])
  = transcriptText ([messageOfLength customer 10] ++ [messageOfLength agent 20]).
Proof.
  apply (@buildConversationText_whole [messageOfLength customer 10]
           (messageOfLength agent 20)).
  apply Nat.leb_le. reflexivity.
Defined.

(** In an Active chat whose user has not confirmed, Cancel hides the pane
    and the automatic dismissal does not. *)
Lemma pane_hidden_by_one_witness :
  In dismissal
     (effectsOf (fst (onCancel
        {| appStates := Some activeChat;
           domainStates := Some {| confirmationState := ConfirmationState.NotSet |};
           uiStates := Some {| showConfirmationPane := true |} |}))).
Proof.
  apply (proj1 (proj2 (pane_hidden_by_one
           {| appStates := Some activeChat;
              domainStates := Some {| confirmationState := ConfirmationState.NotSet |};
              uiStates := Some {| showConfirmationPane := true |} |}))).
  reflexivity.
Defined.

(** Cancel in an Active chat puts the focus back on the close button. *)
Lemma onCancel_restores_focus_witness :
  exists focus,
    onCancel
      {| appStates := Some activeChat;
         domainStates := Some {| confirmationState := ConfirmationState.NotSet |};
         uiStates := None |}
    = ((logActionEvent ConfirmationCancelButtonClicked
        :: send SET_SHOW_CONFIRMATION (PBool false)
        :: send SET_CONFIRMATION_STATE (PConfirmation ConfirmationState.Cancel)
        :: focus ++ [effect (setTabIndices true)])%list,
       Completed)
    /\ focus = [ setFocusOnElement "#oc-lcw-header-close";
                 send SET_PREVIOUS_FOCUSED_ELEMENT_ID PNull ].
Proof.
  destruct (@onCancel_restores_focus activeChat ConfirmationState.NotSet None)
    as (focus & Hcancel & Hfocus & _).
  - discriminate.
  - exists focus. split; [exact Hcancel|].
    apply (Hfocus "oc-lcw-header-close"); [reflexivity | discriminate].
Defined.

(** The id of the second of two attachments of one name finds index 2. *)
Lemma handleDismiss_finds_index_witness :
  handleDismiss pending "2-Report.PDF" = Some 2.
Proof.
  exact (proj1 (handleDismiss_finds_index pending) 2 (attach report) eq_refl).
Defined.

(** Removing at an index past the end keeps the three attachments. *)
Lemma removeAttachmentAt_removes_witness :
  wcAttachments (removeAttachmentAt sendbox 3) = Some pending
  /\ List.length (current (removeAttachmentAt sendbox 1)) = 2.
Proof.
  split.
  - apply (proj1 (proj2 (removeAttachmentAt_removes sendbox 3))).
    apply Nat.leb_le. reflexivity.
  - apply (proj1 (proj2 (proj2 (removeAttachmentAt_removes sendbox 1)))).
    apply Nat.ltb_lt. reflexivity.
Defined.

(** Dismissing the photo leaves the two reports. *)
Lemma dismiss_removes_that_attachment_witness :
  exists index,
    handleDismiss pending "1-photo.png" = Some index
    /\ wcAttachments (removeAttachmentAt sendbox index)
       = Some [attach report; attach report].
Proof.
  destruct (@dismiss_removes_that_attachment sendbox 1 (attach photo) eq_refl)
    as (index & Hfound & Hleft).
  exists index. split; [exact Hfound | exact Hleft].
Defined.

(** Adding a photo and a film too large to three attachments adds the
    photo only. *)
Lemma validateAndAddFiles_capacity_witness :
  current (validateAndAddFiles None sendbox [photo; movie])
  = (pending ++ [attach photo])%list
  /\ List.length (current (validateAndAddFiles None sendbox [photo; movie])) <= 10.
Proof.
  apply (proj1 (validateAndAddFiles_capacity None sendbox [photo; movie])).
  apply Nat.leb_le. reflexivity.
Defined.

(** Blank text and no attachment: nothing is sent. *)
Lemma onSubmitText_sends_witness :
  fst (onSubmitText emptySendbox (Some "   ")) = None
  /\ snd (onSubmitText emptySendbox (Some "   ")) = emptySendbox.
Proof.
  assert (H : fst (onSubmitText emptySendbox (Some "   ")) = None).
  { apply (proj1 (onSubmitText_sends emptySendbox (Some "   "))).
    split; [right; exists "   "; split; reflexivity | reflexivity]. }
  split; [exact H|].
  exact (proj1 (proj2 (onSubmitText_sends emptySendbox (Some "   "))) H).
Defined.

(** In an Active chat in an open window an end of chat is not blocked. *)
Lemma sendbox_shown_guards_witness :
  shouldPreventEndChat (context activeChat ConfirmationState.NotSet false) = false
  /\ autoDismissEffect (context activeChat ConfirmationState.NotSet false) = [].
Proof.
  destruct (@sendbox_shown_guards activeChat ConfirmationState.NotSet false false
              eq_refl)
    as (_ & _ & Hend & Hauto & _).
  split; [exact Hend | exact Hauto].
Defined.

(** With "image/*" accepted, a PNG photo is turned away: the pattern is
    compared with the end of the name. *)
Lemma typeOk_patterns_witness :
  typeOk (Some "image/*") photo = false.
Proof.
  rewrite (proj2 (proj2 (proj2 (proj2 (proj2
             (typeOk_patterns (Some "image/*") photo))))) "image/*" eq_refl).
  - reflexivity.
  - cbn. tauto.
  - cbn. intuition discriminate.
Defined.

(** "Report.PDF" has the icon of "pdf". *)
Lemma getFileIcon_by_extension_witness :
  getFileIcon ("Report" ++ "." ++ "PDF") = getFileIcon "pdf".
Proof.
  apply (proj1 (@getFileIcon_by_extension "Report" "PDF"
                  ltac:(cbn; intuition discriminate))).
Defined.

(** A message tagged "FromCustomer" is the customer's for both services. *)
Lemma determineSender_variants_agree_on_customer_witness :
  SentimentAnalyticsService.determineSender
    (messageOf (Some "FromCustomer,public") None None)
  = customer.
Proof.
  apply (@determineSender_variants_agree_on_customer
           (messageOf (Some "FromCustomer,public") None None)).
  reflexivity.
Defined.

(** An untagged message of the user "Contoso Virtual Assistant" is the
    bot's for the REST variant, and one of "Agent Smith" the agent's. *)
Lemma determineSender_variant_priorities_witness :
  SentimentAnalyticsService.determineSender
    (messageOf None (Some "Contoso Virtual Assistant") (Some "customer"))
  = bot
  /\ SentimentAnalyticsService.determineSender
       (messageOf None (Some "Agent Smith") None)
     = agent.
Proof.
  split.
  - exact (proj1 (proj2 (determineSender_variant_priorities
             (messageOf None (Some "Contoso Virtual Assistant") (Some "customer"))))
             eq_refl eq_refl).
  - exact (proj1 (proj2 (proj2 (determineSender_variant_priorities
             (messageOf None (Some "Agent Smith") None))))
             eq_refl eq_refl eq_refl).
Defined.

(** A message tagged "public" only is kept by the REST variant as well. *)
Lemma keepMessage_variant_stricter_witness :
  SentimentAnalyticsService.keepMessage (messageOf (Some "public") None None) = true.
Proof.
  apply (proj2 (proj1 (keepMessage_variant_stricter "2025-01-01T00:00:00.000Z" [])
                  (messageOf (Some "public") None None))).
  split; [reflexivity | split; reflexivity].
Defined.

(** Of a text of 5101 code units whose last 4997 hold a line break after
    six of them, what follows that line break is sent. *)
Lemma truncate_budget_witness :
  SentimentAnalyticsService.truncate longText = run "y" 4990.
Proof.
  refine (proj1 (proj1 (proj2 (proj2 (proj2 (proj2 (truncate_budget longText)) _)))
                   (run "x" 6) (run "y" 4990) _ _ _)).
  - apply Nat.ltb_lt. vm_compute. reflexivity.
  - vm_compute. reflexivity.
  - cbn. intuition discriminate.
  - apply Nat.ltb_lt. reflexivity.
Defined.

(** With the configuration [{ timeout: -1 }] the run ends in a failure
    error, whatever [fetch] would answer. *)
Lemma analyzeSentiments_variant_outcome_witness :
  SentimentAnalyticsService.analyzeSentiments (2 ^ 53 - 1) (fun _ => None)
    "2025-01-01T00:00:00.000Z" [untaggedAgentMessage] (Some negativeTimeout)
  = ([(ERROR, CSATAnalysisFailed)], None).
Proof.
  apply (proj1 (proj2 (proj2 (proj2 (proj2 (proj2 (proj2
           (analyzeSentiments_variant_outcome (2 ^ 53 - 1) (fun _ => None)
              "2025-01-01T00:00:00.000Z" [untaggedAgentMessage]
              (Some negativeTimeout))))))))).
  - split; [reflexivity|]. split; [reflexivity|]. split; [reflexivity|].
    discriminate.
  - left. reflexivity.
Defined.

(** A response with one positive document is parsed as the SDK parser
    parses the document. *)
Lemma parsers_agree_witness :
  exists result,
    SentimentAnalyticsService.parseAzureTextAnalyticsResponse positiveResponse
    = SentimentAnalyticsService.Returned result
    /\ result = parseAzureSDKResponse
                  (SentimentAnalyticsService.firstDocument positiveResponse).
Proof.
  eexists. split; [reflexivity|].
  apply (proj1 (proj2 (parsers_agree positiveResponse)) eq_refl). reflexivity.
Defined.

End FurtherInstances.
